(** * Seafood purchasing app: quota ledger, purchase-order numbering and
      the shipment approval workflow

    A shallow embedding of the TypeScript sources

      - [utils/purchaseOrderUtils.ts]   (purchase-order numbers),
      - [utils/dateUtils.ts]            (Sunday-aligned weeks),
      - [hooks/useAppState.tsx]         ([appReducer], [getQuotaStatus]),
      - [components/PurchaseForm.tsx]   ([handleSubmit]),
      - [components/PendingPurchases.tsx] ([handleApproveShipment]),
      - [components/Settings.tsx]       ([handleProductChange], [handleSave]),
      - [components/PurchasesList.tsx]  (the listed shipments, the arrival badge),
      - [utils/analytics.ts]            (date ranges, the summary and the chart),

    followed by the properties of the specification that concern them and by
    further properties of the sources.

    Modelling conventions.
      - A JavaScript [number] holding pounds or a quota is a rational ([Q]);
        sums are compared with [==].  Rounding of IEEE doubles, [NaN] and the
        infinities are outside the model.
      - A JavaScript [Date] is its time value, an integer number of
        milliseconds since the epoch ([Z]); the local time zone is UTC, so a
        calendar day always lasts 86400000 ms.
      - [new Date()] and [Date.now()] are read from an explicit clock argument.
      - The functions of the date-fns library ([startOfWeek], [format]) and the
        built-in methods of [Date], [String] and [parseInt] are written out
        from their documented behaviour, on ASCII strings.
      - Arrays are lists; [filter], [map], [find], [some] and [reduce] are
        [filter], [map], [find], [existsb] and [fold_left].
      - An optional field is an [option].
      - Notification calls (Slack, SMS) and React local state do not touch the
        store and are left out. *)

From Stdlib Require Import ZArith QArith Qabs Lia List Bool.
From Stdlib Require Import Ascii String.
From Stdlib Require Import DecimalString.
From Stdlib Require DecimalPos.
From Stdlib Require Import Sorted.
Import ListNotations.

Local Open Scope string_scope.
Local Open Scope Z_scope.

(* ===================================================================== *)
(** ** JavaScript primitives used by the sources *)
(* ===================================================================== *)

Module JS.

(** [String(n)] for an integral number. *)
Definition toString (n : Z) : string := NilZero.string_of_int (Z.to_int n).

(** [s.startsWith(p)]. *)
Definition startsWith (s p : string) : bool := String.prefix p s.

Fixpoint repeat0 (n : nat) : string :=
  match n with
  | O => ""
  | S k => String "0" (repeat0 k)
  end.

(** [s.padStart(n, '0')]. *)
Definition padStart0 (n : nat) (s : string) : string :=
  repeat0 (n - String.length s) ++ s.

(** [s.split(sep)] for a one-character separator: never empty. *)
Fixpoint split (sep : ascii) (s : string) : list string :=
  match s with
  | "" => [""]
  | String c r =>
      if Ascii.eqb c sep then "" :: split sep r
      else match split sep r with
           | h :: t => String c h :: t
           | [] => [String c ""]
           end
  end.

Definition isDigit (c : ascii) : bool :=
  let n := nat_of_ascii c in (48 <=? n)%nat && (n <=? 57)%nat.

Definition digitVal (c : ascii) : Z := Z.of_nat (nat_of_ascii c) - 48.

Fixpoint allDigits (s : string) : bool :=
  match s with
  | "" => true
  | String c r => isDigit c && allDigits r
  end.

(** White space skipped by [parseInt], [trim] and [Number] (ASCII part). *)
Definition isSpace (c : ascii) : bool :=
  let n := nat_of_ascii c in
  (n =? 32)%nat || ((9 <=? n)%nat && (n <=? 13)%nat).

Fixpoint trimStart (s : string) : string :=
  match s with
  | String c r => if isSpace c then trimStart r else s
  | "" => ""
  end.

(** Value of the longest digit prefix; [seen] records that a digit was read. *)
Fixpoint digitsPrefix (acc : Z) (seen : bool) (s : string) : option Z :=
  match s with
  | String c r =>
      if isDigit c then digitsPrefix (10 * acc + digitVal c) true r
      else if seen then Some acc else None
  | "" => if seen then Some acc else None
  end.

(** [parseInt(s, 10)]: leading white space, an optional sign, then the
    longest run of decimal digits; [None] is [NaN]. *)
Definition parseInt (s : string) : option Z :=
  match trimStart s with
  | String "+" r => digitsPrefix 0 false r
  | String "-" r => option_map Z.opp (digitsPrefix 0 false r)
  | t => digitsPrefix 0 false t
  end.

Fixpoint trimEnd (s : string) : string :=
  match s with
  | "" => ""
  | String c r =>
      match trimEnd r with
      | "" => if isSpace c then "" else String c ""
      | r' => String c r'
      end
  end.

(** [s.trim()]. *)
Definition trim (s : string) : string := trimEnd (trimStart s).

(** Truthiness of a string. *)
Definition truthy (s : string) : bool := negb (s =? "")%string.

End JS.

(* ===================================================================== *)
(** ** Dates *)
(* ===================================================================== *)

(** A [Date] is its time value in milliseconds; local time is UTC. *)
Definition Date := Z.

Module DateJS.

Definition msPerDay : Z := 86400000.

(** Days since 1970-01-01 of the calendar day containing the instant. *)
Definition dayNumber (d : Date) : Z := d / msPerDay.

(** Proleptic Gregorian calendar: (year, month 1..12, day 1..31) of a day
    number. *)
Definition civilFromDays (z : Z) : Z * Z * Z :=
  let z := z + 719468 in
  let era := z / 146097 in
  let doe := z mod 146097 in
  let yoe := (doe - doe / 1460 + doe / 36524 - doe / 146096) / 365 in
  let doy := doe - (365 * yoe + yoe / 4 - yoe / 100) in
  let mp := (5 * doy + 2) / 153 in
  let d := doy - (153 * mp + 2) / 5 + 1 in
  let m := if mp <? 10 then mp + 3 else mp - 9 in
  let y := yoe + era * 400 + (if m <=? 2 then 1 else 0) in
  (y, m, d).

(** Day number of a civil date; [d] may lie outside the month and then
    spills over, as in [new Date(y, m, d)]. *)
Definition daysFromCivil (y m d : Z) : Z :=
  let y := if m <=? 2 then y - 1 else y in
  let era := y / 400 in
  let yoe := y - era * 400 in
  let doy := (153 * (if 2 <? m then m - 3 else m + 9) + 2) / 5 + d - 1 in
  let doe := yoe * 365 + yoe / 4 - yoe / 100 + doy in
  era * 146097 + doe - 719468.

Definition getFullYear (d : Date) : Z := fst (fst (civilFromDays (dayNumber d))).
(** Zero-based month, as in JavaScript. *)
Definition getMonth (d : Date) : Z := snd (fst (civilFromDays (dayNumber d))) - 1.
Definition getDate (d : Date) : Z := snd (civilFromDays (dayNumber d)).
(** Day of the week, Sunday = 0; 1970-01-01 was a Thursday. *)
Definition getDay (d : Date) : Z := (dayNumber d + 4) mod 7.

(** [new Date(year, monthIndex, day)]: local midnight; the month index
    is normalised into the year, two-digit years count from 1900. *)
Definition mkDate (year monthIndex day : Z) : Date :=
  let year := if (0 <=? year) && (year <=? 99) then 1900 + year else year in
  let y := year + monthIndex / 12 in
  let m := monthIndex mod 12 + 1 in
  (daysFromCivil y m 1 + (day - 1)) * msPerDay.

(** [d.setDate(d.getDate() - n)]: the same time of day, [n] days earlier. *)
Definition minusDays (d : Date) (n : Z) : Date := d - n * msPerDay.

(** date-fns [startOfWeek(d, { weekStartsOn: 0 })]. *)
Definition startOfWeek (d : Date) : Date :=
  (dayNumber d - getDay d) * msPerDay.

(** date-fns [format(d, 'yyyy-MM-dd')] (years 0 to 9999). *)
Definition format_yyyy_MM_dd (d : Date) : string :=
  JS.padStart0 4 (JS.toString (getFullYear d)) ++ "-"
  ++ JS.padStart0 2 (JS.toString (getMonth d + 1)) ++ "-"
  ++ JS.padStart0 2 (JS.toString (getDate d)).

End DateJS.

(** *** utils/dateUtils.ts *)

Definition getWeekStart (date : Date) : Date := DateJS.startOfWeek date.

Definition getWeekKey (date : Date) : string :=
  DateJS.format_yyyy_MM_dd (getWeekStart date).

(** [Number(s)] restricted to what an HTML date input delivers: a run of
    decimal digits.  Anything else is outside the model ([None]). *)
Definition numberOfField (s : string) : option Z :=
  match s with
  | "" => None
  | _ => if JS.allDigits s then JS.parseInt s else None
  end.

(** [parseDateInput]: the string is split at ['-'], the three fields are
    converted with [Number] and passed to [new Date(year, month - 1, day)].
    [None] stands for an input that is not [YYYY-MM-DD]. *)
Definition parseDateInput (dateString : string) : option Date :=
  match map numberOfField (JS.split "-" dateString) with
  | Some year :: Some month :: Some day :: _ =>
      Some (DateJS.mkDate year (month - 1) day)
  | _ => None
  end.

(* ===================================================================== *)
(** ** Data model ([types/index.ts]) *)
(* ===================================================================== *)

Module Product.
Record t := mk { id : string; name : string; minQuota : Q; maxQuota : Q }.
End Product.

Module PurchaseItem.
Record t := mk
  { id : string; sizeCategory : string; pounds : Q; cost : Q;
    notes : option string }.
End PurchaseItem.

Module ProductPurchase.
Record t := mk
  { id : string; productId : string; customProductName : option string;
    totalPounds : Q; items : list PurchaseItem.t }.
End ProductPurchase.

Inductive ApprovalStatus := approved | pending | rejected.

Definition ApprovalStatus_eqb (a b : ApprovalStatus) : bool :=
  match a, b with
  | approved, approved | pending, pending | rejected, rejected => true
  | _, _ => false
  end.

Module Shipment.
Record t := mk
  { id : string; shipper : string; estimatedArrival : Date;
    purchaseDate : Date; weekStartDate : Date;
    products : list ProductPurchase.t; createdAt : Date;
    approvalStatus : ApprovalStatus;
    purchaseOrderNumber : option string;
    rejectedAt : option Date;
    purchaserId : option string }.

(** [{ ...s, approvalStatus: st, rejectedAt: r }] *)
Definition withStatusRejectedAt (s : t) (st : ApprovalStatus) (r : option Date) : t :=
  mk (id s) (shipper s) (estimatedArrival s) (purchaseDate s) (weekStartDate s)
     (products s) (createdAt s) st (purchaseOrderNumber s) r (purchaserId s).

(** [{ ...s, approvalStatus: st, purchaseOrderNumber: po }] *)
Definition withStatusPO (s : t) (st : ApprovalStatus) (po : option string) : t :=
  mk (id s) (shipper s) (estimatedArrival s) (purchaseDate s) (weekStartDate s)
     (products s) (createdAt s) st po (rejectedAt s) (purchaserId s).
End Shipment.

Module Purchase.
Record t := mk
  { id : string; productId : string; totalPounds : Q; purchaseDate : Date;
    weekStartDate : Date; shipper : string; estimatedArrival : Date;
    items : list PurchaseItem.t; createdAt : Date;
    shipmentId : option string }.
End Purchase.

Module WeeklyQuota.
Record t := mk
  { id : string; productId : string; weekStartDate : Date; currentTotal : Q;
    minQuota : Q; maxQuota : Q }.
End WeeklyQuota.

Inductive QuotaLevel := under | good | near_max | over.

Module QuotaStatus.
Record t := mk
  { product : Product.t; currentTotal : Q; minQuota : Q; maxQuota : Q;
    percentage : Q; status : QuotaLevel }.
End QuotaStatus.

(* ===================================================================== *)
(** ** The store ([hooks/useAppState.tsx]) *)
(* ===================================================================== *)

Record AppState := mkState
  { products : list Product.t;
    purchases : list Purchase.t;
    shipments : list Shipment.t;
    weeklyQuotas : list WeeklyQuota.t;
    viewingWeekStart : Date }.

Inductive Direction := prev | next.

Inductive AppAction :=
| ADD_PURCHASE (purchase : Purchase.t)
| ADD_SHIPMENT (shipment : Shipment.t)
| EDIT_SHIPMENT (shipment : Shipment.t)
| DELETE_SHIPMENT (shipmentId : string)
| REJECT_SHIPMENT (shipmentId : string)
| UNREJECT_SHIPMENT (shipmentId : string)
| DELETE_OLD_REJECTED
| UPDATE_PRODUCT (product : Product.t)
| SET_WEEKLY_QUOTA (quota : WeeklyQuota.t)
| SET_VIEWING_WEEK (weekStart : Date)
| NAVIGATE_WEEK (direction : Direction).

(** [p.shipmentId !== id]: an absent [shipmentId] differs from every id. *)
Definition shipmentId_is (id : string) (p : Purchase.t) : bool :=
  match Purchase.shipmentId p with
  | Some i => (i =? id)%string
  | None => false
  end.

Definition shipmentId_isnt (id : string) (p : Purchase.t) : bool :=
  negb (shipmentId_is id p).

(** The flat purchase derived from one product line of a shipment. *)
Definition derivedPurchase (s : Shipment.t) (product : ProductPurchase.t) : Purchase.t :=
  Purchase.mk
    (Shipment.id s ++ "_" ++ ProductPurchase.id product)
    (ProductPurchase.productId product)
    (ProductPurchase.totalPounds product)
    (Shipment.purchaseDate s)
    (Shipment.weekStartDate s)
    (Shipment.shipper s)
    (Shipment.estimatedArrival s)
    (ProductPurchase.items product)
    (Shipment.createdAt s)
    (Some (Shipment.id s)).

(** [approvalStatus !== 'rejected' ? products.map(...) : []] *)
Definition shipmentPurchases (s : Shipment.t) : list Purchase.t :=
  match Shipment.approvalStatus s with
  | rejected => []
  | _ => map (derivedPurchase s) (Shipment.products s)
  end.

Definition hasId (id : string) (s : Shipment.t) : bool :=
  (Shipment.id s =? id)%string.

(** [shipments.map(s => s.id === id ? s' : s)] *)
Definition replaceShipment (id : string) (s' : Shipment.t) (l : list Shipment.t) :=
  map (fun s => if hasId id s then s' else s) l.

(** The predicate of the retention sweep: [true] keeps the shipment. *)
Definition sweepKeeps (thirtyDaysAgo : Date) (s : Shipment.t) : bool :=
  match Shipment.approvalStatus s with
  | rejected =>
      match Shipment.rejectedAt s with
      | None => true
      | Some r => thirtyDaysAgo <? r
      end
  | _ => true
  end.

Definition sameQuotaKey (a q : WeeklyQuota.t) : bool :=
  (WeeklyQuota.productId q =? WeeklyQuota.productId a)%string
  && (WeeklyQuota.weekStartDate q =? WeeklyQuota.weekStartDate a).

(** [appReducer]; [now] is the value of [new Date()] during the call. *)
Definition appReducer (now : Date) (state : AppState) (action : AppAction) : AppState :=
  match action with
  | ADD_PURCHASE purchase =>
      mkState (products state) (purchases state ++ [purchase])
              (shipments state) (weeklyQuotas state) (viewingWeekStart state)
  | ADD_SHIPMENT shipment =>
      mkState (products state)
              (purchases state ++ shipmentPurchases shipment)
              (shipments state ++ [shipment])
              (weeklyQuotas state) (viewingWeekStart state)
  | EDIT_SHIPMENT shipment =>
      let filteredPurchases :=
        filter (shipmentId_isnt (Shipment.id shipment)) (purchases state) in
      mkState (products state)
              (filteredPurchases ++ shipmentPurchases shipment)
              (replaceShipment (Shipment.id shipment) shipment (shipments state))
              (weeklyQuotas state) (viewingWeekStart state)
  | DELETE_SHIPMENT shipmentId =>
      mkState (products state)
              (filter (shipmentId_isnt shipmentId) (purchases state))
              (filter (fun s => negb (hasId shipmentId s)) (shipments state))
              (weeklyQuotas state) (viewingWeekStart state)
  | REJECT_SHIPMENT shipmentId =>
      match find (hasId shipmentId) (shipments state) with
      | None => state
      | Some rejectedShipment =>
          let updatedShipment :=
            Shipment.withStatusRejectedAt rejectedShipment rejected (Some now) in
          mkState (products state)
                  (filter (shipmentId_isnt shipmentId) (purchases state))
                  (replaceShipment shipmentId updatedShipment (shipments state))
                  (weeklyQuotas state) (viewingWeekStart state)
      end
  | UNREJECT_SHIPMENT shipmentId =>
      match find (hasId shipmentId) (shipments state) with
      | None => state
      | Some rejectedShipment =>
          match Shipment.approvalStatus rejectedShipment with
          | rejected =>
              let restoredShipment :=
                Shipment.withStatusRejectedAt rejectedShipment pending None in
              mkState (products state) (purchases state)
                      (replaceShipment shipmentId restoredShipment (shipments state))
                      (weeklyQuotas state) (viewingWeekStart state)
          | _ => state
          end
      end
  | DELETE_OLD_REJECTED =>
      let thirtyDaysAgo := DateJS.minusDays now 30 in
      mkState (products state) (purchases state)
              (filter (sweepKeeps thirtyDaysAgo) (shipments state))
              (weeklyQuotas state) (viewingWeekStart state)
  | UPDATE_PRODUCT product =>
      mkState (map (fun p => if (Product.id p =? Product.id product)%string
                             then product else p) (products state))
              (purchases state) (shipments state) (weeklyQuotas state)
              (viewingWeekStart state)
  | SET_WEEKLY_QUOTA quota =>
      mkState (products state) (purchases state) (shipments state)
              (if existsb (sameQuotaKey quota) (weeklyQuotas state)
               then map (fun q => if sameQuotaKey quota q then quota else q)
                        (weeklyQuotas state)
               else weeklyQuotas state ++ [quota])
              (viewingWeekStart state)
  | SET_VIEWING_WEEK weekStart =>
      mkState (products state) (purchases state) (shipments state)
              (weeklyQuotas state) weekStart
  | NAVIGATE_WEEK direction =>
      let newWeek :=
        DateJS.minusDays (viewingWeekStart state)
                         (match direction with next => -7 | prev => 7 end) in
      mkState (products state) (purchases state) (shipments state)
              (weeklyQuotas state) (getWeekStart newWeek)
  end.

(** Completion of a call that may throw. *)
Inductive completion (A : Type) :=
| Returns (a : A)
| Throws (message : string).
Arguments Returns {A} a.
Arguments Throws {A} message.

(** [a < b] on numbers. *)
Definition Qltb (a b : Q) : bool := negb (Qle_bool b a).

(** The filter of [getQuotaStatus]: same product, same week key. *)
Definition inBucket (productId weekKey : string) (p : Purchase.t) : bool :=
  (Purchase.productId p =? productId)%string
  && (getWeekKey (Purchase.estimatedArrival p) =? weekKey)%string.

(** [l.filter(inBucket).reduce((sum, p) => sum + p.totalPounds, 0)] *)
Definition bucketTotal (productId weekKey : string) (l : list Purchase.t) : Q :=
  fold_left (fun sum purchase => (sum + Purchase.totalPounds purchase)%Q)
            (filter (inBucket productId weekKey) l) 0%Q.

Definition classify (currentTotal percentage minQuota maxQuota : Q) : QuotaLevel :=
  if Qltb maxQuota currentTotal then over
  else if Qle_bool 90 percentage then near_max
  else if Qle_bool minQuota currentTotal then good
  else under.

(** [getQuotaStatus(productId, weekStart)]; the default of [weekStart] is
    [state.viewingWeekStart]. *)
Definition getQuotaStatus (state : AppState) (productId : string) (weekStart : Date)
  : completion QuotaStatus.t :=
  match find (fun p => (Product.id p =? productId)%string) (products state) with
  | None => Throws ("Product not found: " ++ productId)
  | Some product =>
      let weekKey := getWeekKey weekStart in
      let currentTotal := bucketTotal productId weekKey (purchases state) in
      let percentage :=
        if Qltb 0 (Product.maxQuota product)
        then (currentTotal / Product.maxQuota product * 100)%Q
        else 0%Q in
      Returns (QuotaStatus.mk product currentTotal
                 (Product.minQuota product) (Product.maxQuota product)
                 percentage
                 (classify currentTotal percentage
                    (Product.minQuota product) (Product.maxQuota product)))
  end.

(* ===================================================================== *)
(** ** Purchase-order numbers ([utils/purchaseOrderUtils.ts]) *)
(* ===================================================================== *)

(** [`PO-${getFullYear()}${month, 2 digits}${day, 2 digits}`] *)
Definition datePrefix (today : Date) : string :=
  "PO-" ++ JS.toString (DateJS.getFullYear today)
        ++ JS.padStart0 2 (JS.toString (DateJS.getMonth today + 1))
        ++ JS.padStart0 2 (JS.toString (DateJS.getDate today)).

(** One round of the [forEach] over today's numbers. *)
Definition nextMax (maxSequence : Z) (po : string) : Z :=
  match nth_error (JS.split "-" po) 2 with
  | Some sequencePart =>
      if JS.truthy sequencePart then
        match JS.parseInt sequencePart with
        | Some sequence => if maxSequence <? sequence then sequence else maxSequence
        | None => maxSequence
        end
      else maxSequence
  | None => maxSequence
  end.

(** [generatePurchaseOrderNumber(existingPONumbers)]; [today] is the value
    of [new Date()]. *)
Definition generatePurchaseOrderNumber (today : Date) (existingPONumbers : list string)
  : string :=
  let datePrefix := datePrefix today in
  let todaysPONumbers :=
    filter (fun po => JS.startsWith po datePrefix) existingPONumbers in
  let maxSequence := fold_left nextMax todaysPONumbers 0 in
  let nextSequence := maxSequence + 1 in
  datePrefix ++ "-" ++ JS.padStart0 4 (JS.toString nextSequence).

(** [/^PO-\d{8}-\d{4}$/.test(poNumber)] *)
Definition isValidPurchaseOrderNumber (poNumber : string) : bool :=
  (String.length poNumber =? 16)%nat
  && JS.startsWith poNumber "PO-"
  && JS.allDigits (substring 3 8 poNumber)
  && (substring 11 1 poNumber =? "-")%string
  && JS.allDigits (substring 12 4 poNumber).

(** [getDateFromPurchaseOrderNumber(poNumber)] *)
Definition getDateFromPurchaseOrderNumber (poNumber : string) : option Date :=
  if isValidPurchaseOrderNumber poNumber then
    match nth_error (JS.split "-" poNumber) 1 with
    | Some dateStr =>
        match JS.parseInt (substring 0 4 dateStr),
              JS.parseInt (substring 4 2 dateStr),
              JS.parseInt (substring 6 2 dateStr) with
        | Some year, Some month, Some day => Some (DateJS.mkDate year (month - 1) day)
        | _, _, _ => None
        end
    | None => None
    end
  else None.

(* ===================================================================== *)
(** ** The shipment form ([components/PurchaseForm.tsx]) *)
(* ===================================================================== *)

(** [Omit<PurchaseItem, 'id'>] *)
Module ItemFormData.
Record t := mk
  { sizeCategory : string; pounds : Q; cost : Q; notes : option string }.
End ItemFormData.

Module ProductFormData.
Record t := mk
  { productId : string; customProductName : option string; totalPounds : Q;
    items : list ItemFormData.t }.
End ProductFormData.

(** The React state of the form together with its props. *)
Record FormState := mkForm
  { shipper : string;
    estimatedArrival : string;
    formProducts : list ProductFormData.t;
    editingShipment : option Shipment.t }.

(** What [handleSubmit] reads from its surroundings: the clock and the
    signed-in user's id ([user?.id]). *)
Record Env := mkEnv { now : Date; userId : option string }.

(** How a call of [handleSubmit] ends. *)
Inductive SubmitResult :=
| Alerted (message : string)         (* [alert(...); return] *)
| Dispatched (action : AppAction)    (* [dispatch(...)] *)
| Threw (message : string)           (* an exception of [getQuotaStatus] *)
| NotADate.                          (* the date field is not YYYY-MM-DD *)

Fixpoint mapi_from {A B : Type} (i : nat) (f : A -> nat -> B) (l : list A) : list B :=
  match l with
  | [] => []
  | a :: r => f a i :: mapi_from (S i) f r
  end.

(** [l.map((a, index) => f(a, index))] *)
Definition mapi {A B : Type} (f : A -> nat -> B) (l : list A) : list B :=
  mapi_from 0 f l.

Definition natToString (n : nat) : string := JS.toString (Z.of_nat n).

Definition itemsTotal (product : ProductFormData.t) : Q :=
  fold_left (fun sum item => (sum + ItemFormData.pounds item)%Q)
            (ProductFormData.items product) 0%Q.

(** [!product.customProductName?.trim()] *)
Definition lacksCustomName (product : ProductFormData.t) : bool :=
  match ProductFormData.customProductName product with
  | None => true
  | Some n => negb (JS.truthy (JS.trim n))
  end.

(** One round of the validation loop: the alert it raises, if any. *)
Definition validateProduct (i : nat) (product : ProductFormData.t) : option string :=
  if negb (JS.truthy (ProductFormData.productId product))
     || Qle_bool (ProductFormData.totalPounds product) 0
  then Some ("Please complete Product " ++ natToString (i + 1) ++ " details")
  else if (ProductFormData.productId product =? "other")%string
          && lacksCustomName product
  then Some ("Please enter a name for Product " ++ natToString (i + 1) ++ " (Other)")
  else if Qltb (1 # 100)
            (Qabs (itemsTotal product - ProductFormData.totalPounds product))
  then Some ("Product " ++ natToString (i + 1)
             ++ ": Size breakdown must equal total pounds")
  else None.

(** [for (let i = 0; i < products.length; i++) ...] with its early return. *)
Fixpoint validateProducts (i : nat) (l : list ProductFormData.t) : option string :=
  match l with
  | [] => None
  | product :: r =>
      match validateProduct i product with
      | Some message => Some message
      | None => validateProducts (S i) r
      end
  end.

(** The test made on one product line by the approval loop. *)
Definition lineRequiresApproval (q : QuotaStatus.t) (product : ProductFormData.t) : bool :=
  match QuotaStatus.status q with
  | near_max | over => true
  | _ =>
      let newTotal := (QuotaStatus.currentTotal q + ProductFormData.totalPounds product)%Q in
      Qltb (QuotaStatus.maxQuota q) newTotal
  end.

(** [for (const product of products) ...]: the value of [requiresApproval]
    at the end of the loop, with [continue] on "other" lines and [break] at
    the first line that requires approval. *)
Fixpoint requiresApprovalLoop (state : AppState) (weekStart : Date)
    (l : list ProductFormData.t) : completion bool :=
  match l with
  | [] => Returns false
  | product :: r =>
      if (ProductFormData.productId product =? "other")%string
      then requiresApprovalLoop state weekStart r
      else
        match getQuotaStatus state (ProductFormData.productId product) weekStart with
        | Throws m => Throws m
        | Returns currentQuotaStatus =>
            if lineRequiresApproval currentQuotaStatus product then Returns true
            else requiresApprovalLoop state weekStart r
        end
  end.

(** [s.approvalStatus === 'approved' && s.purchaseOrderNumber] *)
Definition approvedWithPO (s : Shipment.t) : bool :=
  match Shipment.approvalStatus s, Shipment.purchaseOrderNumber s with
  | approved, Some po => JS.truthy po
  | _, _ => false
  end.

(** [state.shipments.filter(approvedWithPO).map(s => s.purchaseOrderNumber!)] *)
Definition existingPONumbers (state : AppState) : list string :=
  map (fun s => match Shipment.purchaseOrderNumber s with
                | Some po => po
                | None => ""
                end)
      (filter approvedWithPO (shipments state)).

Definition formItem (shipmentId : string) (productIndex : nat)
    (item : ItemFormData.t) (itemIndex : nat) : PurchaseItem.t :=
  PurchaseItem.mk
    (shipmentId ++ "_" ++ natToString productIndex ++ "_" ++ natToString itemIndex)
    (ItemFormData.sizeCategory item) (ItemFormData.pounds item)
    (ItemFormData.cost item) (ItemFormData.notes item).

Definition formProduct (shipmentId : string)
    (product : ProductFormData.t) (productIndex : nat) : ProductPurchase.t :=
  ProductPurchase.mk
    (shipmentId ++ "_" ++ natToString productIndex)
    (ProductFormData.productId product)
    (if (ProductFormData.productId product =? "other")%string
     then ProductFormData.customProductName product else None)
    (ProductFormData.totalPounds product)
    (mapi (formItem shipmentId productIndex) (ProductFormData.items product)).

(** [editingShipment?.purchaserId || user?.id] *)
Definition purchaserOf (editing : option Shipment.t) (env : Env) : option string :=
  match editing with
  | Some e =>
      match Shipment.purchaserId e with
      | Some p => if JS.truthy p then Some p else userId env
      | None => userId env
      end
  | None => userId env
  end.

(** [editingShipment?.id || Date.now().toString()] *)
Definition shipmentIdOf (editing : option Shipment.t) (env : Env) : string :=
  match editing with
  | Some e => if JS.truthy (Shipment.id e) then Shipment.id e else JS.toString (now env)
  | None => JS.toString (now env)
  end.

Definition handleSubmit (env : Env) (state : AppState) (form : FormState) : SubmitResult :=
  if negb (JS.truthy (JS.trim (shipper form))) || negb (JS.truthy (estimatedArrival form))
  then Alerted "Please enter shipper and estimated arrival date"
  else
  match validateProducts 0 (formProducts form) with
  | Some message => Alerted message
  | None =>
  match parseDateInput (estimatedArrival form) with
  | None => NotADate
  | Some estimatedArrivalDate =>
  let weekStart := getWeekStart estimatedArrivalDate in
  match requiresApprovalLoop state weekStart (formProducts form) with
  | Throws m => Threw m
  | Returns requiresApproval =>
  let approvalStatus := if requiresApproval then pending else approved in
  let purchaseOrderNumber :=
    match approvalStatus with
    | approved => Some (generatePurchaseOrderNumber (now env) (existingPONumbers state))
    | _ => None
    end in
  let shipmentId := shipmentIdOf (editingShipment form) env in
  let shipment :=
    Shipment.mk shipmentId
      (JS.trim (shipper form))
      estimatedArrivalDate
      (match editingShipment form with
       | Some e => Shipment.purchaseDate e | None => now env end)
      weekStart
      (mapi (formProduct shipmentId) (formProducts form))
      (match editingShipment form with
       | Some e => Shipment.createdAt e | None => now env end)
      approvalStatus
      purchaseOrderNumber
      None
      (purchaserOf (editingShipment form) env) in
  match editingShipment form with
  | Some _ => Dispatched (EDIT_SHIPMENT shipment)
  | None => Dispatched (ADD_SHIPMENT shipment)
  end
  end end end.

(** [formatDateForInput] of [utils/dateUtils.ts] (the year is not padded). *)
Definition formatDateForInput (date : Date) : string :=
  JS.toString (DateJS.getFullYear date) ++ "-"
  ++ JS.padStart0 2 (JS.toString (DateJS.getMonth date + 1)) ++ "-"
  ++ JS.padStart0 2 (JS.toString (DateJS.getDate date)).

(** The form as [PurchaseForm] initialises it for an edit. *)
Definition formOfShipment (s : Shipment.t) : FormState :=
  mkForm (Shipment.shipper s) (formatDateForInput (Shipment.estimatedArrival s))
    (map (fun p =>
            ProductFormData.mk (ProductPurchase.productId p)
              (Some (match ProductPurchase.customProductName p with
                     | Some n => n | None => "" end))
              (ProductPurchase.totalPounds p)
              (map (fun i => ItemFormData.mk (PurchaseItem.sizeCategory i)
                               (PurchaseItem.pounds i) (PurchaseItem.cost i)
                               (PurchaseItem.notes i))
                   (ProductPurchase.items p)))
         (Shipment.products s))
    (Some s).

(* ===================================================================== *)
(** ** The pending list ([components/PendingPurchases.tsx]) *)
(* ===================================================================== *)

(** [handleApproveShipment(shipment)]: the action it dispatches. *)
Definition handleApproveShipment (today : Date) (state : AppState) (shipment : Shipment.t)
  : AppAction :=
  let purchaseOrderNumber := generatePurchaseOrderNumber today (existingPONumbers state) in
  let approvedShipment := Shipment.withStatusPO shipment approved (Some purchaseOrderNumber) in
  EDIT_SHIPMENT approvedShipment.

Definition handleRejectShipment (shipment : Shipment.t) : AppAction :=
  REJECT_SHIPMENT (Shipment.id shipment).

Definition handleUnrejectShipment (shipmentId : string) : AppAction :=
  UNREJECT_SHIPMENT shipmentId.

Definition confirmDeleteShipment (shipmentToDelete : Shipment.t) : AppAction :=
  DELETE_SHIPMENT (Shipment.id shipmentToDelete).

(* ===================================================================== *)
(** ** The catalogue ([data/products.ts]) and the initial store *)
(* ===================================================================== *)

Definition SEAFOOD_PRODUCTS : list Product.t :=
  [ Product.mk "tuna" "Tuna" 100 500;
    Product.mk "sword" "Swordfish" 80 300;
    Product.mk "mahi" "Mahi" 60 250;
    Product.mk "wahoo" "Wahoo" 50 200;
    Product.mk "grouper" "Grouper" 70 350;
    Product.mk "snapper" "Snapper" 90 400;
    Product.mk "salmon" "Salmon" 120 600;
    Product.mk "seabass" "Seabass (Branzini)" 40 180;
    Product.mk "other" "Other" 0 1000 ]%Q.

Definition initialState (now : Date) : AppState :=
  mkState SEAFOOD_PRODUCTS [] [] [] (getWeekStart now).

(* ===================================================================== *)
(** ** Sample data used by the examples *)
(* ===================================================================== *)

Module Sample.

(** Wednesday 2025-01-01, 10:00; its week starts on Sunday 2024-12-29. *)
Definition today : Date := DateJS.mkDate 2025 0 1 + 36000000.
Definition env : Env := mkEnv today (Some "u1").

Definition line (productId : string) (lbs : Q) : ProductFormData.t :=
  ProductFormData.mk productId None lbs [ItemFormData.mk "40-59 lbs" lbs 0 None].

Definition form (l : list ProductFormData.t) : FormState :=
  mkForm "Gulf Co." "2025-01-02" l None.

(** A purchase of the index that belongs to no shipment. *)
Definition legacy (productId : string) (lbs : Q) : Purchase.t :=
  Purchase.mk "p0" productId lbs today (getWeekStart today) "Gulf Co." today [] today None.

Definition store (l : list Purchase.t) : AppState :=
  mkState SEAFOOD_PRODUCTS l [] [] (getWeekStart today).

End Sample.

(* ===================================================================== *)
(** * Properties *)
(* ===================================================================== *)

(** ** The primitives on sample inputs *)

Example toString_ex : JS.toString 13 = "13" /\ JS.toString 0 = "0" /\ JS.toString (-7) = "-7".
Proof. repeat split; reflexivity. Qed.

Example split_ex :
  JS.split "-" "PO-20250101-0007" = ["PO"; "20250101"; "0007"]
  /\ JS.split "-" "PO-20250101--5" = ["PO"; "20250101"; ""; "5"]
  /\ JS.split "-" "" = [""].
Proof. repeat split; reflexivity. Qed.

Example parseInt_ex :
  JS.parseInt "0007" = Some 7 /\ JS.parseInt "12ab" = Some 12
  /\ JS.parseInt "" = None /\ JS.parseInt "x1" = None /\ JS.parseInt " +4" = Some 4.
Proof. repeat split; reflexivity. Qed.

Example trim_ex : JS.trim "  Gulf  Co. " = "Gulf  Co." /\ JS.trim "   " = "".
Proof. split; reflexivity. Qed.

Example padStart_ex : JS.padStart0 4 "13" = "0013" /\ JS.padStart0 4 "10000" = "10000".
Proof. repeat split; reflexivity. Qed.

(** 2025-01-01 is day 20089 of the epoch, a Wednesday; its week starts on
    Sunday 2024-12-29. *)
Example date_ex :
  parseDateInput "2025-01-01" = Some (20089 * DateJS.msPerDay)
  /\ DateJS.getDay (20089 * DateJS.msPerDay) = 3
  /\ getWeekKey (20089 * DateJS.msPerDay + 12345) = "2024-12-29"
  /\ getWeekKey (DateJS.mkDate 2024 1 29) = "2024-02-25"
  /\ DateJS.format_yyyy_MM_dd (DateJS.mkDate 2024 1 29) = "2024-02-29"
  /\ DateJS.format_yyyy_MM_dd 0 = "1970-01-01"
  /\ DateJS.format_yyyy_MM_dd (DateJS.mkDate 2026 10 1) = "2026-11-01"
  /\ DateJS.getDay (DateJS.mkDate 2026 10 1) = 0.
Proof. repeat split; reflexivity. Qed.

Example generate_ex :
  let today := DateJS.mkDate 2025 0 1 + 3600000 in
  datePrefix today = "PO-20250101"
  /\ generatePurchaseOrderNumber today [] = "PO-20250101-0001"
  /\ generatePurchaseOrderNumber today
       ["PO-20250101-0002"; "PO-20241231-0009"; "PO-20250101-0001"] = "PO-20250101-0003"
  /\ isValidPurchaseOrderNumber "PO-20250101-0003" = true
  /\ isValidPurchaseOrderNumber "PO-20250101-003" = false
  /\ isValidPurchaseOrderNumber "PO-20250101-00031" = false
  /\ getDateFromPurchaseOrderNumber "PO-20250101-0003" = Some (DateJS.mkDate 2025 0 1).
Proof. repeat split; reflexivity. Qed.

(** ** Numbers and sums *)

Lemma Qltb_lt (a b : Q) : Qltb a b = true <-> (a < b)%Q.
Proof.
  unfold Qltb. rewrite negb_true_iff. split; intro H.
  - apply Qnot_le_lt. intro Hle. apply Qle_bool_iff in Hle. congruence.
  - destruct (Qle_bool b a) eqn:E; [|reflexivity].
    apply Qle_bool_iff in E. exfalso. apply (Qlt_not_le _ _ H E).
Qed.

Lemma Qltb_nlt (a b : Q) : Qltb a b = false <-> ~ (a < b)%Q.
Proof.
  rewrite <- Qltb_lt. destruct (Qltb a b); split; intro H; congruence.
Qed.

Lemma Qle_bool_nle (a b : Q) : Qle_bool a b = false <-> ~ (a <= b)%Q.
Proof.
  rewrite <- Qle_bool_iff. destruct (Qle_bool a b); split; intro H; congruence.
Qed.

Section Sums.
Context {A : Type} (w : A -> Q).

(** [l.reduce((sum, a) => sum + w(a), init)] *)
Definition sumFrom (init : Q) (l : list A) : Q :=
  fold_left (fun sum a => (sum + w a)%Q) l init.

Lemma sumFrom_compat (l : list A) (a b : Q) :
  (a == b)%Q -> (sumFrom a l == sumFrom b l)%Q.
Proof.
  revert a b. induction l as [|x l IH]; intros a b Hab; simpl.
  - exact Hab.
  - apply IH. rewrite Hab. reflexivity.
Qed.

Lemma sumFrom_shift (l : list A) (a b : Q) :
  (sumFrom (a + b) l == a + sumFrom b l)%Q.
Proof.
  revert a b. induction l as [|x l IH]; intros a b; simpl.
  - reflexivity.
  - rewrite <- IH. apply sumFrom_compat. symmetry. apply Qplus_assoc.
Qed.

Lemma sumFrom_cons (x : A) (l : list A) :
  (sumFrom 0 (x :: l) == w x + sumFrom 0 l)%Q.
Proof.
  simpl. rewrite <- sumFrom_shift. apply sumFrom_compat. ring.
Qed.

Lemma sumFrom_app (l1 l2 : list A) :
  (sumFrom 0 (l1 ++ l2) == sumFrom 0 l1 + sumFrom 0 l2)%Q.
Proof.
  induction l1 as [|x l1 IH].
  - simpl. unfold sumFrom at 2. simpl. rewrite Qplus_0_l. reflexivity.
  - rewrite <- app_comm_cons. rewrite !sumFrom_cons, IH.
    apply Qplus_assoc.
Qed.

(** A sum splits along any boolean test. *)
Lemma sumFrom_partition (f : A -> bool) (l : list A) :
  (sumFrom 0 l ==
     sumFrom 0 (filter f l) + sumFrom 0 (filter (fun a => negb (f a)) l))%Q.
Proof.
  induction l as [|x l IH].
  - unfold sumFrom. simpl. reflexivity.
  - cbn [filter]. destruct (f x); cbn [negb]; rewrite !sumFrom_cons, IH; ring.
Qed.
End Sums.

Lemma bucketTotal_sum (productId weekKey : string) (l : list Purchase.t) :
  bucketTotal productId weekKey l
  = sumFrom Purchase.totalPounds 0 (filter (inBucket productId weekKey) l).
Proof. reflexivity. Qed.

Lemma bucketTotal_app (productId weekKey : string) (l1 l2 : list Purchase.t) :
  (bucketTotal productId weekKey (l1 ++ l2)
   == bucketTotal productId weekKey l1 + bucketTotal productId weekKey l2)%Q.
Proof.
  rewrite !bucketTotal_sum, filter_app. apply sumFrom_app.
Qed.

Lemma filter_comm {A : Type} (f g : A -> bool) (l : list A) :
  filter f (filter g l) = filter g (filter f l).
Proof.
  induction l as [|x l IH]; simpl; [reflexivity|].
  destruct (f x) eqn:F, (g x) eqn:G; simpl; rewrite ?F, ?G, IH; reflexivity.
Qed.

(** The weight a shipment has in one bucket of the purchase index. *)
Definition indexedWeight (shipmentId productId weekKey : string) (l : list Purchase.t) : Q :=
  bucketTotal productId weekKey (filter (shipmentId_is shipmentId) l).

Lemma bucketTotal_split (shipmentId productId weekKey : string) (l : list Purchase.t) :
  (bucketTotal productId weekKey l
   == indexedWeight shipmentId productId weekKey l
      + bucketTotal productId weekKey (filter (shipmentId_isnt shipmentId) l))%Q.
Proof.
  unfold indexedWeight. rewrite !bucketTotal_sum.
  rewrite (filter_comm _ (shipmentId_is shipmentId)).
  rewrite (filter_comm _ (shipmentId_isnt shipmentId)).
  apply (sumFrom_partition Purchase.totalPounds (shipmentId_is shipmentId)).
Qed.

(* ===================================================================== *)
(** ** Quota ledger *)
(* ===================================================================== *)

Definition findProduct (state : AppState) (productId : string) : option Product.t :=
  find (fun p => (Product.id p =? productId)%string) (products state).

(** The record returned for a product of the catalogue and a bucket total. *)
Definition statusOf (product : Product.t) (currentTotal : Q) : QuotaStatus.t :=
  let percentage :=
    if Qltb 0 (Product.maxQuota product)
    then (currentTotal / Product.maxQuota product * 100)%Q else 0%Q in
  QuotaStatus.mk product currentTotal
    (Product.minQuota product) (Product.maxQuota product) percentage
    (classify currentTotal percentage
       (Product.minQuota product) (Product.maxQuota product)).

Lemma getQuotaStatus_found state productId weekStart product :
  findProduct state productId = Some product ->
  getQuotaStatus state productId weekStart
  = Returns (statusOf product
               (bucketTotal productId (getWeekKey weekStart) (purchases state))).
Proof.
  unfold findProduct, getQuotaStatus. intros ->. reflexivity.
Qed.

Lemma getQuotaStatus_missing state productId weekStart :
  findProduct state productId = None ->
  getQuotaStatus state productId weekStart = Throws ("Product not found: " ++ productId).
Proof.
  unfold findProduct, getQuotaStatus. intros ->. reflexivity.
Qed.

Lemma classify_cases (t p mn mx : Q) :
  ((mx < t)%Q -> classify t p mn mx = over)
  /\ (~ (mx < t)%Q -> (90 <= p)%Q -> classify t p mn mx = near_max)
  /\ (~ (mx < t)%Q -> ~ (90 <= p)%Q -> (mn <= t)%Q -> classify t p mn mx = good)
  /\ (~ (mx < t)%Q -> ~ (90 <= p)%Q -> ~ (mn <= t)%Q -> classify t p mn mx = under).
Proof.
  unfold classify.
  destruct (Qltb mx t) eqn:E1;
    [apply Qltb_lt in E1 | apply Qltb_nlt in E1];
  (destruct (Qle_bool 90 p) eqn:E2;
    [apply Qle_bool_iff in E2 | apply Qle_bool_nle in E2]);
  (destruct (Qle_bool mn t) eqn:E3;
    [apply Qle_bool_iff in E3 | apply Qle_bool_nle in E3]);
  repeat split; intros; try reflexivity; contradiction.
Qed.



(** The thresholds on the catalogue's tuna (100 to 500 lbs). *)
Example quota_thresholds :
  let status lbs :=
    match getQuotaStatus (Sample.store [Sample.legacy "tuna" lbs]) "tuna" Sample.today with
    | Returns q => Some (QuotaStatus.status q)
    | Throws _ => None
    end in
  (status 99 = Some under /\ status 100 = Some good /\ status (44999 # 100) = Some good
   /\ status 450 = Some near_max /\ status 500 = Some near_max
   /\ status (50001 # 100) = Some over)%Q.
Proof. vm_compute. repeat split. Qed.

(** *** Weekly overrides *)

(** [{ ...state, weeklyQuotas: wq }] *)
Definition withWeeklyQuotas (state : AppState) (wq : list WeeklyQuota.t) : AppState :=
  mkState (products state) (purchases state) (shipments state) wq
          (viewingWeekStart state).

(** The override record of a product for the week beginning at [weekStart]. *)
Definition findWeeklyQuota (state : AppState) (productId : string) (weekStart : Date)
  : option WeeklyQuota.t :=
  find (fun q => (WeeklyQuota.productId q =? productId)%string
                 && (WeeklyQuota.weekStartDate q =? weekStart))
       (weeklyQuotas state).

(** The specification's reading of the bounds of a week: those of the
    override record when there is one, the product's own otherwise. *)
Definition spec_quotaBounds (state : AppState) (product : Product.t) (weekStart : Date)
  : Q * Q :=
  match findWeeklyQuota state (Product.id product) weekStart with
  | Some o => (WeeklyQuota.minQuota o, WeeklyQuota.maxQuota o)
  | None => (Product.minQuota product, Product.maxQuota product)
  end.

(** The claim about overrides, for one product and week. *)
Definition overrideRespected (state : AppState) (product : Product.t) (weekStart : Date)
  : Prop :=
  forall q,
    getQuotaStatus state (Product.id product) weekStart = Returns q ->
    (QuotaStatus.minQuota q == fst (spec_quotaBounds state product weekStart))%Q
    /\ (QuotaStatus.maxQuota q == snd (spec_quotaBounds state product weekStart))%Q.

Module OverrideSample.
Definition tuna : Product.t := Product.mk "tuna" "Tuna" 100 500.
Definition week : Date := getWeekStart Sample.today.
(** Tuna may reach 1000 lbs this week; 600 lbs are committed. *)
Definition override : WeeklyQuota.t := WeeklyQuota.mk "q1" "tuna" week 0 0 1000.
Definition state0 : AppState := Sample.store [Sample.legacy "tuna" 600].
Definition state : AppState := appReducer Sample.today state0 (SET_WEEKLY_QUOTA override).
End OverrideSample.

(** C6, as stated, fails: with an override of 1000 lbs recorded for tuna
    and 600 lbs committed, the status is still computed against the
    product's 500 lbs and is over. *)
Lemma weekly_override_not_used :
  weeklyQuotas OverrideSample.state = [OverrideSample.override]
  /\ spec_quotaBounds OverrideSample.state OverrideSample.tuna OverrideSample.week
     = (0%Q, 1000%Q)
  /\ (exists q,
        getQuotaStatus OverrideSample.state "tuna" OverrideSample.week = Returns q
        /\ QuotaStatus.maxQuota q = 500%Q /\ QuotaStatus.status q = over)
  /\ ~ overrideRespected OverrideSample.state OverrideSample.tuna OverrideSample.week.
Proof.
  split; [reflexivity|]. split; [reflexivity|]. split.
  - eexists. split; [vm_compute; reflexivity|]. split; reflexivity.
  - intro H.
    destruct (H _ (getQuotaStatus_found OverrideSample.state "tuna"
                     OverrideSample.week OverrideSample.tuna eq_refl)) as [_ Hmax].
    vm_compute in Hmax. discriminate.
Qed.

(** C6, amended.  The quota status never consults the weekly override
    records: whatever [weeklyQuotas] holds, and in particular after any
    [SET_WEEKLY_QUOTA], [getQuotaStatus] returns the same result, whose
    bounds are the static [minQuota] and [maxQuota] of the product. *)
Theorem getQuotaStatus_ignores_weeklyQuotas :
  forall state productId weekStart product,
    findProduct state productId = Some product ->
    (forall wq,
        getQuotaStatus (withWeeklyQuotas state wq) productId weekStart
        = getQuotaStatus state productId weekStart)
    /\ (forall now quota,
        getQuotaStatus (appReducer now state (SET_WEEKLY_QUOTA quota)) productId weekStart
        = getQuotaStatus state productId weekStart)
    /\ exists q,
        getQuotaStatus state productId weekStart = Returns q
        /\ QuotaStatus.minQuota q = Product.minQuota product
        /\ QuotaStatus.maxQuota q = Product.maxQuota product.
Proof.
  intros state productId weekStart product Hfind.
  split; [|split].
  - intros wq. reflexivity.
  - intros now quota. reflexivity.
  - eexists. split; [apply (getQuotaStatus_found _ _ _ _ Hfind)|].
    split; reflexivity.
Qed.

Lemma getQuotaStatus_ignores_weeklyQuotas_witness :
  findProduct OverrideSample.state0 "tuna" = Some OverrideSample.tuna
  /\ getQuotaStatus OverrideSample.state "tuna" OverrideSample.week
     = getQuotaStatus OverrideSample.state0 "tuna" OverrideSample.week.
Proof.
  split; [reflexivity|].
  exact (proj1 (proj2 (getQuotaStatus_ignores_weeklyQuotas OverrideSample.state0 "tuna"
                         OverrideSample.week OverrideSample.tuna eq_refl))
               Sample.today OverrideSample.override).
Defined.

(* ===================================================================== *)
(** ** Retention sweep *)
(* ===================================================================== *)

Definition sweep (now : Date) (state : AppState) : AppState :=
  appReducer now state DELETE_OLD_REJECTED.

(** The instant thirty days before [now]. *)
Definition cutoff (now : Date) : Date := DateJS.minusDays now 30.

(** Rejected, with a rejection date at or before the cut-off. *)
Definition expired (now : Date) (s : Shipment.t) : Prop :=
  Shipment.approvalStatus s = rejected
  /\ exists r, Shipment.rejectedAt s = Some r /\ r <= cutoff now.

(** The specification's wording: rejected more than thirty days ago. *)
Definition spec_olderThan30Days (now : Date) (s : Shipment.t) : Prop :=
  Shipment.approvalStatus s = rejected
  /\ exists r, Shipment.rejectedAt s = Some r /\ 30 * DateJS.msPerDay < now - r.

Lemma sweepKeeps_false now s : sweepKeeps (cutoff now) s = false <-> expired now s.
Proof.
  unfold sweepKeeps, expired.
  destruct (Shipment.approvalStatus s); try (split; [discriminate | intros [H _]; discriminate]).
  destruct (Shipment.rejectedAt s) as [r|].
  - rewrite Z.ltb_ge. split.
    + intro H. split; [reflexivity|]. exists r. split; [reflexivity | exact H].
    + intros [_ (r' & Hr & Hle)]. injection Hr as ->. exact Hle.
  - split; [discriminate|]. intros [_ (r & Hr & _)]. discriminate.
Qed.

Lemma sweepKeeps_true now s : sweepKeeps (cutoff now) s = true <-> ~ expired now s.
Proof.
  rewrite <- sweepKeeps_false. destruct (sweepKeeps (cutoff now) s); split; congruence.
Qed.

Lemma sweep_shipments now state :
  shipments (sweep now state) = filter (sweepKeeps (cutoff now)) (shipments state).
Proof. reflexivity. Qed.

Module SweepSample.
Definition rejectedAtAge (id : string) (age : Z) : Shipment.t :=
  Shipment.mk id "Gulf Co." Sample.today Sample.today (getWeekStart Sample.today) []
    Sample.today rejected None (Some (Sample.today - age)) None.
Definition exactly30 : Shipment.t := rejectedAtAge "s30" (30 * DateJS.msPerDay).
Definition state : AppState :=
  mkState SEAFOOD_PRODUCTS [] [exactly30] [] (getWeekStart Sample.today).
End SweepSample.



(** Sweeping again at the same instant changes nothing more. *)
Lemma sweep_idempotent now state : sweep now (sweep now state) = sweep now state.
Proof.
  unfold sweep, appReducer. cbn [shipments purchases products weeklyQuotas viewingWeekStart].
  f_equal. induction (shipments state) as [|s l IH]; [reflexivity|].
  cbn [filter]. destruct (sweepKeeps _ s) eqn:E; [|exact IH].
  cbn [filter]. rewrite E, IH. reflexivity.
Qed.

(** Sweeps at the successive instants of [times]. *)
Definition sweeps (times : list Date) (state : AppState) : AppState :=
  fold_left (fun st t => sweep t st) times state.

(** C10.  A rejected shipment without [rejectedAt] survives every sweep,
    however many are run and whenever. *)
Theorem sweep_keeps_rejected_without_date :
  forall times state s,
    In s (shipments state) ->
    Shipment.approvalStatus s = rejected ->
    Shipment.rejectedAt s = None ->
    In s (shipments (sweeps times state)).
Proof.
  induction times as [|t times IH]; intros state s Hin Hst Hr.
  - exact Hin.
  - cbn [sweeps fold_left]. apply IH; try assumption.
    rewrite sweep_shipments. apply filter_In. split; [exact Hin|].
    unfold sweepKeeps. rewrite Hst, Hr. reflexivity.
Qed.

Module UndatedSample.
Definition undated : Shipment.t :=
  Shipment.mk "old" "Gulf Co." 0 0 0 [] 0 rejected None None None.
Definition state : AppState :=
  mkState SEAFOOD_PRODUCTS [] [undated; SweepSample.exactly30] []
          (getWeekStart Sample.today).
End UndatedSample.

Lemma sweep_keeps_rejected_without_date_witness :
  In UndatedSample.undated
     (shipments (sweeps [Sample.today; Sample.today + 400 * DateJS.msPerDay]
                        UndatedSample.state)).
Proof.
  apply (sweep_keeps_rejected_without_date _ UndatedSample.state UndatedSample.undated).
  - left. reflexivity.
  - reflexivity.
  - reflexivity.
Defined.

(* ===================================================================== *)
(** ** Lifecycle transitions *)
(* ===================================================================== *)

Definition findShipment (state : AppState) (id : string) : option Shipment.t :=
  find (hasId id) (shipments state).

Lemma hasId_eq id s : hasId id s = true <-> Shipment.id s = id.
Proof. unfold hasId. apply String.eqb_eq. Qed.

Lemma findShipment_some state id s :
  findShipment state id = Some s -> In s (shipments state) /\ Shipment.id s = id.
Proof.
  unfold findShipment. intro H. apply find_some in H.
  destruct H as [Hin Hid]. split; [exact Hin | apply hasId_eq, Hid].
Qed.

Lemma find_replaceShipment id s s' l :
  find (hasId id) l = Some s ->
  Shipment.id s' = id ->
  find (hasId id) (replaceShipment id s' l) = Some s'.
Proof.
  intros Hfind Hid. induction l as [|x l IH]; [discriminate|].
  cbn [replaceShipment map find] in *.
  destruct (hasId id x) eqn:E.
  - apply hasId_eq in Hid. rewrite Hid. reflexivity.
  - rewrite E. apply IH, Hfind.
Qed.

Lemma filter_id {A : Type} (f : A -> bool) (l : list A) :
  (forall a, In a l -> f a = true) -> filter f l = l.
Proof.
  induction l as [|x l IH]; intros H; [reflexivity|].
  cbn [filter]. rewrite (H x (or_introl eq_refl)).
  f_equal. apply IH. intros a Ha. apply H. right. exact Ha.
Qed.

Lemma filter_none {A : Type} (f : A -> bool) (l : list A) :
  (forall a, In a l -> f a = false) -> filter f l = [].
Proof.
  induction l as [|x l IH]; intros H; [reflexivity|].
  cbn [filter]. rewrite (H x (or_introl eq_refl)).
  apply IH. intros a Ha. apply H. right. exact Ha.
Qed.

Lemma find_none_filter id l :
  find (hasId id) l = None -> filter (fun s => negb (hasId id s)) l = l.
Proof.
  intro H. apply filter_id. intros s Hs.
  rewrite (find_none _ _ H s Hs). reflexivity.
Qed.

Lemma state_eta state :
  mkState (products state) (purchases state) (shipments state)
          (weeklyQuotas state) (viewingWeekStart state) = state.
Proof. destruct state. reflexivity. Qed.

(** *** What the specification asks of a transition *)

Inductive Transition := Approve | Reject | Unreject | Delete.

Inductive TransitionError := NotFoundError | InvalidTransitionError.

(** The arrows of the specification's state machine. *)
Definition spec_legal (t : Transition) (from : ApprovalStatus) : bool :=
  match t, from with
  | Approve, pending => true
  | Reject, pending => true
  | Unreject, rejected => true
  | Delete, _ => true
  | _, _ => false
  end.

(** Existence first, then legality of the current state. *)
Definition spec_validate (state : AppState) (t : Transition) (id : string)
  : option TransitionError :=
  match findShipment state id with
  | None => Some NotFoundError
  | Some s =>
      if spec_legal t (Shipment.approvalStatus s) then None
      else Some InvalidTransitionError
  end.

(** *** What the code does *)

(** The store after the transition, as the pending list performs it.
    [appReducer] has no [throw] and the handlers catch nothing it raises:
    a transition always completes with a store.  A shipment that is not in
    the store stands for itself under [Approve] (the handler is given the
    shipment, not its id). *)
Definition transition (now : Date) (state : AppState) (t : Transition)
    (shipment : Shipment.t) : completion AppState :=
  Returns
    (appReducer now state
       (match t with
        | Approve => handleApproveShipment now state shipment
        | Reject => handleRejectShipment shipment
        | Unreject => handleUnrejectShipment (Shipment.id shipment)
        | Delete => confirmDeleteShipment shipment
        end)).

(** The claim about failures, for one transition of one shipment. *)
Definition failsAsSpecified (now : Date) (state : AppState) (t : Transition)
    (shipment : Shipment.t) : Prop :=
  match spec_validate state t (Shipment.id shipment) with
  | Some NotFoundError => transition now state t shipment = Throws "NotFoundError"
  | Some InvalidTransitionError =>
      transition now state t shipment = Throws "InvalidTransitionError"
  | None => True
  end.

Module TransitionSample.
Definition ghost : Shipment.t :=
  Shipment.mk "ghost" "Gulf Co." Sample.today Sample.today (getWeekStart Sample.today)
    [] Sample.today pending None None None.
Definition tuna50 : Shipment.t :=
  Shipment.mk "s1" "Gulf Co." Sample.today Sample.today (getWeekStart Sample.today)
    [ProductPurchase.mk "s1_0" "tuna" None 50 []]
    Sample.today approved (Some "PO-20250101-0001") None (Some "u1").
(** The store after [tuna50] was submitted and approved at once. *)
Definition state : AppState :=
  appReducer Sample.today (initialState Sample.today) (ADD_SHIPMENT tuna50).
Definition later : Date := Sample.today + 3600000.
End TransitionSample.

(** C7, as stated, fails: rejecting a shipment that is not in the store,
    and unrejecting or approving one that is approved, raise nothing.  The
    first two return the store as it was; the third even changes it (a second
    purchase-order number is issued). *)
Lemma transitions_never_fail :
  spec_validate TransitionSample.state Reject "ghost" = Some NotFoundError
  /\ transition Sample.today TransitionSample.state Reject TransitionSample.ghost
     = Returns TransitionSample.state
  /\ ~ failsAsSpecified Sample.today TransitionSample.state Reject TransitionSample.ghost
  /\ spec_validate TransitionSample.state Unreject "s1" = Some InvalidTransitionError
  /\ transition Sample.today TransitionSample.state Unreject TransitionSample.tuna50
     = Returns TransitionSample.state
  /\ ~ failsAsSpecified Sample.today TransitionSample.state Unreject TransitionSample.tuna50
  /\ spec_validate TransitionSample.state Approve "s1" = Some InvalidTransitionError
  /\ (exists state',
        transition Sample.today TransitionSample.state Approve TransitionSample.tuna50
        = Returns state'
        /\ option_map Shipment.purchaseOrderNumber (findShipment state' "s1")
           = Some (Some "PO-20250101-0002")).
Proof.
  split; [reflexivity|]. split; [reflexivity|]. split; [intro H; discriminate H|].
  split; [reflexivity|]. split; [reflexivity|]. split; [intro H; discriminate H|].
  split; [reflexivity|].
  eexists. split; [reflexivity|]. vm_compute. reflexivity.
Qed.

(** C7, amended.  No transition raises an error.  [REJECT_SHIPMENT] and
    [UNREJECT_SHIPMENT] with an id that is not in the store, and
    [UNREJECT_SHIPMENT] of a shipment that is not rejected, complete normally
    and return the store unchanged.  [DELETE_SHIPMENT] with an id that is not
    in the store completes normally, leaves the shipments as they are and
    removes only purchases that carry this id, so the store is unchanged when
    there are none. *)
Theorem absent_or_illegal_transition_is_silent :
  forall now state shipment,
    (forall t, exists state', transition now state t shipment = Returns state')
    /\ (findShipment state (Shipment.id shipment) = None ->
        transition now state Reject shipment = Returns state
        /\ transition now state Unreject shipment = Returns state
        /\ (exists state',
              transition now state Delete shipment = Returns state'
              /\ shipments state' = shipments state
              /\ purchases state'
                 = filter (shipmentId_isnt (Shipment.id shipment)) (purchases state)
              /\ ((forall p, In p (purchases state) ->
                             shipmentId_is (Shipment.id shipment) p = false) ->
                  state' = state)))
    /\ (forall s, findShipment state (Shipment.id shipment) = Some s ->
                  Shipment.approvalStatus s <> rejected ->
                  transition now state Unreject shipment = Returns state).
Proof.
  intros now state shipment. split; [|split].
  - intros t. eexists. reflexivity.
  - intros Habsent. unfold findShipment in Habsent.
    unfold transition, handleRejectShipment, handleUnrejectShipment,
      confirmDeleteShipment, appReducer.
    rewrite Habsent. split; [reflexivity|]. split; [reflexivity|].
    eexists. split; [reflexivity|].
    cbn [shipments purchases]. rewrite (find_none_filter _ _ Habsent).
    split; [reflexivity|]. split; [reflexivity|].
    intros Hnone. rewrite filter_id.
    + apply state_eta.
    + intros p Hp. unfold shipmentId_isnt. rewrite (Hnone p Hp). reflexivity.
  - intros s Hfind Hst. unfold findShipment in Hfind.
    unfold transition, handleUnrejectShipment, appReducer. rewrite Hfind.
    destruct (Shipment.approvalStatus s); try reflexivity. contradiction.
Qed.

(** *** Reject, unreject, approve *)

(** The weight of a shipment in a bucket: the bucket total of the
    purchases derived from its product lines. *)
Definition shipmentWeight (s : Shipment.t) (productId weekKey : string) : Q :=
  bucketTotal productId weekKey (map (derivedPurchase s) (Shipment.products s)).

Lemma filter_isnt_idem id (l : list Purchase.t) :
  filter (shipmentId_isnt id) (filter (shipmentId_isnt id) l)
  = filter (shipmentId_isnt id) l.
Proof.
  apply filter_id. intros p Hp. apply filter_In in Hp. apply Hp.
Qed.

Lemma bucketTotal_nil productId weekKey : bucketTotal productId weekKey [] = 0%Q.
Proof. reflexivity. Qed.

Lemma reject_found now state id s :
  findShipment state id = Some s ->
  appReducer now state (REJECT_SHIPMENT id)
  = mkState (products state)
            (filter (shipmentId_isnt id) (purchases state))
            (replaceShipment id (Shipment.withStatusRejectedAt s rejected (Some now))
                             (shipments state))
            (weeklyQuotas state) (viewingWeekStart state).
Proof. unfold findShipment, appReducer. intros ->. reflexivity. Qed.

Lemma unreject_rejected now state id s :
  findShipment state id = Some s ->
  Shipment.approvalStatus s = rejected ->
  appReducer now state (UNREJECT_SHIPMENT id)
  = mkState (products state) (purchases state)
            (replaceShipment id (Shipment.withStatusRejectedAt s pending None)
                             (shipments state))
            (weeklyQuotas state) (viewingWeekStart state).
Proof. unfold findShipment, appReducer. intros -> ->. reflexivity. Qed.

(** The three stores of the scenario: after the rejection at [t1], after
    the unrejection, and after the approval at [t2] of the shipment as it is
    then found in the store. *)
Definition afterReject (t1 : Date) (state : AppState) (id : string) : AppState :=
  appReducer t1 state (REJECT_SHIPMENT id).

Definition afterUnreject (t1 : Date) (state : AppState) (id : string) : AppState :=
  appReducer t1 (afterReject t1 state id) (UNREJECT_SHIPMENT id).

Definition afterApprove (t1 t2 : Date) (state : AppState) (id : string) : AppState :=
  let st := afterUnreject t1 state id in
  match findShipment st id with
  | Some s => appReducer t2 st (handleApproveShipment t2 st s)
  | None => st
  end.



(** The scenario on the sample store: 50 lbs of tuna are committed, none
    after the rejection nor after the unrejection, 50 again once approved. *)
Example reject_unreject_approve_totals :
  let total st := bucketTotal "tuna" "2024-12-29" (purchases st) in
  let t := Sample.today in
  (total TransitionSample.state == 50
   /\ total (afterReject t TransitionSample.state "s1") == 0
   /\ total (afterUnreject t TransitionSample.state "s1") == 0
   /\ total (afterApprove t t TransitionSample.state "s1") == 50)%Q
  /\ option_map Shipment.approvalStatus
       (findShipment (afterUnreject t TransitionSample.state "s1") "s1") = Some pending
  /\ option_map Shipment.rejectedAt
       (findShipment (afterReject t TransitionSample.state "s1") "s1") = Some (Some t).
Proof. vm_compute. repeat split. Qed.

(* ===================================================================== *)
(** ** Submitting the form *)
(* ===================================================================== *)

(** The shipment that [handleSubmit] builds once the date is parsed and the
    loop has decided. *)
Definition builtShipment (env : Env) (state : AppState) (form : FormState)
    (estimatedArrivalDate : Date) (requiresApproval : bool) : Shipment.t :=
  let shipmentId := shipmentIdOf (editingShipment form) env in
  Shipment.mk shipmentId
    (JS.trim (shipper form))
    estimatedArrivalDate
    (match editingShipment form with
     | Some e => Shipment.purchaseDate e | None => now env end)
    (getWeekStart estimatedArrivalDate)
    (mapi (formProduct shipmentId) (formProducts form))
    (match editingShipment form with
     | Some e => Shipment.createdAt e | None => now env end)
    (if requiresApproval then pending else approved)
    (if requiresApproval then None
     else Some (generatePurchaseOrderNumber (now env) (existingPONumbers state)))
    None
    (purchaserOf (editingShipment form) env).

Lemma parseDateInput_nonempty s d : parseDateInput s = Some d -> JS.truthy s = true.
Proof. destruct s; [discriminate | reflexivity]. Qed.

(** A form that passes validation, with a well-formed date and lines whose
    quota look-ups succeed, is dispatched. *)
Lemma handleSubmit_dispatches env state form d b :
  JS.truthy (JS.trim (shipper form)) = true ->
  validateProducts 0 (formProducts form) = None ->
  parseDateInput (estimatedArrival form) = Some d ->
  requiresApprovalLoop state (getWeekStart d) (formProducts form) = Returns b ->
  handleSubmit env state form
  = Dispatched (match editingShipment form with
                | Some _ => EDIT_SHIPMENT (builtShipment env state form d b)
                | None => ADD_SHIPMENT (builtShipment env state form d b)
                end).
Proof.
  intros Hs Hv Hd Hl. unfold handleSubmit.
  rewrite Hs, (parseDateInput_nonempty _ _ Hd), Hv, Hd, Hl. cbn [negb orb].
  unfold builtShipment. destruct b; destruct (editingShipment form); reflexivity.
Qed.

(** The specification's condition on one product line: the committed
    status is near-max or over, or the line would push the total above
    [maxQuota]. *)
Definition lineNeedsApproval (state : AppState) (weekStart : Date)
    (product : ProductFormData.t) : Prop :=
  ProductFormData.productId product <> "other"
  /\ exists q,
       getQuotaStatus state (ProductFormData.productId product) weekStart = Returns q
       /\ (QuotaStatus.status q = near_max
           \/ QuotaStatus.status q = over
           \/ (QuotaStatus.maxQuota q
               < QuotaStatus.currentTotal q + ProductFormData.totalPounds product)%Q).

(** Every line other than "other" names a product of the catalogue. *)
Definition linesResolve (state : AppState) (l : list ProductFormData.t) : Prop :=
  forall product,
    In product l ->
    ProductFormData.productId product <> "other" ->
    findProduct state (ProductFormData.productId product) <> None.

Lemma lineRequiresApproval_iff q product :
  lineRequiresApproval q product = true
  <-> QuotaStatus.status q = near_max
      \/ QuotaStatus.status q = over
      \/ (QuotaStatus.maxQuota q
          < QuotaStatus.currentTotal q + ProductFormData.totalPounds product)%Q.
Proof.
  unfold lineRequiresApproval.
  destruct (QuotaStatus.status q); rewrite ?Qltb_lt;
    intuition (try discriminate; auto).
Qed.

(** The loop stops with [true] exactly when some line needs approval. *)
Lemma requiresApprovalLoop_decides state weekStart l :
  linesResolve state l ->
  exists b,
    requiresApprovalLoop state weekStart l = Returns b
    /\ (b = true <-> exists product, In product l /\ lineNeedsApproval state weekStart product).
Proof.
  induction l as [|product l IH]; intros Hres.
  - exists false. split; [reflexivity|].
    split; [discriminate | intros (p & [] & _)].
  - assert (Hres' : linesResolve state l)
      by (intros p Hp; apply Hres; right; exact Hp).
    destruct (IH Hres') as (b & Hb & Hiff). cbn [requiresApprovalLoop].
    destruct (ProductFormData.productId product =? "other")%string eqn:Eo.
    + exists b. split; [exact Hb|]. rewrite Hiff. split.
      * intros (p & Hp & Hn). exists p. split; [right; exact Hp | exact Hn].
      * intros (p & [<- | Hp] & Hn).
        -- destruct Hn as [Hn _]. apply String.eqb_eq in Eo. contradiction.
        -- exists p. split; assumption.
    + apply String.eqb_neq in Eo.
      destruct (findProduct state (ProductFormData.productId product)) as [c|] eqn:Ef;
        [|exfalso; apply (Hres product (or_introl eq_refl) Eo Ef)].
      rewrite (getQuotaStatus_found _ _ weekStart _ Ef).
      set (q := statusOf c _).
      destruct (lineRequiresApproval q product) eqn:El.
      * exists true. split; [reflexivity|]. split; [|reflexivity].
        intros _. exists product. split; [left; reflexivity|].
        split; [exact Eo|]. exists q.
        split; [apply (getQuotaStatus_found _ _ weekStart _ Ef)|].
        apply lineRequiresApproval_iff, El.
      * exists b. split; [exact Hb|]. rewrite Hiff. split.
        -- intros (p & Hp & Hn). exists p. split; [right; exact Hp | exact Hn].
        -- intros (p & [<- | Hp] & Hn).
           ++ destruct Hn as (_ & q' & Hq' & Hc).
              rewrite (getQuotaStatus_found _ _ weekStart _ Ef) in Hq'.
              injection Hq' as <-. apply lineRequiresApproval_iff in Hc.
              fold q in Hc. congruence.
           ++ exists p. split; assumption.
Qed.

(** Some line of the form needs approval. *)
Definition someLineNeedsApproval (state : AppState) (weekStart : Date)
    (l : list ProductFormData.t) : Prop :=
  exists product, In product l /\ lineNeedsApproval state weekStart product.


Module SubmitSample.
(** 100 lbs of tuna are committed; 50 more are submitted. *)
Definition state : AppState := Sample.store [Sample.legacy "tuna" 100].
Definition form : FormState := Sample.form [Sample.line "tuna" 50].
Definition arrival : Date := DateJS.mkDate 2025 0 2.
End SubmitSample.


(** The two end-to-end scenarios of the specification: with 480 lbs of
    tuna committed out of 500, a shipment of 50 lbs and one of 10 lbs are
    both created pending, the second because 96% is already near-max; with
    100 lbs committed, 50 lbs are approved at once, and a line of "other" is
    never checked. *)
Example submission_scenarios :
  let outcome committed l :=
    match handleSubmit Sample.env (Sample.store [Sample.legacy "tuna" committed])
                       (Sample.form l) with
    | Dispatched (ADD_SHIPMENT s) =>
        Some (Shipment.approvalStatus s, Shipment.purchaseOrderNumber s)
    | _ => None
    end in
  (outcome 480 [Sample.line "tuna" 50] = Some (pending, None)
   /\ outcome 480 [Sample.line "tuna" 10] = Some (pending, None)
   /\ outcome 100 [Sample.line "tuna" 50] = Some (approved, Some "PO-20250101-0001")
   /\ outcome 100 [Sample.line "tuna" 50; Sample.line "sword" 301] = Some (pending, None)
   /\ outcome 100
        [ProductFormData.mk "other" (Some "Eel") 5000
           [ItemFormData.mk "" 5000 0 None]]
      = Some (approved, Some "PO-20250101-0001"))%Q.
Proof. vm_compute. repeat split. Qed.

(** Each line is judged on its own pounds: with 400 lbs of tuna committed,
    two lines of 60 lbs each stay below 500 lbs one by one and the shipment
    is approved, while a single line of 120 lbs is held. *)
Example lines_are_judged_one_by_one :
  let status l :=
    match handleSubmit Sample.env (Sample.store [Sample.legacy "tuna" 400])
                       (Sample.form l) with
    | Dispatched (ADD_SHIPMENT s) => Some (Shipment.approvalStatus s)
    | _ => None
    end in
  (status [Sample.line "tuna" 60; Sample.line "tuna" 60] = Some approved
   /\ status [Sample.line "tuna" 120] = Some pending)%Q.
Proof. vm_compute. split; reflexivity. Qed.

(** *** Editing *)

(** The claim about edits: the stored status and purchase-order number of
    the edited shipment are those it had. *)
Definition editPreservesApproval (env : Env) (state : AppState) (form : FormState)
    (e : Shipment.t) : Prop :=
  forall s s',
    handleSubmit env state form = Dispatched (EDIT_SHIPMENT s) ->
    findShipment (appReducer (now env) state (EDIT_SHIPMENT s)) (Shipment.id e) = Some s' ->
    Shipment.approvalStatus s' = Shipment.approvalStatus e
    /\ Shipment.purchaseOrderNumber s' = Shipment.purchaseOrderNumber e.

Module EditSample.
(** An approved shipment of 300 lbs of tuna, alone in the store. *)
Definition tuna300 : Shipment.t :=
  Shipment.mk "s1" "Gulf Co." SubmitSample.arrival Sample.today
    (getWeekStart SubmitSample.arrival)
    [ProductPurchase.mk "s1_0" "tuna" None 300
       [PurchaseItem.mk "s1_0_0" "40-59 lbs" 300 0 None]]
    Sample.today approved (Some "PO-20250101-0001") None (Some "u1").
Definition state : AppState :=
  appReducer Sample.today (initialState Sample.today) (ADD_SHIPMENT tuna300).
(** The edit form, opened and saved without a change. *)
Definition form : FormState := formOfShipment tuna300.
(** What the form then hands to the store. *)
Definition saved : Shipment.t :=
  builtShipment Sample.env state form SubmitSample.arrival true.
End EditSample.




(* ===================================================================== *)
(** ** Reachable stores *)
(* ===================================================================== *)

(** The actions the application dispatches.  [handleSubmit] and
    [handleApproveShipment] never hand over a rejected shipment; the id of a
    new shipment is the clock reading [Date.now()], taken to be new to the
    store; no component dispatches [ADD_PURCHASE], which is admitted here for
    purchases that belong to no shipment. *)
Definition dispatchable (state : AppState) (action : AppAction) : Prop :=
  match action with
  | ADD_SHIPMENT s =>
      Shipment.approvalStatus s <> rejected
      /\ findShipment state (Shipment.id s) = None
  | EDIT_SHIPMENT s => Shipment.approvalStatus s <> rejected
  | ADD_PURCHASE p => Purchase.shipmentId p = None
  | _ => True
  end.

Inductive reachable : AppState -> Prop :=
| reachable_initial (now : Date) : reachable (initialState now)
| reachable_dispatch (now : Date) (state : AppState) (action : AppAction) :
    reachable state ->
    dispatchable state action ->
    reachable (appReducer now state action).

Lemma handleSubmit_not_rejected env state form action :
  handleSubmit env state form = Dispatched action ->
  exists s,
    (action = ADD_SHIPMENT s \/ action = EDIT_SHIPMENT s)
    /\ Shipment.approvalStatus s <> rejected.
Proof.
  unfold handleSubmit.
  destruct (_ || _); [discriminate|].
  destruct (validateProducts _ _); [discriminate|].
  destruct (parseDateInput _); [|discriminate].
  destruct (requiresApprovalLoop _ _ _) as [b|]; [|discriminate].
  destruct (editingShipment form); intros [= <-]; eexists;
    (split; [(left; reflexivity) || (right; reflexivity)|]);
    destruct b; discriminate.
Qed.

Lemma handleApproveShipment_dispatchable today state shipment :
  dispatchable state (handleApproveShipment today state shipment).
Proof. cbn. discriminate. Qed.

(** No purchase of the index carries the id of a shipment in this status. *)
Definition contributesNothing (status : ApprovalStatus) (state : AppState) : Prop :=
  forall s p,
    In s (shipments state) ->
    Shipment.approvalStatus s = status ->
    In p (purchases state) ->
    shipmentId_is (Shipment.id s) p = false.

Lemma In_replaceShipment id s' l s :
  In s (replaceShipment id s' l) -> s = s' \/ (In s l /\ hasId id s = false).
Proof.
  unfold replaceShipment. rewrite in_map_iff. intros (x & Hx & Hin).
  destruct (hasId id x) eqn:E; [left; symmetry; exact Hx|].
  right. subst x. split; assumption.
Qed.

Lemma shipmentId_is_derived id s product :
  shipmentId_is id (derivedPurchase s product) = hasId id s.
Proof. reflexivity. Qed.

Lemma In_shipmentPurchases s p :
  In p (shipmentPurchases s) ->
  exists product, p = derivedPurchase s product.
Proof.
  unfold shipmentPurchases.
  destruct (Shipment.approvalStatus s); try contradiction;
    rewrite in_map_iff; intros (product & <- & _); exists product; reflexivity.
Qed.

Lemma hasId_sym s s' : hasId (Shipment.id s) s' = hasId (Shipment.id s') s.
Proof. unfold hasId. apply String.eqb_sym. Qed.

Lemma contributesNothing_step now state action :
  contributesNothing rejected state ->
  dispatchable state action ->
  contributesNothing rejected (appReducer now state action).
Proof.
  intros Inv Hd s p. destruct action as
    [purchase | s0 | s0 | id | id | id | | product | quota | weekStart | direction];
    cbn [appReducer]; try exact (Inv s p).
  - (* ADD_PURCHASE *)
    cbn [shipments purchases]. intros Hs Hst Hp. apply in_app_or in Hp.
    destruct Hp as [Hp | [<- | []]]; [exact (Inv s p Hs Hst Hp)|].
    unfold shipmentId_is. cbn in Hd. rewrite Hd. reflexivity.
  - (* ADD_SHIPMENT *)
    destruct Hd as [Hnr Hfresh]. cbn [shipments purchases]. intros Hs Hst Hp.
    apply in_app_or in Hs. destruct Hs as [Hs | [<- | []]]; [|contradiction].
    apply in_app_or in Hp. destruct Hp as [Hp | Hp]; [exact (Inv s p Hs Hst Hp)|].
    apply In_shipmentPurchases in Hp. destruct Hp as (product & ->).
    rewrite shipmentId_is_derived, hasId_sym.
    exact (find_none _ _ Hfresh s Hs).
  - (* EDIT_SHIPMENT *)
    cbn in Hd. cbn [shipments purchases]. intros Hs Hst Hp.
    apply In_replaceShipment in Hs. destruct Hs as [-> | [Hs Hne]]; [contradiction|].
    apply in_app_or in Hp. destruct Hp as [Hp | Hp].
    + apply filter_In in Hp. exact (Inv s p Hs Hst (proj1 Hp)).
    + apply In_shipmentPurchases in Hp. destruct Hp as (product & ->).
      rewrite shipmentId_is_derived, hasId_sym. exact Hne.
  - (* DELETE_SHIPMENT *)
    cbn [shipments purchases]. intros Hs Hst Hp.
    apply filter_In in Hs. apply filter_In in Hp.
    exact (Inv s p (proj1 Hs) Hst (proj1 Hp)).
  - (* REJECT_SHIPMENT *)
    destruct (find (hasId id) (shipments state)) as [found|] eqn:Ef;
      [|exact (Inv s p)].
    cbn [shipments purchases]. intros Hs Hst Hp.
    apply filter_In in Hp. destruct Hp as [Hp Hisnt].
    apply In_replaceShipment in Hs. destruct Hs as [-> | [Hs _]];
      [|exact (Inv s p Hs Hst Hp)].
    apply find_some in Ef. destruct Ef as [_ Hid]. apply hasId_eq in Hid.
    cbn [Shipment.withStatusRejectedAt Shipment.id]. rewrite Hid.
    unfold shipmentId_isnt in Hisnt. apply negb_true_iff in Hisnt. exact Hisnt.
  - (* UNREJECT_SHIPMENT *)
    destruct (find (hasId id) (shipments state)) as [found|] eqn:Ef;
      [|exact (Inv s p)].
    destruct (Shipment.approvalStatus found); try exact (Inv s p).
    cbn [shipments purchases]. intros Hs Hst Hp.
    apply In_replaceShipment in Hs. destruct Hs as [-> | [Hs _]];
      [discriminate Hst | exact (Inv s p Hs Hst Hp)].
  - (* DELETE_OLD_REJECTED *)
    cbn [shipments purchases]. intros Hs Hst Hp.
    apply filter_In in Hs. exact (Inv s p (proj1 Hs) Hst Hp).
Qed.

Module PendingSample.
(** 600 lbs of tuna submitted to the empty store: above quota, pending. *)
Definition form : FormState := Sample.form [Sample.line "tuna" 600].
Definition submitted : Shipment.t :=
  builtShipment Sample.env (initialState Sample.today) form SubmitSample.arrival true.
Definition state : AppState :=
  appReducer Sample.today (initialState Sample.today) (ADD_SHIPMENT submitted).
End PendingSample.

(** C8, as stated, fails: a shipment submitted above quota is stored
    pending together with its derived purchases, and the quota status counts
    them. *)
Lemma pending_shipment_counts :
  handleSubmit Sample.env (initialState Sample.today) PendingSample.form
  = Dispatched (ADD_SHIPMENT PendingSample.submitted)
  /\ reachable PendingSample.state
  /\ In PendingSample.submitted (shipments PendingSample.state)
  /\ Shipment.approvalStatus PendingSample.submitted = pending
  /\ (exists q,
        getQuotaStatus PendingSample.state "tuna" SubmitSample.arrival = Returns q
        /\ QuotaStatus.currentTotal q = 600%Q)
  /\ ~ contributesNothing pending PendingSample.state.
Proof.
  split; [vm_compute; reflexivity|]. split.
  { apply reachable_dispatch; [apply reachable_initial|].
    split; [discriminate | reflexivity]. }
  split; [left; reflexivity|]. split; [reflexivity|]. split.
  { eexists. split; [vm_compute; reflexivity | reflexivity]. }
  intro H.
  specialize (H PendingSample.submitted
                (derivedPurchase PendingSample.submitted
                   (ProductPurchase.mk "1735725600000_0" "tuna" None 600
                      [PurchaseItem.mk "1735725600000_0_0" "40-59 lbs" 600 0 None]))
                (or_introl eq_refl) eq_refl (or_introl eq_refl)).
  vm_compute in H. discriminate H.
Qed.

(** C8, amended.  In every reachable store state it is the rejected
    shipments that contribute nothing to quota totals: no purchase of the
    index carries the id of a rejected shipment, so their weight in every
    (product, week) bucket is zero and [getQuotaStatus] counts none of it.  A
    shipment stored pending by a submission does contribute: all its derived
    purchases enter the index. *)
Theorem rejected_contribute_nothing :
  forall state,
    reachable state ->
    contributesNothing rejected state
    /\ (forall s productId weekStart,
          In s (shipments state) ->
          Shipment.approvalStatus s = rejected ->
          indexedWeight (Shipment.id s) productId (getWeekKey weekStart) (purchases state)
          = 0%Q
          /\ forall q,
               getQuotaStatus state productId weekStart = Returns q ->
               (QuotaStatus.currentTotal q
                == bucketTotal productId (getWeekKey weekStart)
                     (filter (shipmentId_isnt (Shipment.id s)) (purchases state)))%Q)
    /\ (forall now s product,
          Shipment.approvalStatus s = pending ->
          In product (Shipment.products s) ->
          In (derivedPurchase s product)
             (purchases (appReducer now state (ADD_SHIPMENT s)))).
Proof.
  intros state Hreach.
  assert (Inv : contributesNothing rejected state).
  { induction Hreach as [now | now state action _ IH Hd].
    - intros s p [].
    - apply contributesNothing_step; assumption. }
  split; [exact Inv|]. split.
  - intros s productId weekStart Hs Hst.
    assert (Hnil : filter (shipmentId_is (Shipment.id s)) (purchases state) = []).
    { apply filter_none. intros p Hp. exact (Inv s p Hs Hst Hp). }
    split; [unfold indexedWeight; rewrite Hnil; reflexivity|].
    intros q Hq. unfold getQuotaStatus in Hq.
    destruct (find _ (products state)); [|discriminate].
    injection Hq as <-. cbn [QuotaStatus.currentTotal].
    rewrite (bucketTotal_split (Shipment.id s)). unfold indexedWeight.
    rewrite Hnil, bucketTotal_nil. ring.
  - intros now s product Hst Hin. cbn [appReducer purchases].
    apply in_or_app. right. unfold shipmentPurchases. rewrite Hst.
    apply in_map. exact Hin.
Qed.

Module RejectedSample.
(** The pending shipment of [PendingSample], then rejected. *)
Definition state : AppState :=
  appReducer Sample.today PendingSample.state (REJECT_SHIPMENT "1735725600000").
End RejectedSample.

Lemma rejected_contribute_nothing_witness :
  reachable RejectedSample.state
  /\ contributesNothing rejected RejectedSample.state.
Proof.
  assert (H : reachable RejectedSample.state).
  { apply reachable_dispatch; [|exact I].
    apply reachable_dispatch; [apply reachable_initial|].
    split; [discriminate | reflexivity]. }
  split; [exact H|].
  exact (proj1 (rejected_contribute_nothing RejectedSample.state H)).
Defined.

Example rejected_sample_is_rejected :
  option_map Shipment.approvalStatus (findShipment RejectedSample.state "1735725600000")
  = Some rejected
  /\ purchases RejectedSample.state = [].
Proof. vm_compute. split; reflexivity. Qed.

(* ===================================================================== *)
(** ** Purchase-order numbering *)
(* ===================================================================== *)

(** *** Digits *)

Ltac ascii_cases c :=
  destruct c as [[] [] [] [] [] [] [] []]; try discriminate.

Lemma digit_not_dash c : JS.isDigit c = true -> Ascii.eqb c "-" = false.
Proof. ascii_cases c; reflexivity. Qed.

Lemma digit_not_space c : JS.isDigit c = true -> JS.isSpace c = false.
Proof. ascii_cases c; reflexivity. Qed.

(** Value of a string of decimal digits read after [acc]. *)
Fixpoint decimalValue (acc : Z) (s : string) : Z :=
  match s with
  | "" => acc
  | String c r => decimalValue (10 * acc + JS.digitVal c) r
  end.

Lemma digitsPrefix_allDigits s acc :
  JS.allDigits s = true ->
  JS.digitsPrefix acc true s = Some (decimalValue acc s).
Proof.
  revert acc. induction s as [|c r IH]; intros acc H; [reflexivity|].
  cbn [JS.allDigits] in H. apply andb_true_iff in H. destruct H as [Hc Hr].
  cbn [JS.digitsPrefix decimalValue]. rewrite Hc. apply IH, Hr.
Qed.

(** [parseInt] reads a non-empty string of digits entirely. *)
Lemma parseInt_allDigits s :
  JS.allDigits s = true -> s <> "" ->
  JS.parseInt s = Some (decimalValue 0 s).
Proof.
  destruct s as [|c r]; [congruence|]. intros H _.
  cbn [JS.allDigits] in H. apply andb_true_iff in H. destruct H as [Hc Hr].
  unfold JS.parseInt. cbn [JS.trimStart]. rewrite (digit_not_space c Hc).
  transitivity (JS.digitsPrefix 0 false (String c r)).
  - ascii_cases c; reflexivity.
  - cbn [JS.digitsPrefix decimalValue]. rewrite Hc.
    apply digitsPrefix_allDigits, Hr.
Qed.

(** *** Splitting at dashes *)

Lemma split_digits_end d : JS.allDigits d = true -> JS.split "-" d = [d].
Proof.
  induction d as [|c r IH]; intros H; [reflexivity|].
  cbn [JS.allDigits] in H. apply andb_true_iff in H. destruct H as [Hc Hr].
  cbn [JS.split]. rewrite (digit_not_dash c Hc), (IH Hr). reflexivity.
Qed.

Lemma split_digits_dash d rest :
  JS.allDigits d = true ->
  JS.split "-" (d ++ String "-" rest) = d :: JS.split "-" rest.
Proof.
  induction d as [|c r IH]; intros H; [reflexivity|].
  cbn [JS.allDigits] in H. apply andb_true_iff in H. destruct H as [Hc Hr].
  cbn [JS.split append]. rewrite (digit_not_dash c Hc), (IH Hr). reflexivity.
Qed.

(** *** Strict-format numbers *)

(** A strict-format number is [PO-], eight digits, a dash, four digits. *)
Lemma isValid_shape po :
  isValidPurchaseOrderNumber po = true ->
  exists d8 d4,
    po = "PO-" ++ d8 ++ String "-" d4
    /\ JS.allDigits d8 = true /\ JS.allDigits d4 = true
    /\ String.length d8 = 8%nat /\ String.length d4 = 4%nat
    /\ d4 = substring 12 4 po.
Proof.
  unfold isValidPurchaseOrderNumber. intros H.
  repeat (apply andb_true_iff in H; destruct H as [H ?]).
  apply Nat.eqb_eq in H.
  do 16 (destruct po as [|? po]; [discriminate H|]).
  destruct po; [|discriminate H].
  match goal with Hp : JS.startsWith _ _ = true |- _ =>
    unfold JS.startsWith in Hp; apply prefix_correct in Hp;
    cbn in Hp; injection Hp as -> -> -> end.
  match goal with Hd : (_ =? "-")%string = true |- _ =>
    apply String.eqb_eq in Hd; cbn in Hd; injection Hd as -> end.
  cbn [substring] in *.
  eexists (String _ (String _ (String _ (String _ (String _ (String _
            (String _ (String _ "")))))))).
  eexists (String _ (String _ (String _ (String _ "")))).
  repeat split; try reflexivity; assumption.
Qed.

(** *** The sequence number that is issued *)

(** The sequence number the loop reads from one entry, if any. *)
Definition sequenceOf (po : string) : option Z :=
  match nth_error (JS.split "-" po) 2 with
  | Some sequencePart =>
      if JS.truthy sequencePart then JS.parseInt sequencePart else None
  | None => None
  end.

(** The greatest sequence number read from the entries, 0 if there is none. *)
Fixpoint maxSequenceOf (l : list string) : Z :=
  match l with
  | [] => 0
  | po :: r =>
      match sequenceOf po with
      | Some n => Z.max n (maxSequenceOf r)
      | None => maxSequenceOf r
      end
  end.

Lemma nextMax_sequenceOf m po :
  nextMax m po = match sequenceOf po with Some n => Z.max m n | None => m end.
Proof.
  unfold nextMax, sequenceOf.
  destruct (nth_error _ 2) as [part|]; [|reflexivity].
  destruct (JS.truthy part); [|reflexivity].
  destruct (JS.parseInt part) as [n|]; [|reflexivity].
  destruct (m <? n) eqn:E; [apply Z.ltb_lt in E | apply Z.ltb_ge in E]; lia.
Qed.

Lemma maxSequenceOf_nonneg l : 0 <= maxSequenceOf l.
Proof.
  induction l as [|po r IH]; cbn [maxSequenceOf]; [lia|].
  destruct (sequenceOf po); lia.
Qed.

Lemma maxSequenceOf_none l :
  (forall po, In po l -> sequenceOf po = None) -> maxSequenceOf l = 0.
Proof.
  induction l as [|po r IH]; intros H; [reflexivity|].
  cbn [maxSequenceOf]. rewrite (H po (or_introl eq_refl)).
  apply IH. intros x Hx. apply H. right. exact Hx.
Qed.

Lemma fold_nextMax l m :
  0 <= m -> fold_left nextMax l m = Z.max m (maxSequenceOf l).
Proof.
  revert m. induction l as [|po r IH]; intros m Hm; cbn [fold_left maxSequenceOf].
  - lia.
  - rewrite nextMax_sequenceOf. pose proof (maxSequenceOf_nonneg r).
    destruct (sequenceOf po) as [n|]; rewrite IH; lia.
Qed.

(** What [generatePurchaseOrderNumber] returns, in closed form. *)
Lemma generate_closed_form today existing :
  generatePurchaseOrderNumber today existing
  = datePrefix today ++ "-"
    ++ JS.padStart0 4
         (JS.toString
            (maxSequenceOf
               (filter (fun po => JS.startsWith po (datePrefix today)) existing) + 1)).
Proof.
  unfold generatePurchaseOrderNumber. rewrite fold_nextMax by lia.
  rewrite Z.max_r by apply maxSequenceOf_nonneg. reflexivity.
Qed.

(** *** The specification's reading *)

(** An entry counts when it has the strict format and carries today's
    date prefix. *)
Definition spec_counts (today : Date) (po : string) : bool :=
  isValidPurchaseOrderNumber po && JS.startsWith po (datePrefix today).

(** The four digits that end a strict-format number. *)
Definition spec_sequence (po : string) : Z := decimalValue 0 (substring 12 4 po).

Definition spec_maxSequence (today : Date) (existing : list string) : Z :=
  fold_right Z.max 0 (map spec_sequence (filter (spec_counts today) existing)).

(** [PO-YYYYMMDD-NNNN] with [NNNN] one more than the greatest sequence
    number among the entries that count, [0001] when none does. *)
Definition spec_generate (today : Date) (existing : list string) : string :=
  datePrefix today ++ "-"
  ++ JS.padStart0 4 (JS.toString (spec_maxSequence today existing + 1)).

(** Every entry with today's prefix has the strict format. *)
Definition todaysWellFormed (today : Date) (existing : list string) : Prop :=
  forall po,
    In po existing ->
    JS.startsWith po (datePrefix today) = true ->
    isValidPurchaseOrderNumber po = true.

Lemma sequenceOf_valid po :
  isValidPurchaseOrderNumber po = true -> sequenceOf po = Some (spec_sequence po).
Proof.
  intros H. unfold sequenceOf, spec_sequence.
  destruct (isValid_shape po H) as (d8 & d4 & Hpo & H8 & H4 & _ & L4 & <-).
  rewrite Hpo.
  change ("PO-" ++ d8 ++ String "-" d4)
    with (String "P" (String "O" (String "-" (d8 ++ String "-" d4)))).
  cbn [JS.split Ascii.eqb Bool.eqb].
  rewrite (split_digits_dash d8 d4 H8), (split_digits_end d4 H4).
  cbn [nth_error].
  assert (Hne : d4 <> "") by (destruct d4; [discriminate L4 | discriminate]).
  assert (Ht : JS.truthy d4 = true).
  { unfold JS.truthy. apply negb_true_iff, String.eqb_neq, Hne. }
  rewrite Ht. apply (parseInt_allDigits d4 H4 Hne).
Qed.

Lemma maxSequenceOf_valid l :
  (forall po, In po l -> isValidPurchaseOrderNumber po = true) ->
  maxSequenceOf l = fold_right Z.max 0 (map spec_sequence l).
Proof.
  induction l as [|po r IH]; intros H; [reflexivity|].
  cbn [maxSequenceOf map fold_right].
  rewrite (sequenceOf_valid po (H po (or_introl eq_refl))).
  rewrite IH by (intros x Hx; apply H; right; exact Hx). reflexivity.
Qed.

Lemma maxSequence_agrees today existing :
  todaysWellFormed today existing ->
  maxSequenceOf (filter (fun po => JS.startsWith po (datePrefix today)) existing)
  = spec_maxSequence today existing.
Proof.
  intros Hwf. unfold spec_maxSequence.
  assert (Hfilter : filter (spec_counts today) existing
                    = filter (fun po => JS.startsWith po (datePrefix today)) existing).
  { apply filter_ext_in. intros po Hpo. unfold spec_counts.
    destruct (JS.startsWith po (datePrefix today)) eqn:E.
    - rewrite (Hwf po Hpo E). reflexivity.
    - apply andb_false_r. }
  rewrite Hfilter. apply maxSequenceOf_valid.
  intros po Hpo. apply filter_In in Hpo. destruct Hpo as [Hin Hs].
  exact (Hwf po Hin Hs).
Qed.

(** *** Checking a bounded range by evaluation *)

(** [P] holds at [lo], [lo + 1], ..., [n] values in all. *)
Fixpoint allFrom (P : Z -> bool) (lo : Z) (n : nat) : bool :=
  match n with
  | O => true
  | S k => P lo && allFrom P (lo + 1) k
  end.

Lemma allFrom_spec P n : forall lo,
  allFrom P lo n = true -> forall z, lo <= z < lo + Z.of_nat n -> P z = true.
Proof.
  induction n as [|k IH]; intros lo H z Hz; [lia|].
  cbn [allFrom] in H. apply andb_true_iff in H. destruct H as [H0 Hk].
  destruct (Z.eq_dec z lo) as [->|Hne]; [exact H0|].
  apply (IH (lo + 1) Hk). lia.
Qed.

(** [P] holds on the interval from [lo] to [hi] when the check succeeds. *)
Lemma allBetween P lo hi :
  allFrom P lo (Z.to_nat (hi - lo + 1)) = true ->
  forall z, lo <= z <= hi -> P z = true.
Proof.
  intros H z Hz. apply (allFrom_spec P _ lo H). lia.
Qed.

(** *** The calendar fields of a date *)

Lemma dayOfYear_bounds doe :
  0 <= doe < 146097 ->
  let yoe := (doe - doe / 1460 + doe / 36524 - doe / 146096) / 365 in
  0 <= doe - (365 * yoe + yoe / 4 - yoe / 100) <= 365.
Proof.
  intros H. cbv zeta. Z.div_mod_to_equations. lia.
Qed.

Lemma monthDay_bounds doy :
  0 <= doy <= 365 ->
  let mp := (5 * doy + 2) / 153 in
  0 <= mp <= 11 /\ 1 <= doy - (153 * mp + 2) / 5 + 1 <= 31.
Proof.
  intros H. cbv zeta. Z.div_mod_to_equations. lia.
Qed.

Lemma civilFromDays_bounds z :
  let '(_, m, d) := DateJS.civilFromDays z in 1 <= m <= 12 /\ 1 <= d <= 31.
Proof.
  unfold DateJS.civilFromDays. cbv zeta.
  set (doe := (z + 719468) mod 146097).
  assert (Hdoe : 0 <= doe < 146097) by (apply Z.mod_pos_bound; lia).
  pose proof (dayOfYear_bounds doe Hdoe) as Hdoy. cbv zeta in Hdoy.
  set (yoe := (doe - doe / 1460 + doe / 36524 - doe / 146096) / 365) in *.
  set (doy := doe - (365 * yoe + yoe / 4 - yoe / 100)) in *.
  pose proof (monthDay_bounds doy Hdoy) as Hmd. cbv zeta in Hmd.
  set (mp := (5 * doy + 2) / 153) in *.
  destruct Hmd as [Hmp Hd]. split; [|exact Hd].
  destruct (mp <? 10) eqn:E; [apply Z.ltb_lt in E | apply Z.ltb_ge in E]; lia.
Qed.

Lemma getMonth_bounds today : 0 <= DateJS.getMonth today <= 11.
Proof.
  unfold DateJS.getMonth.
  pose proof (civilFromDays_bounds (DateJS.dayNumber today)) as H.
  destruct (DateJS.civilFromDays _) as [[y m] d]. cbn [fst snd]. lia.
Qed.

Lemma getDate_bounds today : 1 <= DateJS.getDate today <= 31.
Proof.
  unfold DateJS.getDate.
  pose proof (civilFromDays_bounds (DateJS.dayNumber today)) as H.
  destruct (DateJS.civilFromDays _) as [[y m] d]. cbn [fst snd]. lia.
Qed.

(** *** Decimal numerals of bounded numbers *)

(** A string of exactly [w] decimal digits. *)
Definition digitsOfWidth (w : nat) (s : string) : bool :=
  (String.length s =? w)%nat && JS.allDigits s.

Lemma year_numeral y :
  1000 <= y <= 9999 -> digitsOfWidth 4 (JS.toString y) = true.
Proof.
  intros H.
  apply (allBetween (fun y => digitsOfWidth 4 (JS.toString y)) 1000 9999); [|exact H].
  vm_compute. reflexivity.
Qed.

Lemma padded2_numeral n :
  0 <= n <= 99 -> digitsOfWidth 2 (JS.padStart0 2 (JS.toString n)) = true.
Proof.
  intros H.
  apply (allBetween (fun n => digitsOfWidth 2 (JS.padStart0 2 (JS.toString n))) 0 99);
    [|exact H].
  vm_compute. reflexivity.
Qed.

Lemma padded4_numeral n :
  0 <= n <= 9999 -> digitsOfWidth 4 (JS.padStart0 4 (JS.toString n)) = true.
Proof.
  intros H.
  apply (allBetween (fun n => digitsOfWidth 4 (JS.padStart0 4 (JS.toString n))) 0 9999);
    [|exact H].
  vm_compute. reflexivity.
Qed.

(** *** The shape of the result *)

Lemma valid_of_parts Y M D N :
  digitsOfWidth 4 Y = true -> digitsOfWidth 2 M = true ->
  digitsOfWidth 2 D = true -> digitsOfWidth 4 N = true ->
  isValidPurchaseOrderNumber (("PO-" ++ Y ++ M ++ D) ++ "-" ++ N) = true.
Proof.
  unfold digitsOfWidth. intros HY HM HD HN.
  apply andb_true_iff in HY, HM, HD, HN.
  destruct HY as [LY HY], HM as [LM HM], HD as [LD HD], HN as [LN HN].
  apply Nat.eqb_eq in LY, LM, LD, LN.
  do 4 (destruct Y as [|? Y]; [discriminate LY|]). destruct Y; [|discriminate LY].
  do 2 (destruct M as [|? M]; [discriminate LM|]). destruct M; [|discriminate LM].
  do 2 (destruct D as [|? D]; [discriminate LD|]). destruct D; [|discriminate LD].
  do 4 (destruct N as [|? N]; [discriminate LN|]). destruct N; [|discriminate LN].
  cbn [JS.allDigits] in HY, HM, HD, HN.
  repeat match goal with
         | H : _ && _ = true |- _ => apply andb_true_iff in H; destruct H
         end.
  unfold isValidPurchaseOrderNumber, JS.startsWith.
  cbn [append String.length Nat.eqb substring JS.allDigits String.eqb andb].
  repeat match goal with
         | H : JS.isDigit _ = true |- _ => rewrite H; clear H
         end.
  reflexivity.
Qed.

Lemma datePrefix_parts today :
  datePrefix today
  = "PO-" ++ JS.toString (DateJS.getFullYear today)
          ++ JS.padStart0 2 (JS.toString (DateJS.getMonth today + 1))
          ++ JS.padStart0 2 (JS.toString (DateJS.getDate today)).
Proof. reflexivity. Qed.

Module NumberingSample.
Definition today : Date := Sample.today.
(** A number of today whose sequence part has two digits only. *)
Definition short : string := "PO-20250101-12".
End NumberingSample.



(** The numbers issued on 2025-01-01 for growing lists of today's numbers;
    those of other days do not count.  Past 9999 the sequence part gets a
    fifth digit. *)
Example generate_examples :
  let g := generatePurchaseOrderNumber NumberingSample.today in
  g [] = "PO-20250101-0001"
  /\ g ["PO-20250101-0001"] = "PO-20250101-0002"
  /\ g ["PO-20250101-0007"; "PO-20241231-0042"; "PO-20250101-0003"] = "PO-20250101-0008"
  /\ g ["garbage"; "PO-20250101"; "PO-20250101-"; "PO-20250101-x"] = "PO-20250101-0001"
  /\ g ["PO-20250101-9999"] = "PO-20250101-10000"
  /\ getDateFromPurchaseOrderNumber (g ["PO-20250101-0001"])
     = Some (DateJS.mkDate 2025 0 1).
Proof. vm_compute. repeat split. Qed.

(* ===================================================================== *)
(** * Further properties of the sources *)
(* ===================================================================== *)

(** ** Decimal numerals *)

(** Value of a decimal numeral read after [acc], most significant digit
    first. *)
Fixpoint uintValue (acc : Z) (d : Decimal.uint) : Z :=
  match d with
  | Decimal.Nil => acc
  | Decimal.D0 d => uintValue (10 * acc) d
  | Decimal.D1 d => uintValue (10 * acc + 1) d
  | Decimal.D2 d => uintValue (10 * acc + 2) d
  | Decimal.D3 d => uintValue (10 * acc + 3) d
  | Decimal.D4 d => uintValue (10 * acc + 4) d
  | Decimal.D5 d => uintValue (10 * acc + 5) d
  | Decimal.D6 d => uintValue (10 * acc + 6) d
  | Decimal.D7 d => uintValue (10 * acc + 7) d
  | Decimal.D8 d => uintValue (10 * acc + 8) d
  | Decimal.D9 d => uintValue (10 * acc + 9) d
  end.

Lemma of_uint_acc_value d acc :
  Z.pos (Pos.of_uint_acc d acc) = uintValue (Z.pos acc) d.
Proof.
  revert acc. induction d; intros acc; cbn [Pos.of_uint_acc uintValue];
    try reflexivity; rewrite IHd; f_equal; lia.
Qed.

Lemma of_uint_value d : Z.of_N (Pos.of_uint d) = uintValue 0 d.
Proof.
  induction d; cbn [Pos.of_uint uintValue]; try reflexivity;
    try exact IHd; cbn [Z.of_N]; rewrite of_uint_acc_value; reflexivity.
Qed.

Lemma string_of_uint_digits d : JS.allDigits (NilEmpty.string_of_uint d) = true.
Proof. induction d; cbn; try reflexivity; exact IHd. Qed.

Lemma string_of_uint_value d acc :
  decimalValue acc (NilEmpty.string_of_uint d) = uintValue acc d.
Proof.
  revert acc. induction d; intros acc; cbn [NilEmpty.string_of_uint decimalValue uintValue];
    try reflexivity; rewrite IHd; f_equal; unfold JS.digitVal; cbn; lia.
Qed.

(** [String(n)] of a natural number is a non-empty run of digits that
    reads back as [n]. *)
Lemma toString_numeral n :
  0 <= n ->
  JS.allDigits (JS.toString n) = true
  /\ JS.toString n <> ""
  /\ decimalValue 0 (JS.toString n) = n.
Proof.
  intros Hn. destruct n as [|p|p]; [repeat split; discriminate | | lia].
  unfold JS.toString. cbn [Z.to_int NilZero.string_of_int NilZero.string_of_uint].
  pose proof (DecimalPos.Unsigned.to_uint_nonnil p) as Hnil.
  pose proof (DecimalPos.Unsigned.of_to p) as Hof.
  assert (Hs : NilZero.string_of_uint (Pos.to_uint p)
               = NilEmpty.string_of_uint (Pos.to_uint p))
    by (destruct (Pos.to_uint p); [congruence | reflexivity..]).
  rewrite Hs. split; [apply string_of_uint_digits|]. split.
  - destruct (Pos.to_uint p); [congruence | discriminate..].
  - rewrite string_of_uint_value, <- of_uint_value, Hof. reflexivity.
Qed.

Lemma allDigits_app a b : JS.allDigits (a ++ b) = JS.allDigits a && JS.allDigits b.
Proof.
  induction a as [|c a IH]; [reflexivity|].
  cbn [append JS.allDigits]. rewrite IH. apply andb_assoc.
Qed.

Lemma repeat0_digits k : JS.allDigits (JS.repeat0 k) = true.
Proof. induction k as [|k IH]; [reflexivity | exact IH]. Qed.

Lemma decimalValue_repeat0 k s : decimalValue 0 (JS.repeat0 k ++ s) = decimalValue 0 s.
Proof. induction k as [|k IH]; [reflexivity | exact IH]. Qed.

(** A padded numeral is a non-empty run of digits with the same value. *)
Lemma padded_numeral w n :
  0 <= n ->
  JS.allDigits (JS.padStart0 w (JS.toString n)) = true
  /\ JS.padStart0 w (JS.toString n) <> ""
  /\ decimalValue 0 (JS.padStart0 w (JS.toString n)) = n.
Proof.
  intros Hn. destruct (toString_numeral n Hn) as (Hd & Hne & Hv).
  unfold JS.padStart0. split; [|split].
  - rewrite allDigits_app, repeat0_digits, Hd. reflexivity.
  - destruct (JS.repeat0 _); [exact Hne | discriminate].
  - rewrite decimalValue_repeat0. exact Hv.
Qed.

Lemma parseInt_padded w n :
  0 <= n -> JS.parseInt (JS.padStart0 w (JS.toString n)) = Some n.
Proof.
  intros Hn. destruct (padded_numeral w n Hn) as (Hd & Hne & Hv).
  rewrite (parseInt_allDigits _ Hd Hne), Hv. reflexivity.
Qed.

Lemma parseInt_toString n : 0 <= n -> JS.parseInt (JS.toString n) = Some n.
Proof. intros Hn. exact (parseInt_padded 0 n Hn). Qed.

(** [String(n)] is injective on the natural numbers. *)
Lemma toString_inj a b : 0 <= a -> 0 <= b -> JS.toString a = JS.toString b -> a = b.
Proof.
  intros Ha Hb H.
  destruct (toString_numeral a Ha) as (_ & _ & <-).
  destruct (toString_numeral b Hb) as (_ & _ & <-).
  rewrite H. reflexivity.
Qed.

(** ** The calendar *)

Lemma yearOfEra_bounds doe :
  0 <= doe < 146097 ->
  0 <= (doe - doe / 1460 + doe / 36524 - doe / 146096) / 365 <= 399.
Proof. intros H. Z.div_mod_to_equations. lia. Qed.

(** The day number of the civil date of a day number is that day number. *)
Lemma daysFromCivil_civilFromDays z :
  let '(y, m, d) := DateJS.civilFromDays z in DateJS.daysFromCivil y m d = z.
Proof.
  unfold DateJS.civilFromDays. cbv zeta.
  set (doe := (z + 719468) mod 146097).
  set (era := (z + 719468) / 146097).
  assert (Hz : z + 719468 = 146097 * era + doe) by (apply Z.div_mod; lia).
  assert (Hdoe : 0 <= doe < 146097) by (apply Z.mod_pos_bound; lia).
  pose proof (yearOfEra_bounds doe Hdoe) as Hyoe.
  pose proof (dayOfYear_bounds doe Hdoe) as Hdoy. cbv zeta in Hdoy.
  set (yoe := (doe - doe / 1460 + doe / 36524 - doe / 146096) / 365) in *.
  set (doy := doe - (365 * yoe + yoe / 4 - yoe / 100)) in *.
  pose proof (monthDay_bounds doy Hdoy) as Hmd. cbv zeta in Hmd.
  set (mp := (5 * doy + 2) / 153) in *.
  destruct Hmd as [Hmp Hd].
  unfold DateJS.daysFromCivil. cbv zeta.
  set (m := if mp <? 10 then mp + 3 else mp - 9).
  assert (Hm : (if 2 <? m then m - 3 else m + 9) = mp).
  { unfold m. destruct (mp <? 10) eqn:E; [apply Z.ltb_lt in E | apply Z.ltb_ge in E].
    - destruct (2 <? mp + 3) eqn:E2; [lia | apply Z.ltb_ge in E2; lia].
    - destruct (2 <? mp - 9) eqn:E2; [apply Z.ltb_lt in E2; lia | lia]. }
  rewrite Hm.
  set (y' := if m <=? 2 then yoe + era * 400 + (if m <=? 2 then 1 else 0) - 1
             else yoe + era * 400 + (if m <=? 2 then 1 else 0)).
  assert (Hy : y' = yoe + era * 400) by (unfold y'; destruct (m <=? 2); lia).
  rewrite Hy.
  assert (He : (yoe + era * 400) / 400 = era).
  { symmetry. apply (Z.div_unique _ _ _ yoe); lia. }
  rewrite He.
  replace (yoe + era * 400 - era * 400) with yoe by lia.
  fold doy. lia.
Qed.


(* ===================================================================== *)
(** ** Weeks ([utils/dateUtils.ts]) *)
(* ===================================================================== *)

(** date-fns [endOfWeek(d, { weekStartsOn: 0 })]: the last millisecond of
    the Saturday that ends the week. *)
Definition getWeekEnd (date : Date) : Date :=
  DateJS.startOfWeek date + 7 * DateJS.msPerDay - 1.

(** [isCurrentWeek(date)]: date-fns [isSameWeek] compares the starts of the
    two weeks. *)
Definition isCurrentWeek (now date : Date) : bool :=
  DateJS.startOfWeek date =? DateJS.startOfWeek now.

(** date-fns [startOfDay]. *)
Definition startOfDay (d : Date) : Date := DateJS.dayNumber d * DateJS.msPerDay.

(** date-fns [isSameDay]. *)
Definition isSameDay (a b : Date) : bool := startOfDay a =? startOfDay b.

Lemma dayNumber_midnight k : DateJS.dayNumber (k * DateJS.msPerDay) = k.
Proof. unfold DateJS.dayNumber, DateJS.msPerDay. apply Z.div_mul. discriminate. Qed.

Lemma dayNumber_bounds d :
  DateJS.dayNumber d * DateJS.msPerDay <= d
  < DateJS.dayNumber d * DateJS.msPerDay + DateJS.msPerDay.
Proof.
  unfold DateJS.dayNumber, DateJS.msPerDay.
  pose proof (Z.div_mod d 86400000 ltac:(discriminate)).
  pose proof (Z.mod_pos_bound d 86400000 ltac:(reflexivity)). lia.
Qed.

Lemma dayNumber_unique d k :
  k * DateJS.msPerDay <= d < k * DateJS.msPerDay + DateJS.msPerDay ->
  DateJS.dayNumber d = k.
Proof.
  intros H. pose proof (dayNumber_bounds d) as B. unfold DateJS.msPerDay in *. nia.
Qed.

Lemma getDay_range d : 0 <= DateJS.getDay d < 7.
Proof. unfold DateJS.getDay. apply Z.mod_pos_bound. reflexivity. Qed.

Lemma dayNumber_getWeekStart d :
  DateJS.dayNumber (getWeekStart d) = DateJS.dayNumber d - DateJS.getDay d.
Proof. apply dayNumber_midnight. Qed.

Lemma getWeekStart_sunday d :
  DateJS.getDay (getWeekStart d) = 0 /\ startOfDay (getWeekStart d) = getWeekStart d.
Proof.
  split.
  - unfold DateJS.getDay at 1. rewrite dayNumber_getWeekStart. unfold DateJS.getDay.
    Z.div_mod_to_equations. lia.
  - unfold startOfDay. rewrite dayNumber_getWeekStart. reflexivity.
Qed.

Lemma getWeekStart_bounds d : getWeekStart d <= d < getWeekStart d + 7 * DateJS.msPerDay.
Proof.
  pose proof (dayNumber_bounds d) as Hb. pose proof (getDay_range d) as Hg.
  unfold getWeekStart, DateJS.startOfWeek. unfold DateJS.msPerDay in *. lia.
Qed.

Lemma getWeekStart_unique d w :
  DateJS.getDay w = 0 -> startOfDay w = w ->
  w <= d < w + 7 * DateJS.msPerDay -> w = getWeekStart d.
Proof.
  intros Hw Hmid Hin. unfold startOfDay in Hmid.
  pose proof (dayNumber_bounds d) as Hb.
  unfold getWeekStart, DateJS.startOfWeek. rewrite <- Hmid. f_equal.
  unfold DateJS.getDay in *. unfold DateJS.msPerDay in *.
  set (kw := DateJS.dayNumber w) in *. set (kd := DateJS.dayNumber d) in *.
  assert (kw <= kd < kw + 7) by lia.
  Z.div_mod_to_equations. lia.
Qed.

Lemma getWeekStart_is_aligned d : getWeekStart (getWeekStart d) = getWeekStart d.
Proof.
  destruct (getWeekStart_sunday d) as [Hs Hm]. pose proof (getWeekStart_bounds d).
  symmetry. apply getWeekStart_unique; [exact Hs | exact Hm |].
  unfold DateJS.msPerDay. lia.
Qed.

(** X1.  [getWeekStart] returns the one Sunday midnight of the seven days
    that end with the given instant, and is idempotent. *)
Theorem getWeekStart_is_the_sunday_before :
  forall d,
    DateJS.getDay (getWeekStart d) = 0
    /\ startOfDay (getWeekStart d) = getWeekStart d
    /\ getWeekStart d <= d < getWeekStart d + 7 * DateJS.msPerDay
    /\ getWeekStart (getWeekStart d) = getWeekStart d
    /\ (forall w,
          DateJS.getDay w = 0 -> startOfDay w = w ->
          w <= d < w + 7 * DateJS.msPerDay ->
          w = getWeekStart d).
Proof.
  intros d. destruct (getWeekStart_sunday d) as [Hs Hm].
  pose proof (getWeekStart_bounds d) as Hb.
  split; [exact Hs|]. split; [exact Hm|]. split; [exact Hb|]. split.
  - apply getWeekStart_is_aligned.
  - intros w. apply getWeekStart_unique.
Qed.

(** Two instants have the same week start exactly when the second lies in
    the week of the first. *)
Lemma same_week_iff a b :
  getWeekStart b = getWeekStart a <-> getWeekStart a <= b <= getWeekEnd a.
Proof.
  unfold getWeekEnd. fold (getWeekStart a). split.
  - intros H. pose proof (getWeekStart_bounds b). rewrite H in *. lia.
  - intros H. symmetry. destruct (getWeekStart_sunday a) as [Hs Hm].
    apply getWeekStart_unique; [exact Hs | exact Hm | lia].
Qed.

(** X2.  The week of an instant runs from [getWeekStart] to [getWeekEnd],
    which are six days, 23 hours, 59 minutes, 59.999 seconds apart;
    [isCurrentWeek] accepts exactly the instants of the running week. *)
Theorem isCurrentWeek_iff_within_week :
  forall now date,
    getWeekStart now <= now <= getWeekEnd now
    /\ getWeekEnd now - getWeekStart now = 7 * DateJS.msPerDay - 1
    /\ getWeekStart (getWeekEnd now) = getWeekStart now
    /\ (isCurrentWeek now date = true
        <-> getWeekStart now <= date <= getWeekEnd now).
Proof.
  intros now date.
  assert (Hnow : getWeekStart now <= now <= getWeekEnd now)
    by (apply same_week_iff; reflexivity).
  split; [exact Hnow|]. split; [unfold getWeekEnd, getWeekStart; lia|]. split.
  - apply same_week_iff. unfold getWeekEnd, getWeekStart, DateJS.msPerDay. lia.
  - unfold isCurrentWeek. rewrite Z.eqb_eq. apply same_week_iff.
Qed.

(** *** Week keys *)

Lemma civilFromDays_inj a b :
  DateJS.civilFromDays a = DateJS.civilFromDays b -> a = b.
Proof.
  intros H. pose proof (daysFromCivil_civilFromDays a) as Ha.
  pose proof (daysFromCivil_civilFromDays b) as Hb.
  rewrite H in Ha. destruct (DateJS.civilFromDays b) as [[y m] d]. congruence.
Qed.

(** The three fields of a key, as separated by the dashes. *)
Lemma split_key Y M D :
  JS.allDigits Y = true -> JS.allDigits M = true -> JS.allDigits D = true ->
  JS.split "-" (Y ++ "-" ++ M ++ "-" ++ D) = [Y; M; D].
Proof.
  intros HY HM HD.
  change (Y ++ "-" ++ M ++ "-" ++ D) with (Y ++ String "-" (M ++ String "-" D)).
  rewrite (split_digits_dash Y _ HY), (split_digits_dash M _ HM), (split_digits_end D HD).
  reflexivity.
Qed.

Lemma format_inj a b :
  0 <= DateJS.getFullYear a -> 0 <= DateJS.getFullYear b ->
  DateJS.format_yyyy_MM_dd a = DateJS.format_yyyy_MM_dd b ->
  DateJS.dayNumber a = DateJS.dayNumber b.
Proof.
  intros Ya Yb H. unfold DateJS.format_yyyy_MM_dd in H.
  pose proof (getMonth_bounds a) as Ma. pose proof (getMonth_bounds b) as Mb.
  pose proof (getDate_bounds a) as Da. pose proof (getDate_bounds b) as Db.
  destruct (padded_numeral 4 _ Ya) as (HYa & _ & VYa).
  destruct (padded_numeral 4 _ Yb) as (HYb & _ & VYb).
  destruct (padded_numeral 2 (DateJS.getMonth a + 1) ltac:(lia)) as (HMa & _ & VMa).
  destruct (padded_numeral 2 (DateJS.getMonth b + 1) ltac:(lia)) as (HMb & _ & VMb).
  destruct (padded_numeral 2 (DateJS.getDate a) ltac:(lia)) as (HDa & _ & VDa).
  destruct (padded_numeral 2 (DateJS.getDate b) ltac:(lia)) as (HDb & _ & VDb).
  apply (f_equal (JS.split "-")) in H.
  rewrite (split_key _ _ _ HYa HMa HDa), (split_key _ _ _ HYb HMb HDb) in H.
  injection H as HY HM HD.
  rewrite HY in VYa. rewrite HM in VMa. rewrite HD in VDa.
  apply civilFromDays_inj.
  unfold DateJS.getFullYear, DateJS.getMonth, DateJS.getDate in *.
  destruct (DateJS.civilFromDays (DateJS.dayNumber a)) as [[ya ma] da].
  destruct (DateJS.civilFromDays (DateJS.dayNumber b)) as [[yb mb] db].
  cbn [fst snd] in *. f_equal; [f_equal|]; lia.
Qed.

Lemma getWeekKey_eq_iff a b :
  0 <= DateJS.getFullYear (getWeekStart a) ->
  0 <= DateJS.getFullYear (getWeekStart b) ->
  getWeekKey a = getWeekKey b <-> getWeekStart a = getWeekStart b.
Proof.
  intros Ya Yb. split.
  - intros H. unfold getWeekKey in H. apply (format_inj _ _ Ya Yb) in H.
    destruct (getWeekStart_sunday a) as [_ <-].
    destruct (getWeekStart_sunday b) as [_ <-].
    unfold startOfDay. rewrite H. reflexivity.
  - intros H. unfold getWeekKey. rewrite H. reflexivity.
Qed.





(** *** Date inputs *)

(** [new Date(y, m - 1, d)] on the civil date of a day gives back the
    midnight of that day, two-digit years excepted. *)
Lemma mkDate_of_fields d :
  ~ 0 <= DateJS.getFullYear d <= 99 ->
  DateJS.mkDate (DateJS.getFullYear d) (DateJS.getMonth d) (DateJS.getDate d)
  = startOfDay d.
Proof.
  intros Hy. pose proof (getMonth_bounds d) as Hm.
  pose proof (daysFromCivil_civilFromDays (DateJS.dayNumber d)) as Hrt.
  unfold DateJS.getFullYear, DateJS.getMonth, DateJS.getDate, startOfDay in *.
  destruct (DateJS.civilFromDays (DateJS.dayNumber d)) as [[y m] dd].
  cbn [fst snd] in *. unfold DateJS.mkDate.
  assert (Hyy : (0 <=? y) && (y <=? 99) = false).
  { apply not_true_is_false. intros H. apply andb_true_iff in H.
    destruct H as [H1 H2]. apply Z.leb_le in H1, H2. lia. }
  rewrite Hyy. f_equal. rewrite <- Hrt.
  replace ((m - 1) / 12) with 0 by (symmetry; apply Z.div_small; lia).
  rewrite Z.mod_small by lia.
  replace (m - 1 + 1) with m by lia. rewrite Z.add_0_r.
  unfold DateJS.daysFromCivil. cbv zeta. lia.
Qed.

(** X5.  The value the form shows for a date reads back, through
    [parseDateInput], as the midnight of that date (years 100 and later), so
    that opening and saving the form keeps the day of arrival and its week. *)
Theorem parseDateInput_formatDateForInput :
  forall d,
    100 <= DateJS.getFullYear d ->
    parseDateInput (formatDateForInput d) = Some (startOfDay d)
    /\ getWeekStart (startOfDay d) = getWeekStart d.
Proof.
  intros d Hy. split.
  - pose proof (getMonth_bounds d) as Hm. pose proof (getDate_bounds d) as Hd.
    destruct (toString_numeral (DateJS.getFullYear d) ltac:(lia)) as (HY & NY & VY).
    destruct (padded_numeral 2 (DateJS.getMonth d + 1) ltac:(lia)) as (HM & NM & VM).
    destruct (padded_numeral 2 (DateJS.getDate d) ltac:(lia)) as (HD & ND & VD).
    unfold parseDateInput, formatDateForInput.
    rewrite (split_key _ _ _ HY HM HD). cbn [map].
    assert (Hfield : forall s, JS.allDigits s = true -> s <> "" ->
                               numberOfField s = Some (decimalValue 0 s)).
    { intros s Hs Hne. unfold numberOfField. destruct s; [congruence|].
      rewrite Hs. apply parseInt_allDigits; [exact Hs | exact Hne]. }
    rewrite (Hfield _ HY NY), (Hfield _ HM NM), (Hfield _ HD ND), VY, VM, VD.
    replace (DateJS.getMonth d + 1 - 1) with (DateJS.getMonth d) by lia.
    rewrite mkDate_of_fields by lia. reflexivity.
  - unfold getWeekStart, DateJS.startOfWeek, DateJS.getDay, startOfDay.
    rewrite dayNumber_midnight. reflexivity.
Qed.

Lemma parseDateInput_formatDateForInput_witness :
  100 <= DateJS.getFullYear Sample.today
  /\ parseDateInput (formatDateForInput Sample.today) = Some (startOfDay Sample.today).
Proof.
  assert (H : 100 <= DateJS.getFullYear Sample.today) by (vm_compute; discriminate).
  split; [exact H|]. apply (parseDateInput_formatDateForInput Sample.today H).
Defined.

(** An arrival date earlier than year 100 does not survive the form:
    [new Date] reads a two-digit year as 19xx. *)
Example two_digit_years_move :
  let d := DateJS.daysFromCivil 50 6 1 * DateJS.msPerDay in
  formatDateForInput d = "50-06-01"
  /\ option_map formatDateForInput (parseDateInput (formatDateForInput d))
     = Some "1950-06-01".
Proof. vm_compute. split; reflexivity. Qed.

(* ===================================================================== *)
(** ** Purchase-order numbers ([utils/purchaseOrderUtils.ts]) *)
(* ===================================================================== *)

Lemma startsWith_app p r : JS.startsWith (p ++ r) p = true.
Proof.
  unfold JS.startsWith. apply prefix_correct.
  induction p as [|c p IH]; cbn [String.length append substring].
  - destruct r; reflexivity.
  - rewrite IH. reflexivity.
Qed.

(** The digits of today's prefix. *)
Definition prefixDigits (today : Date) : string :=
  JS.toString (DateJS.getFullYear today)
  ++ JS.padStart0 2 (JS.toString (DateJS.getMonth today + 1))
  ++ JS.padStart0 2 (JS.toString (DateJS.getDate today)).

Lemma prefixDigits_digits today :
  0 <= DateJS.getFullYear today -> JS.allDigits (prefixDigits today) = true.
Proof.
  intros Hy. pose proof (getMonth_bounds today) as Hm.
  pose proof (getDate_bounds today) as Hd.
  destruct (toString_numeral _ Hy) as (HY & _).
  destruct (padded_numeral 2 (DateJS.getMonth today + 1) ltac:(lia)) as (HM & _).
  destruct (padded_numeral 2 (DateJS.getDate today) ltac:(lia)) as (HD & _).
  unfold prefixDigits. rewrite !allDigits_app, HY, HM, HD. reflexivity.
Qed.

Lemma append_assoc a b c : (a ++ b) ++ c = a ++ b ++ c.
Proof. induction a as [|x a IH]; [reflexivity|]. cbn [append]. rewrite IH. reflexivity. Qed.

(** A number made of today's prefix and a sequence part of digits splits
    into [PO], the date and the sequence part. *)
Lemma split_numbered today N :
  0 <= DateJS.getFullYear today -> JS.allDigits N = true ->
  JS.split "-" (datePrefix today ++ "-" ++ N) = ["PO"; prefixDigits today; N].
Proof.
  intros Hy HN.
  change (datePrefix today) with ("PO-" ++ prefixDigits today).
  rewrite append_assoc.
  change ("PO-" ++ prefixDigits today ++ "-" ++ N)
    with (String "P" (String "O" (String "-" (prefixDigits today ++ String "-" N)))).
  cbn [JS.split Ascii.eqb Bool.eqb].
  rewrite (split_digits_dash _ _ (prefixDigits_digits today Hy)), (split_digits_end N HN).
  reflexivity.
Qed.

(** The loop reads from a number of today the sequence it was given. *)
Lemma sequenceOf_numbered today n :
  0 <= DateJS.getFullYear today -> 0 <= n ->
  sequenceOf (datePrefix today ++ "-" ++ JS.padStart0 4 (JS.toString n)) = Some n.
Proof.
  intros Hy Hn. destruct (padded_numeral 4 n Hn) as (HN & NN & VN).
  unfold sequenceOf. rewrite (split_numbered today _ Hy HN). cbn [nth_error].
  assert (Ht : JS.truthy (JS.padStart0 4 (JS.toString n)) = true).
  { unfold JS.truthy. apply negb_true_iff, String.eqb_neq, NN. }
  rewrite Ht. apply parseInt_padded, Hn.
Qed.

Lemma maxSequenceOf_upper l po n :
  In po l -> sequenceOf po = Some n -> n <= maxSequenceOf l.
Proof.
  induction l as [|x l IH]; intros Hin Hs; [contradiction|].
  cbn [maxSequenceOf]. destruct Hin as [-> | Hin].
  - rewrite Hs. lia.
  - specialize (IH Hin Hs). destruct (sequenceOf x); lia.
Qed.

(** The entries of today. *)
Definition todaysNumbers (today : Date) (existing : list string) : list string :=
  filter (fun po => JS.startsWith po (datePrefix today)) existing.

Lemma generate_numbered today existing :
  generatePurchaseOrderNumber today existing
  = datePrefix today ++ "-"
    ++ JS.padStart0 4 (JS.toString (maxSequenceOf (todaysNumbers today existing) + 1)).
Proof. apply generate_closed_form. Qed.





(** *** Reading the date back *)

Lemma substring_0_app a b : substring 0 (String.length a) (a ++ b) = a.
Proof.
  induction a as [|c a IH]; cbn [String.length append substring].
  - destruct b; reflexivity.
  - rewrite IH. reflexivity.
Qed.

Lemma substring_0_self s : substring 0 (String.length s) s = s.
Proof.
  induction s as [|c s IH]; [reflexivity|].
  cbn [String.length substring]. rewrite IH. reflexivity.
Qed.

Lemma length_append a b : String.length (a ++ b) = (String.length a + String.length b)%nat.
Proof.
  induction a as [|c a IH]; [reflexivity|].
  cbn [append String.length]. rewrite IH. reflexivity.
Qed.

Lemma substring_skip_app a b m :
  substring (String.length a) m (a ++ b) = substring 0 m b.
Proof. induction a as [|c a IH]; [reflexivity | exact IH]. Qed.

Lemma digitsOfWidth_length w s : digitsOfWidth w s = true -> String.length s = w.
Proof.
  unfold digitsOfWidth. intros H. apply andb_true_iff in H.
  apply Nat.eqb_eq, H.
Qed.

(** The three fields that [getDateFromPurchaseOrderNumber] cuts out of
    today's date digits. *)
Lemma prefixDigits_fields today :
  1000 <= DateJS.getFullYear today <= 9999 ->
  substring 0 4 (prefixDigits today) = JS.toString (DateJS.getFullYear today)
  /\ substring 4 2 (prefixDigits today)
     = JS.padStart0 2 (JS.toString (DateJS.getMonth today + 1))
  /\ substring 6 2 (prefixDigits today)
     = JS.padStart0 2 (JS.toString (DateJS.getDate today)).
Proof.
  intros Hy. pose proof (getMonth_bounds today) as Hm.
  pose proof (getDate_bounds today) as Hd.
  pose proof (digitsOfWidth_length _ _ (year_numeral _ Hy)) as LY.
  pose proof (digitsOfWidth_length _ _
                (padded2_numeral (DateJS.getMonth today + 1) ltac:(lia))) as LM.
  pose proof (digitsOfWidth_length _ _
                (padded2_numeral (DateJS.getDate today) ltac:(lia))) as LD.
  unfold prefixDigits.
  set (Y := JS.toString (DateJS.getFullYear today)) in *.
  set (M := JS.padStart0 2 (JS.toString (DateJS.getMonth today + 1))) in *.
  set (D := JS.padStart0 2 (JS.toString (DateJS.getDate today))) in *.
  split; [|split].
  - rewrite <- LY. apply substring_0_app.
  - rewrite <- LY at 1. rewrite substring_skip_app. rewrite <- LM. apply substring_0_app.
  - replace 6%nat with (String.length (Y ++ M)) by (rewrite length_append, LY, LM; reflexivity).
    rewrite <- append_assoc, substring_skip_app, <- LD. apply substring_0_self.
Qed.

Lemma generate_valid today existing :
  1000 <= DateJS.getFullYear today <= 9999 ->
  maxSequenceOf (todaysNumbers today existing) < 9999 ->
  isValidPurchaseOrderNumber (generatePurchaseOrderNumber today existing) = true.
Proof.
  intros Hy Hmax. rewrite generate_numbered, datePrefix_parts.
  pose proof (maxSequenceOf_nonneg (todaysNumbers today existing)) as Hnn.
  pose proof (getMonth_bounds today) as Hm. pose proof (getDate_bounds today) as Hd.
  apply valid_of_parts;
    [apply year_numeral, Hy | apply padded2_numeral; lia
     | apply padded2_numeral; lia | apply padded4_numeral; lia].
Qed.

(** X8.  The date of a generated number is the day it was generated:
    [getDateFromPurchaseOrderNumber] gives back the midnight of [today] (four
    digit years, fewer than 9999 numbers issued that day). *)
Theorem date_of_generated_number :
  forall today existing,
    1000 <= DateJS.getFullYear today <= 9999 ->
    maxSequenceOf (todaysNumbers today existing) < 9999 ->
    getDateFromPurchaseOrderNumber (generatePurchaseOrderNumber today existing)
    = Some (startOfDay today).
Proof.
  intros today existing Hy Hmax.
  pose proof (maxSequenceOf_nonneg (todaysNumbers today existing)) as Hnn.
  pose proof (getMonth_bounds today) as Hm. pose proof (getDate_bounds today) as Hd.
  unfold getDateFromPurchaseOrderNumber.
  rewrite (generate_valid today existing Hy Hmax), generate_numbered.
  destruct (padded_numeral 4 (maxSequenceOf (todaysNumbers today existing) + 1)
              ltac:(lia)) as (HN & _).
  assert (Hy0 : 0 <= DateJS.getFullYear today) by lia.
  assert (Hm0 : 0 <= DateJS.getMonth today + 1) by lia.
  assert (Hd0 : 0 <= DateJS.getDate today) by lia.
  rewrite (split_numbered today _ Hy0 HN). cbn [nth_error].
  destruct (prefixDigits_fields today Hy) as (-> & -> & ->).
  rewrite (parseInt_toString _ Hy0), (parseInt_padded 2 _ Hm0), (parseInt_padded 2 _ Hd0).
  replace (DateJS.getMonth today + 1 - 1) with (DateJS.getMonth today) by lia.
  rewrite mkDate_of_fields by lia. reflexivity.
Qed.

Lemma date_of_generated_number_witness :
  1000 <= DateJS.getFullYear Sample.today <= 9999
  /\ maxSequenceOf (todaysNumbers Sample.today ["PO-20250101-0041"]) < 9999
  /\ getDateFromPurchaseOrderNumber
       (generatePurchaseOrderNumber Sample.today ["PO-20250101-0041"])
     = Some (startOfDay Sample.today).
Proof.
  assert (H1 : 1000 <= DateJS.getFullYear Sample.today <= 9999)
    by (vm_compute; split; discriminate).
  assert (H2 : maxSequenceOf (todaysNumbers Sample.today ["PO-20250101-0041"]) < 9999)
    by (vm_compute; reflexivity).
  split; [exact H1|]. split; [exact H2|].
  apply (date_of_generated_number Sample.today _ H1 H2).
Defined.

(** X9.  [getDateFromPurchaseOrderNumber] returns a date exactly for the
    numbers that [isValidPurchaseOrderNumber] accepts, and then the date
    [new Date(yyyy, mm - 1, dd)] of the eight digits, which are not checked to
    be a calendar date. *)
Theorem date_read_iff_valid :
  forall po,
    (isValidPurchaseOrderNumber po = false ->
     getDateFromPurchaseOrderNumber po = None)
    /\ (isValidPurchaseOrderNumber po = true ->
        getDateFromPurchaseOrderNumber po
        = Some (DateJS.mkDate (decimalValue 0 (substring 3 4 po))
                              (decimalValue 0 (substring 7 2 po) - 1)
                              (decimalValue 0 (substring 9 2 po)))).
Proof.
  intros po. split.
  - intros H. unfold getDateFromPurchaseOrderNumber. rewrite H. reflexivity.
  - intros H. unfold getDateFromPurchaseOrderNumber. rewrite H.
    destruct (isValid_shape po H) as (d8 & d4 & -> & H8 & H4 & L8 & _).
    change ("PO-" ++ d8 ++ String "-" d4)
      with (String "P" (String "O" (String "-" (d8 ++ String "-" d4)))).
    cbn [JS.split Ascii.eqb Bool.eqb].
    rewrite (split_digits_dash d8 d4 H8), (split_digits_end d4 H4). cbn [nth_error].
    do 8 (destruct d8 as [|? d8]; [discriminate L8|]). destruct d8; [|discriminate L8].
    cbn [JS.allDigits] in H8.
    repeat match goal with
           | Hx : _ && _ = true |- _ => apply andb_true_iff in Hx; destruct Hx
           end.
    cbn [substring append].
    rewrite !parseInt_allDigits;
      try discriminate;
      try (cbn [JS.allDigits];
           repeat match goal with
                  | Hx : JS.isDigit _ = true |- _ => rewrite Hx; clear Hx
                  end; reflexivity).
Qed.

(** The eight digits need not be a calendar date: 30 February 2025 is read
    as 2 March. *)
Example impossible_date_is_normalised :
  isValidPurchaseOrderNumber "PO-20250230-0001" = true
  /\ getDateFromPurchaseOrderNumber "PO-20250230-0001" = Some (DateJS.mkDate 2025 2 2).
Proof. vm_compute. split; reflexivity. Qed.

(* ===================================================================== *)
(** ** The reducer ([hooks/useAppState.tsx]) *)
(* ===================================================================== *)

(** *** Deleting *)

Lemma find_filter_not id (l : list Shipment.t) :
  find (hasId id) (filter (fun s => negb (hasId id s)) l) = None.
Proof.
  induction l as [|s l IH]; [reflexivity|].
  cbn [filter]. destruct (hasId id s) eqn:E; cbn [negb]; [exact IH|].
  cbn [find]. rewrite E. exact IH.
Qed.


Lemma filter_app_fresh {A : Type} (f : A -> bool) (l extra : list A) :
  (forall a, In a l -> f a = true) ->
  (forall a, In a extra -> f a = false) ->
  filter f (l ++ extra) = l.
Proof.
  intros Hl He. rewrite filter_app, (filter_id f l Hl), (filter_none f extra He).
  apply app_nil_r.
Qed.

Lemma shipmentPurchases_carry_id s p :
  In p (shipmentPurchases s) -> shipmentId_is (Shipment.id s) p = true.
Proof.
  intros Hp. apply In_shipmentPurchases in Hp. destruct Hp as (product & ->).
  rewrite shipmentId_is_derived. apply hasId_eq. reflexivity.
Qed.

(** X11.  Adding a shipment under an id the store does not know and then
    deleting it gives back the store as it was. *)
Theorem add_then_delete_restores_the_store :
  forall now state s,
    findShipment state (Shipment.id s) = None ->
    (forall p, In p (purchases state) -> shipmentId_is (Shipment.id s) p = false) ->
    appReducer now (appReducer now state (ADD_SHIPMENT s))
               (DELETE_SHIPMENT (Shipment.id s))
    = state.
Proof.
  intros now state s Hfresh Hnone. unfold findShipment in Hfresh.
  destruct state as [pr pu sh wq vw].
  cbn [appReducer purchases shipments products weeklyQuotas viewingWeekStart] in *.
  f_equal.
  - apply filter_app_fresh.
    + intros p Hp. unfold shipmentId_isnt. rewrite (Hnone p Hp). reflexivity.
    + intros p Hp. unfold shipmentId_isnt.
      rewrite (shipmentPurchases_carry_id s p Hp). reflexivity.
  - apply filter_app_fresh.
    + intros t Ht. rewrite (find_none _ _ Hfresh t Ht). reflexivity.
    + intros t [<- | []]. apply negb_false_iff, hasId_eq. reflexivity.
Qed.

Lemma add_then_delete_restores_the_store_witness :
  appReducer Sample.today
    (appReducer Sample.today (initialState Sample.today)
       (ADD_SHIPMENT TransitionSample.tuna50))
    (DELETE_SHIPMENT "s1")
  = initialState Sample.today.
Proof.
  apply (add_then_delete_restores_the_store Sample.today (initialState Sample.today)
           TransitionSample.tuna50).
  - reflexivity.
  - intros p [].
Defined.

(** *** Editing *)

Lemma replaceShipment_idem id s l :
  Shipment.id s = id ->
  replaceShipment id s (replaceShipment id s l) = replaceShipment id s l.
Proof.
  intros Hid. unfold replaceShipment. rewrite map_map. apply map_ext. intros x.
  destruct (hasId id x) eqn:E; [|rewrite E; reflexivity].
  destruct (hasId id s); reflexivity.
Qed.

(** X12.  [EDIT_SHIPMENT] is local and idempotent: it leaves alone the
    shipments with another id and the purchases that do not carry the id of
    the edited shipment, and dispatching the same edit a second time changes
    nothing more. *)
Theorem edit_is_local_and_idempotent :
  forall now state s,
    let state' := appReducer now state (EDIT_SHIPMENT s) in
    appReducer now state' (EDIT_SHIPMENT s) = state'
    /\ (forall t, Shipment.id t <> Shipment.id s ->
                  (In t (shipments state') <-> In t (shipments state)))
    /\ (forall p, shipmentId_is (Shipment.id s) p = false ->
                  (In p (purchases state') <-> In p (purchases state)))
    /\ List.length (shipments state') = List.length (shipments state).
Proof.
  intros now state s state'. split; [|split; [|split]].
  - cbn [state' appReducer purchases shipments products weeklyQuotas viewingWeekStart].
    f_equal.
    + f_equal. rewrite filter_app, filter_isnt_idem.
      rewrite (filter_none (shipmentId_isnt (Shipment.id s)) (shipmentPurchases s)).
      * apply app_nil_r.
      * intros p Hp. unfold shipmentId_isnt.
        rewrite (shipmentPurchases_carry_id s p Hp). reflexivity.
    + apply replaceShipment_idem. reflexivity.
  - intros t Hne. cbn [state' appReducer shipments]. unfold replaceShipment.
    rewrite in_map_iff. split.
    + intros (x & Hx & Hin). destruct (hasId (Shipment.id s) x) eqn:E.
      * subst t. congruence.
      * subst x. exact Hin.
    + intros Hin. exists t. split; [|exact Hin].
      destruct (hasId (Shipment.id s) t) eqn:E; [|reflexivity].
      apply hasId_eq in E. contradiction.
  - intros p Hp. cbn [state' appReducer purchases]. rewrite in_app_iff, filter_In.
    unfold shipmentId_isnt. rewrite Hp. split.
    + intros [[Hin _] | Hin]; [exact Hin|].
      rewrite (shipmentPurchases_carry_id s p Hin) in Hp. discriminate.
    + intros Hin. left. split; [exact Hin | reflexivity].
  - cbn [state' appReducer shipments]. apply length_map.
Qed.

(** *** Approving *)



(** *** Quota status as purchases come in *)

(** The four levels in their order of severity. *)
Definition levelRank (l : QuotaLevel) : nat :=
  match l with under => 0 | good => 1 | near_max => 2 | over => 3 end.

Lemma percentage_monotone mx t1 t2 :
  (t1 <= t2)%Q ->
  ((if Qltb 0 mx then t1 / mx * 100 else 0)
   <= (if Qltb 0 mx then t2 / mx * 100 else 0))%Q.
Proof.
  intros H. destruct (Qltb 0 mx) eqn:E; [|apply Qle_refl].
  apply Qltb_lt in E. unfold Qdiv.
  apply Qmult_le_compat_r; [|discriminate].
  apply Qmult_le_compat_r; [exact H|].
  apply Qlt_le_weak, Qinv_lt_0_compat, E.
Qed.

Lemma classify_monotone t1 p1 t2 p2 mn mx :
  (t1 <= t2)%Q -> (p1 <= p2)%Q ->
  (levelRank (classify t1 p1 mn mx) <= levelRank (classify t2 p2 mn mx))%nat.
Proof.
  intros Ht Hp. unfold classify.
  destruct (Qltb mx t2) eqn:O2; [destruct (Qltb mx t1), (Qle_bool 90 p1),
                                   (Qle_bool mn t1); cbn; lia|].
  apply Qltb_nlt in O2.
  destruct (Qltb mx t1) eqn:O1.
  { apply Qltb_lt in O1. exfalso. apply O2. eapply Qlt_le_trans; eassumption. }
  destruct (Qle_bool 90 p2) eqn:N2; [destruct (Qle_bool 90 p1), (Qle_bool mn t1); cbn; lia|].
  apply Qle_bool_nle in N2.
  destruct (Qle_bool 90 p1) eqn:N1.
  { apply Qle_bool_iff in N1. exfalso. apply N2. eapply Qle_trans; eassumption. }
  destruct (Qle_bool mn t2) eqn:G2; [destruct (Qle_bool mn t1); cbn; lia|].
  apply Qle_bool_nle in G2.
  destruct (Qle_bool mn t1) eqn:G1; [|cbn; lia].
  apply Qle_bool_iff in G1. exfalso. apply G2. eapply Qle_trans; eassumption.
Qed.

Lemma sumFrom_nonneg {A : Type} (w : A -> Q) (l : list A) :
  (forall a, In a l -> (0 <= w a)%Q) -> (0 <= sumFrom w 0 l)%Q.
Proof.
  induction l as [|x l IH]; intros H.
  - apply Qle_refl.
  - rewrite sumFrom_cons.
    assert (0 <= w x)%Q by (apply H; left; reflexivity).
    assert (0 <= sumFrom w 0 l)%Q by (apply IH; intros a Ha; apply H; right; exact Ha).
    exact (Qplus_le_compat 0 _ 0 _ H0 H1).
Qed.

Lemma bucketTotal_nonneg productId weekKey l :
  (forall p, In p l -> (0 <= Purchase.totalPounds p)%Q) ->
  (0 <= bucketTotal productId weekKey l)%Q.
Proof.
  intros H. rewrite bucketTotal_sum. apply sumFrom_nonneg.
  intros p Hp. apply filter_In in Hp. apply H, Hp.
Qed.

(** X14.  Committing more never lowers a status: when a shipment whose
    product lines have non-negative pounds is added to the store, the
    committed total of every bucket does not decrease, nor does its percentage,
    and its status stays or moves up along under, good, near-max, over. *)
Theorem adding_a_shipment_never_lowers_status :
  forall now state s productId weekStart q q',
    (forall product, In product (Shipment.products s) ->
                     (0 <= ProductPurchase.totalPounds product)%Q) ->
    getQuotaStatus state productId weekStart = Returns q ->
    getQuotaStatus (appReducer now state (ADD_SHIPMENT s)) productId weekStart
    = Returns q' ->
    (QuotaStatus.currentTotal q <= QuotaStatus.currentTotal q')%Q
    /\ (QuotaStatus.percentage q <= QuotaStatus.percentage q')%Q
    /\ (levelRank (QuotaStatus.status q) <= levelRank (QuotaStatus.status q'))%nat.
Proof.
  intros now state s productId weekStart q q' Hpos Hq Hq'.
  unfold getQuotaStatus in Hq, Hq'. cbn [appReducer products purchases] in Hq'.
  destruct (find _ (products state)) as [product|]; [|discriminate].
  injection Hq as <-. injection Hq' as <-.
  cbn [QuotaStatus.currentTotal QuotaStatus.percentage QuotaStatus.status].
  set (t1 := bucketTotal productId (getWeekKey weekStart) (purchases state)).
  set (t2 := bucketTotal productId (getWeekKey weekStart)
               (purchases state ++ shipmentPurchases s)).
  assert (Ht : (t1 <= t2)%Q).
  { unfold t2. rewrite bucketTotal_app. fold t1.
    apply Qle_trans with (t1 + 0)%Q; [rewrite Qplus_0_r; apply Qle_refl|].
    apply Qplus_le_compat; [apply Qle_refl|].
    apply bucketTotal_nonneg. intros p Hp.
    unfold shipmentPurchases in Hp.
    destruct (Shipment.approvalStatus s); try contradiction;
      apply in_map_iff in Hp; destruct Hp as (product' & <- & Hin);
      apply Hpos, Hin. }
  pose proof (percentage_monotone (Product.maxQuota product) t1 t2 Ht) as Hp.
  split; [exact Ht|]. split; [exact Hp|].
  apply classify_monotone; assumption.
Qed.

Lemma adding_a_shipment_never_lowers_status_witness :
  exists q q',
    getQuotaStatus (initialState Sample.today) "tuna" SubmitSample.arrival = Returns q
    /\ getQuotaStatus PendingSample.state "tuna" SubmitSample.arrival = Returns q'
    /\ (levelRank (QuotaStatus.status q) <= levelRank (QuotaStatus.status q'))%nat.
Proof.
  eexists. eexists. split; [reflexivity|]. split; [reflexivity|].
  refine (proj2 (proj2 (adding_a_shipment_never_lowers_status Sample.today
                          (initialState Sample.today) PendingSample.submitted
                          "tuna" SubmitSample.arrival _ _ _ eq_refl eq_refl))).
  intros product [<- | []]. vm_compute. discriminate.
Defined.

(** *** Sweeping at different times *)

Lemma filter_filter_implied {A : Type} (f g : A -> bool) (l : list A) :
  (forall a, f a = true -> g a = true) ->
  filter f (filter g l) = filter f l.
Proof.
  intros H. induction l as [|x l IH]; [reflexivity|].
  cbn [filter]. destruct (g x) eqn:G.
  - cbn [filter]. rewrite IH. reflexivity.
  - destruct (f x) eqn:F; [rewrite (H x F) in G; discriminate | exact IH].
Qed.

Lemma sweepKeeps_later c1 c2 s :
  c1 <= c2 -> sweepKeeps c2 s = true -> sweepKeeps c1 s = true.
Proof.
  unfold sweepKeeps. intros Hc.
  destruct (Shipment.approvalStatus s); try reflexivity.
  destruct (Shipment.rejectedAt s) as [r|]; [|reflexivity].
  rewrite !Z.ltb_lt. lia.
Qed.

(** X15.  Sweeps compose: after a sweep at [t2], an earlier or later
    sweep at [t1 <= t2] has nothing to add, whichever was run first; the store
    only ever depends on the latest sweep.  In particular a sweep is
    idempotent. *)
Theorem sweeps_compose :
  forall t1 t2 state,
    t1 <= t2 ->
    sweep t2 (sweep t1 state) = sweep t2 state
    /\ sweep t1 (sweep t2 state) = sweep t2 state.
Proof.
  intros t1 t2 state Ht.
  assert (Hc : cutoff t1 <= cutoff t2)
    by (unfold cutoff, DateJS.minusDays; lia).
  unfold sweep, appReducer.
  cbn [products purchases shipments weeklyQuotas viewingWeekStart].
  fold (cutoff t1). fold (cutoff t2). split; f_equal.
  - apply filter_filter_implied. intros s. apply sweepKeeps_later, Hc.
  - rewrite filter_comm. apply filter_filter_implied.
    intros s. apply sweepKeeps_later, Hc.
Qed.

Lemma sweeps_compose_witness :
  sweep (Sample.today + 5) (sweep Sample.today UndatedSample.state)
  = sweep (Sample.today + 5) UndatedSample.state.
Proof.
  apply (sweeps_compose Sample.today (Sample.today + 5) UndatedSample.state). lia.
Defined.

(** *** The countdown on a rejected card ([components/PendingPurchases.tsx]) *)

(** date-fns [differenceInDays(later, earlier)]: the number of full days
    between the two instants, truncated towards zero. *)
Definition differenceInDays (dateLeft dateRight : Date) : Z :=
  Z.quot (dateLeft - dateRight) DateJS.msPerDay.

(** [getDaysSinceRejection(rejectedAt)] at the instant [now]. *)
Definition getDaysSinceRejection (now : Date) (rejectedAt : option Date) : Z :=
  match rejectedAt with
  | None => 0
  | Some r => differenceInDays now r
  end.

(** [daysUntilDeletion] of [renderShipmentCard]. *)
Definition daysUntilDeletion (now : Date) (shipment : Shipment.t) : Z :=
  30 - getDaysSinceRejection now (Shipment.rejectedAt shipment).

(** The card reads "Will be deleted soon" rather than "in n days". *)
Definition announcesDeletionSoon (now : Date) (shipment : Shipment.t) : bool :=
  negb (0 <? daysUntilDeletion now shipment).

(** X16.  The countdown agrees with the sweep: the card of a rejected
    shipment stops counting days and reads "Will be deleted soon" exactly when
    a sweep run at that instant removes the shipment; a rejected shipment
    without [rejectedAt] shows 30 days for ever and is never removed. *)
Theorem countdown_agrees_with_sweep :
  forall now state s,
    In s (shipments state) ->
    Shipment.approvalStatus s = rejected ->
    (announcesDeletionSoon now s = true <-> ~ In s (shipments (sweep now state)))
    /\ (Shipment.rejectedAt s = None ->
        daysUntilDeletion now s = 30 /\ In s (shipments (sweep now state))).
Proof.
  intros now state s Hin Hst.
  assert (Hsweep : In s (shipments (sweep now state)) <-> sweepKeeps (cutoff now) s = true).
  { rewrite sweep_shipments, filter_In. intuition. }
  split.
  - rewrite Hsweep. unfold announcesDeletionSoon, daysUntilDeletion,
      getDaysSinceRejection, sweepKeeps, differenceInDays.
    rewrite Hst, negb_true_iff, Z.ltb_ge.
    destruct (Shipment.rejectedAt s) as [r|].
    + rewrite not_true_iff_false, Z.ltb_ge.
      unfold cutoff, DateJS.minusDays, DateJS.msPerDay.
      Z.quot_rem_to_equations. lia.
    + split; [lia | intros H; exfalso; apply H; reflexivity].
  - intros Hr. unfold daysUntilDeletion, getDaysSinceRejection. rewrite Hr.
    split; [reflexivity|]. apply Hsweep. unfold sweepKeeps. rewrite Hst, Hr. reflexivity.
Qed.

Lemma countdown_agrees_with_sweep_witness :
  announcesDeletionSoon Sample.today SweepSample.exactly30 = true
  <-> ~ In SweepSample.exactly30 (shipments (sweep Sample.today SweepSample.state)).
Proof.
  exact (proj1 (countdown_agrees_with_sweep Sample.today SweepSample.state
                  SweepSample.exactly30 (or_introl eq_refl) eq_refl)).
Defined.

(** *** Moving between weeks *)

Lemma getWeekStart_shift w k :
  getWeekStart w = w ->
  getWeekStart (w + k * (7 * DateJS.msPerDay)) = w + k * (7 * DateJS.msPerDay).
Proof.
  intros Hw. destruct (getWeekStart_sunday w) as [Hs Hm]. rewrite Hw in Hs, Hm.
  unfold startOfDay in Hm. unfold DateJS.getDay in Hs.
  set (j := DateJS.dayNumber w) in *.
  replace (w + k * (7 * DateJS.msPerDay)) with ((j + 7 * k) * DateJS.msPerDay) by lia.
  unfold getWeekStart, DateJS.startOfWeek, DateJS.getDay.
  rewrite dayNumber_midnight. f_equal.
  Z.div_mod_to_equations. lia.
Qed.

(** X17.  [NAVIGATE_WEEK] always leaves the viewed week on a week start;
    from a week start it moves by exactly seven days, so that going forward
    and then back, or back and then forward, returns to the store as it
    was. *)
Theorem navigate_week_moves_seven_days :
  forall now state direction,
    let state' := appReducer now state (NAVIGATE_WEEK direction) in
    getWeekStart (viewingWeekStart state') = viewingWeekStart state'
    /\ (getWeekStart (viewingWeekStart state) = viewingWeekStart state ->
        viewingWeekStart state'
        = viewingWeekStart state
          + (match direction with next => 7 | prev => -7 end) * DateJS.msPerDay
        /\ appReducer now (appReducer now state (NAVIGATE_WEEK next)) (NAVIGATE_WEEK prev)
           = state
        /\ appReducer now (appReducer now state (NAVIGATE_WEEK prev)) (NAVIGATE_WEEK next)
           = state).
Proof.
  intros now state direction state'. split.
  - cbn [state' appReducer viewingWeekStart].
    apply (getWeekStart_is_aligned).
  - intros Hw.
    assert (Hn : getWeekStart (DateJS.minusDays (viewingWeekStart state) (-7))
                 = viewingWeekStart state + 7 * DateJS.msPerDay).
    { unfold DateJS.minusDays.
      replace (viewingWeekStart state - -7 * DateJS.msPerDay)
        with (viewingWeekStart state + 1 * (7 * DateJS.msPerDay)) by lia.
      rewrite (getWeekStart_shift _ 1 Hw). lia. }
    assert (Hp : getWeekStart (DateJS.minusDays (viewingWeekStart state) 7)
                 = viewingWeekStart state - 7 * DateJS.msPerDay).
    { unfold DateJS.minusDays.
      replace (viewingWeekStart state - 7 * DateJS.msPerDay)
        with (viewingWeekStart state + (-1) * (7 * DateJS.msPerDay)) by lia.
      rewrite (getWeekStart_shift _ (-1) Hw). lia. }
    split; [|split].
    + cbn [state' appReducer viewingWeekStart]. destruct direction; [rewrite Hp | rewrite Hn]; lia.
    + destruct state as [pr pu sh wq vw].
      cbn [appReducer products purchases shipments weeklyQuotas viewingWeekStart] in *.
      f_equal. rewrite Hn. unfold DateJS.minusDays.
      replace (vw + 7 * DateJS.msPerDay - 7 * DateJS.msPerDay) with vw by lia. exact Hw.
    + destruct state as [pr pu sh wq vw].
      cbn [appReducer products purchases shipments weeklyQuotas viewingWeekStart] in *.
      f_equal. rewrite Hp. unfold DateJS.minusDays.
      replace (vw - 7 * DateJS.msPerDay - -7 * DateJS.msPerDay) with vw by lia. exact Hw.
Qed.

(** *** Weekly quota records *)

(** The records of the store after [SET_WEEKLY_QUOTA]. *)
Definition setWeeklyQuota (quota : WeeklyQuota.t) (l : list WeeklyQuota.t)
  : list WeeklyQuota.t :=
  if existsb (sameQuotaKey quota) l
  then map (fun q => if sameQuotaKey quota q then quota else q) l
  else (l ++ [quota])%list.

Lemma weeklyQuotas_set now state quota :
  weeklyQuotas (appReducer now state (SET_WEEKLY_QUOTA quota))
  = setWeeklyQuota quota (weeklyQuotas state).
Proof. reflexivity. Qed.

(** The test [findWeeklyQuota] makes for a product and a week. *)
Definition hasQuotaKey (productId : string) (weekStart : Date) (q : WeeklyQuota.t) : bool :=
  (WeeklyQuota.productId q =? productId)%string
  && (WeeklyQuota.weekStartDate q =? weekStart).

Lemma sameQuotaKey_refl quota : sameQuotaKey quota quota = true.
Proof. unfold sameQuotaKey. rewrite String.eqb_refl, Z.eqb_refl. reflexivity. Qed.

Lemma hasQuotaKey_other quota productId weekStart q :
  (productId, weekStart) <> (WeeklyQuota.productId quota, WeeklyQuota.weekStartDate quota) ->
  sameQuotaKey quota q = true -> hasQuotaKey productId weekStart q = false.
Proof.
  unfold sameQuotaKey, hasQuotaKey. intros Hne H.
  apply andb_true_iff in H. destruct H as [Hp Hw].
  apply String.eqb_eq in Hp. apply Z.eqb_eq in Hw.
  apply not_true_is_false. intros H. apply andb_true_iff in H. destruct H as [Hp' Hw'].
  apply String.eqb_eq in Hp'. apply Z.eqb_eq in Hw'. apply Hne. congruence.
Qed.

Lemma find_set_same quota l :
  find (sameQuotaKey quota) (setWeeklyQuota quota l) = Some quota.
Proof.
  unfold setWeeklyQuota. destruct (existsb (sameQuotaKey quota) l) eqn:E.
  - induction l as [|q l IH]; [discriminate|].
    cbn [existsb] in E. cbn [map find].
    destruct (sameQuotaKey quota q) eqn:K.
    + rewrite sameQuotaKey_refl. reflexivity.
    + rewrite K. apply IH. exact E.
  - induction l as [|q l IH]; cbn [app find].
    + rewrite sameQuotaKey_refl. reflexivity.
    + cbn [existsb] in E. apply orb_false_iff in E. destruct E as [K E].
      rewrite K. apply IH, E.
Qed.

Lemma find_set_other quota productId weekStart l :
  (productId, weekStart) <> (WeeklyQuota.productId quota, WeeklyQuota.weekStartDate quota) ->
  find (hasQuotaKey productId weekStart) (setWeeklyQuota quota l)
  = find (hasQuotaKey productId weekStart) l.
Proof.
  intros Hne.
  assert (Hq : hasQuotaKey productId weekStart quota = false)
    by (apply (hasQuotaKey_other quota _ _ quota Hne), sameQuotaKey_refl).
  unfold setWeeklyQuota. destruct (existsb (sameQuotaKey quota) l).
  - induction l as [|q l IH]; [reflexivity|]. cbn [map find].
    destruct (sameQuotaKey quota q) eqn:K.
    + rewrite Hq, (hasQuotaKey_other quota _ _ q Hne K). exact IH.
    + destruct (hasQuotaKey productId weekStart q); [reflexivity | exact IH].
  - induction l as [|q l IH]; cbn [app find].
    + rewrite Hq. reflexivity.
    + destruct (hasQuotaKey productId weekStart q); [reflexivity | exact IH].
Qed.

(** X18.  [SET_WEEKLY_QUOTA] is an insert-or-replace on the (product,
    week) key: afterwards the look-up under the key of the record gives the
    record, look-ups under any other key are as before, the list grows by one
    exactly when the key was new, and dispatching the same record again
    changes nothing. *)
Theorem set_weekly_quota_is_an_upsert :
  forall now state quota,
    let state' := appReducer now state (SET_WEEKLY_QUOTA quota) in
    findWeeklyQuota state' (WeeklyQuota.productId quota) (WeeklyQuota.weekStartDate quota)
    = Some quota
    /\ (forall productId weekStart,
          (productId, weekStart)
          <> (WeeklyQuota.productId quota, WeeklyQuota.weekStartDate quota) ->
          findWeeklyQuota state' productId weekStart
          = findWeeklyQuota state productId weekStart)
    /\ List.length (weeklyQuotas state')
       = (match findWeeklyQuota state (WeeklyQuota.productId quota)
                  (WeeklyQuota.weekStartDate quota) with
          | Some _ => List.length (weeklyQuotas state)
          | None => S (List.length (weeklyQuotas state))
          end)
    /\ appReducer now state' (SET_WEEKLY_QUOTA quota) = state'.
Proof.
  intros now state quota state'. split; [|split; [|split]].
  - unfold findWeeklyQuota. cbn [state' appReducer weeklyQuotas].
    fold (setWeeklyQuota quota (weeklyQuotas state)). apply find_set_same.
  - intros productId weekStart Hne. unfold findWeeklyQuota.
    cbn [state' appReducer weeklyQuotas].
    fold (setWeeklyQuota quota (weeklyQuotas state)).
    apply (find_set_other quota productId weekStart _ Hne).
  - unfold findWeeklyQuota. cbn [state' appReducer weeklyQuotas].
    fold (sameQuotaKey quota).
    induction (weeklyQuotas state) as [|q l IH]; [reflexivity|].
    cbn [existsb find]. destruct (sameQuotaKey quota q) eqn:K.
    + cbn [orb]. apply length_map.
    + cbn [orb]. destruct (existsb (sameQuotaKey quota) l) eqn:E.
      * rewrite length_map in *. destruct (find (sameQuotaKey quota) l); [reflexivity|].
        cbn [List.length] in *. lia.
      * rewrite length_app in *. cbn [List.length] in *.
        destruct (find (sameQuotaKey quota) l); lia.
  - cbn [state' appReducer products purchases shipments weeklyQuotas viewingWeekStart].
    f_equal. fold (setWeeklyQuota quota (weeklyQuotas state)).
    fold (setWeeklyQuota quota (setWeeklyQuota quota (weeklyQuotas state))).
    unfold setWeeklyQuota at 1.
    assert (He : existsb (sameQuotaKey quota) (setWeeklyQuota quota (weeklyQuotas state))
                 = true).
    { apply existsb_exists. exists quota. split; [|apply sameQuotaKey_refl].
      pose proof (find_set_same quota (weeklyQuotas state)) as Hf.
      apply find_some in Hf. apply Hf. }
    rewrite He. rewrite <- (map_id (setWeeklyQuota quota (weeklyQuotas state))) at 2.
    apply map_ext_in. intros q Hq.
    destruct (sameQuotaKey quota q) eqn:K; [|reflexivity].
    unfold setWeeklyQuota in Hq.
    destruct (existsb (sameQuotaKey quota) (weeklyQuotas state)) eqn:E.
    + apply in_map_iff in Hq. destruct Hq as (x & Hx & _).
      destruct (sameQuotaKey quota x) eqn:Kx; [exact Hx|]. subst x. congruence.
    + apply in_app_or in Hq. destruct Hq as [Hq | [<- | []]]; [|reflexivity].
      assert (existsb (sameQuotaKey quota) (weeklyQuotas state) = true)
        by (apply existsb_exists; exists q; split; assumption).
      congruence.
Qed.

(** *** Quota settings ([components/Settings.tsx]) *)

(** [products.map(p => p.id === product.id ? product : p)] *)
Definition updateProduct (product : Product.t) (l : list Product.t) : list Product.t :=
  map (fun p => if (Product.id p =? Product.id product)%string then product else p) l.

Lemma products_update now state product :
  products (appReducer now state (UPDATE_PRODUCT product))
  = updateProduct product (products state).
Proof. reflexivity. Qed.

Inductive QuotaField := MinQuotaField | MaxQuotaField.

(** [{ ...product, [field]: value }] *)
Definition withQuota (product : Product.t) (field : QuotaField) (value : Q) : Product.t :=
  match field with
  | MinQuotaField =>
      Product.mk (Product.id product) (Product.name product) value
                 (Product.maxQuota product)
  | MaxQuotaField =>
      Product.mk (Product.id product) (Product.name product)
                 (Product.minQuota product) value
  end.

(** [handleProductChange] of the settings page, on its local copy of the
    catalogue. *)
Definition settingsProductChange (products : list Product.t) (productId : string)
    (field : QuotaField) (value : Q) : list Product.t :=
  map (fun product =>
         if (Product.id product =? productId)%string
         then withQuota product field value else product)
      products.

(** [handleSave]: one [UPDATE_PRODUCT] for each product of the local copy. *)
Definition settingsSave (now : Date) (state : AppState) (products : list Product.t)
  : AppState :=
  fold_left (fun st product => appReducer now st (UPDATE_PRODUCT product)) products state.

Lemma settingsProductChange_ids l productId field value :
  map Product.id (settingsProductChange l productId field value) = map Product.id l.
Proof.
  unfold settingsProductChange. rewrite map_map. apply map_ext. intros p.
  destruct (Product.id p =? productId)%string; [destruct field|]; reflexivity.
Qed.

Lemma updateProduct_absent product l :
  ~ In (Product.id product) (map Product.id l) -> updateProduct product l = l.
Proof.
  intros H. unfold updateProduct. rewrite <- (map_id l) at 2.
  apply map_ext_in. intros p Hp.
  destruct (Product.id p =? Product.id product)%string eqn:E; [|reflexivity].
  apply String.eqb_eq in E. exfalso. apply H. rewrite <- E. apply in_map, Hp.
Qed.

Lemma settingsSave_products now l : forall state,
  products (settingsSave now state l) = fold_left (fun ps p => updateProduct p ps) l (products state).
Proof.
  induction l as [|p l IH]; intros state; [reflexivity|].
  cbn [settingsSave fold_left]. fold (settingsSave now (appReducer now state (UPDATE_PRODUCT p)) l).
  rewrite IH. reflexivity.
Qed.

(** Saving the products of [todo] one by one, when those before them are
    saved already. *)
Lemma save_in_order todo : forall done old,
  map Product.id old = map Product.id todo ->
  NoDup (map Product.id (done ++ todo)) ->
  fold_left (fun ps p => updateProduct p ps) todo (done ++ old)%list = (done ++ todo)%list.
Proof.
  induction todo as [|p todo IH]; intros done old Hids Hnd.
  - destruct old; [reflexivity | discriminate].
  - destruct old as [|o old]; [discriminate|]. injection Hids as Ho Hids.
    cbn [fold_left].
    rewrite map_app in Hnd. cbn [map] in Hnd.
    pose proof (NoDup_remove_2 _ _ _ Hnd) as Hfresh.
    assert (Hstep : updateProduct p (done ++ o :: old) = (done ++ p :: old)%list).
    { unfold updateProduct. rewrite map_app. cbn [map].
      rewrite Ho, String.eqb_refl. f_equal; [|f_equal].
      - apply (updateProduct_absent p done). intros H. apply Hfresh, in_or_app. left. exact H.
      - apply (updateProduct_absent p old). rewrite Hids. intros H.
        apply Hfresh, in_or_app. right. exact H. }
    rewrite Hstep.
    change (done ++ p :: old)%list with (done ++ [p] ++ old)%list.
    change (done ++ p :: todo)%list with (done ++ [p] ++ todo)%list.
    rewrite !app_assoc. apply IH; [exact Hids|].
    rewrite <- app_assoc. cbn [app]. rewrite map_app. cbn [map]. exact Hnd.
Qed.

(** X19.  [UPDATE_PRODUCT] replaces the product with the given id and
    nothing else: the quota status of that product is afterwards computed with
    the new bounds on the same total, the status of every other product is
    unchanged, and an id that is not in the catalogue changes nothing. *)
Theorem update_product_changes_one_product :
  forall now state product,
    let state' := appReducer now state (UPDATE_PRODUCT product) in
    (findProduct state (Product.id product) <> None ->
     forall weekStart,
       getQuotaStatus state' (Product.id product) weekStart
       = Returns (statusOf product
                    (bucketTotal (Product.id product) (getWeekKey weekStart)
                                 (purchases state))))
    /\ (forall productId weekStart,
          productId <> Product.id product ->
          getQuotaStatus state' productId weekStart
          = getQuotaStatus state productId weekStart)
    /\ (findProduct state (Product.id product) = None -> state' = state)
    /\ map Product.id (products state') = map Product.id (products state).
Proof.
  intros now state product state'.
  assert (Hfind : forall productId,
             findProduct state' productId
             = if (productId =? Product.id product)%string
               then match findProduct state productId with
                    | Some _ => Some product | None => None end
               else findProduct state productId).
  { intros productId. unfold findProduct. cbn [state' appReducer products].
    induction (products state) as [|p l IH]; cbn [map find].
    - destruct (productId =? Product.id product)%string; reflexivity.
    - destruct (Product.id p =? Product.id product)%string eqn:E.
      + apply String.eqb_eq in E.
        destruct (Product.id p =? productId)%string eqn:E2.
        * apply String.eqb_eq in E2.
          assert (Hpp : (Product.id product =? productId)%string = true)
            by (apply String.eqb_eq; congruence).
          rewrite Hpp.
          assert (Hpp' : (productId =? Product.id product)%string = true)
            by (apply String.eqb_eq; congruence).
          rewrite Hpp'. reflexivity.
        * assert (Hpp : (Product.id product =? productId)%string = false)
            by (apply String.eqb_neq; apply String.eqb_neq in E2; congruence).
          rewrite Hpp. exact IH.
      + destruct (Product.id p =? productId)%string eqn:E2; [|exact IH].
        assert (Hpp : (productId =? Product.id product)%string = false).
        { apply String.eqb_neq. apply String.eqb_eq in E2. apply String.eqb_neq in E.
          congruence. }
        rewrite Hpp. reflexivity. }
  split; [|split; [|split]].
  - intros Hsome weekStart.
    rewrite (getQuotaStatus_found state' _ weekStart product); [reflexivity|].
    rewrite Hfind, String.eqb_refl.
    destruct (findProduct state (Product.id product)); [reflexivity | congruence].
  - intros productId weekStart Hne. unfold getQuotaStatus.
    fold (findProduct state' productId). fold (findProduct state productId).
    rewrite Hfind. apply String.eqb_neq in Hne. rewrite Hne. reflexivity.
  - intros Hnone. unfold findProduct in Hnone.
    destruct state as [pr pu sh wq vw].
    cbn [state' appReducer products purchases shipments weeklyQuotas viewingWeekStart] in *.
    f_equal. apply (updateProduct_absent product pr).
    intros Hin. apply in_map_iff in Hin. destruct Hin as (p & Hid & Hp).
    pose proof (find_none _ _ Hnone p Hp) as Hf. cbn in Hf.
    apply String.eqb_neq in Hf. congruence.
  - cbn [state' appReducer products]. rewrite map_map. apply map_ext_in. intros p _.
    destruct (Product.id p =? Product.id product)%string eqn:E; [|reflexivity].
    apply String.eqb_eq in E. congruence.
Qed.

(** X20.  Saving the settings page writes its whole list to the store:
    whatever quota fields were changed on the page, when the ids of the
    catalogue are distinct, the products of the store after [handleSave] are
    the list of the page, and nothing else in the store changes. *)
Theorem settings_save_stores_the_page :
  forall now state page,
    NoDup (map Product.id (products state)) ->
    map Product.id page = map Product.id (products state) ->
    products (settingsSave now state page) = page
    /\ purchases (settingsSave now state page) = purchases state
    /\ shipments (settingsSave now state page) = shipments state
    /\ (forall productId field value,
          map Product.id (settingsProductChange page productId field value)
          = map Product.id (products state)).
Proof.
  intros now state page Hnd Hids. split; [|split; [|split]].
  - rewrite settingsSave_products.
    apply (save_in_order page [] (products state)); [symmetry; exact Hids|].
    cbn [app]. rewrite Hids. exact Hnd.
  - clear. revert state. induction page as [|p l IH]; intros state; [reflexivity|].
    cbn [settingsSave fold_left].
    fold (settingsSave now (appReducer now state (UPDATE_PRODUCT p)) l). rewrite IH.
    reflexivity.
  - clear. revert state. induction page as [|p l IH]; intros state; [reflexivity|].
    cbn [settingsSave fold_left].
    fold (settingsSave now (appReducer now state (UPDATE_PRODUCT p)) l). rewrite IH.
    reflexivity.
  - intros productId field value. rewrite settingsProductChange_ids. exact Hids.
Qed.

Lemma settings_save_stores_the_page_witness :
  let page := settingsProductChange SEAFOOD_PRODUCTS "tuna" MaxQuotaField 750 in
  products (settingsSave Sample.today (initialState Sample.today) page) = page.
Proof.
  refine (proj1 (settings_save_stores_the_page Sample.today (initialState Sample.today)
                   (settingsProductChange SEAFOOD_PRODUCTS "tuna" MaxQuotaField 750)
                   _ eq_refl)).
  cbn. repeat constructor; cbn; intuition discriminate.
Defined.

(* ===================================================================== *)
(** ** What the form lets through ([components/PurchaseForm.tsx]) *)
(* ===================================================================== *)

Lemma In_mapi_from {A B : Type} (f : A -> nat -> B) (l : list A) : forall i b,
  In b (mapi_from i f l) -> exists a j, In a l /\ b = f a j.
Proof.
  induction l as [|x l IH]; intros i b Hb; [contradiction|].
  cbn [mapi_from] in Hb. destruct Hb as [<- | Hb].
  - exists x, i. split; [left; reflexivity | reflexivity].
  - destruct (IH _ _ Hb) as (a & j & Ha & ->). exists a, j. split; [right; exact Ha | reflexivity].
Qed.

Lemma length_mapi_from {A B : Type} (f : A -> nat -> B) (l : list A) : forall i,
  List.length (mapi_from i f l) = List.length l.
Proof.
  induction l as [|x l IH]; intros i; [reflexivity|].
  cbn [mapi_from List.length]. rewrite IH. reflexivity.
Qed.

(** [items.reduce((sum, item) => sum + item.pounds, 0)] on the items of a
    stored product line. *)
Definition storedItemsTotal (product : ProductPurchase.t) : Q :=
  fold_left (fun sum item => (sum + PurchaseItem.pounds item)%Q)
            (ProductPurchase.items product) 0%Q.

Lemma storedItems_mapi shipmentId productIndex (l : list ItemFormData.t) : forall i init,
  fold_left (fun sum item => (sum + PurchaseItem.pounds item)%Q)
            (mapi_from i (formItem shipmentId productIndex) l) init
  = fold_left (fun sum item => (sum + ItemFormData.pounds item)%Q) l init.
Proof.
  induction l as [|x l IH]; intros i init; [reflexivity|].
  cbn [mapi_from fold_left formItem PurchaseItem.pounds]. apply IH.
Qed.

Lemma storedItemsTotal_formProduct shipmentId product productIndex :
  storedItemsTotal (formProduct shipmentId product productIndex) = itemsTotal product.
Proof. apply storedItems_mapi. Qed.

(** What a product line that raises no alert looks like. *)
Definition lineIsComplete (product : ProductFormData.t) : Prop :=
  ProductFormData.productId product <> ""
  /\ (0 < ProductFormData.totalPounds product)%Q
  /\ (Qabs (itemsTotal product - ProductFormData.totalPounds product) <= 1 # 100)%Q
  /\ (ProductFormData.productId product = "other" ->
      exists n, ProductFormData.customProductName product = Some n /\ JS.trim n <> "").

Lemma truthy_iff s : JS.truthy s = true <-> s <> "".
Proof.
  unfold JS.truthy. rewrite negb_true_iff. apply String.eqb_neq.
Qed.

Lemma validateProduct_none i product :
  validateProduct i product = None <-> lineIsComplete product.
Proof.
  unfold validateProduct, lineIsComplete, lacksCustomName.
  destruct (JS.truthy (ProductFormData.productId product)) eqn:Et; cbn [negb orb].
  2:{ split; [discriminate|]. intros (H & _). apply truthy_iff in H. congruence. }
  apply truthy_iff in Et.
  destruct (Qle_bool (ProductFormData.totalPounds product) 0) eqn:Ep.
  { split; [discriminate|]. intros (_ & H & _). apply Qle_bool_iff in Ep.
    exfalso. exact (Qlt_not_le _ _ H Ep). }
  apply Qle_bool_nle in Ep. apply Qnot_le_lt in Ep.
  destruct (ProductFormData.productId product =? "other")%string eqn:Eo; cbn [andb].
  - apply String.eqb_eq in Eo.
    destruct (ProductFormData.customProductName product) as [n|].
    + destruct (JS.truthy (JS.trim n)) eqn:En; cbn [negb].
      * apply truthy_iff in En.
        destruct (Qltb _ _) eqn:Eb.
        -- split; [discriminate|]. intros (_ & _ & H & _). apply Qltb_lt in Eb.
           exfalso. exact (Qlt_not_le _ _ Eb H).
        -- apply Qltb_nlt in Eb. apply Qnot_lt_le in Eb.
           split; [|reflexivity]. intros _. repeat split; try assumption.
           intros _. exists n. split; [reflexivity | exact En].
      * split; [discriminate|]. intros (_ & _ & _ & H).
        destruct (H Eo) as (m & [= <-] & Hm). apply truthy_iff in Hm. congruence.
    + split; [discriminate|]. intros (_ & _ & _ & H).
      destruct (H Eo) as (m & Hm & _). discriminate.
  - apply String.eqb_neq in Eo. destruct (Qltb _ _) eqn:Eb.
    + split; [discriminate|]. intros (_ & _ & H & _). apply Qltb_lt in Eb.
      exfalso. exact (Qlt_not_le _ _ Eb H).
    + apply Qltb_nlt in Eb. apply Qnot_lt_le in Eb.
      split; [|reflexivity]. intros _. repeat split; try assumption.
      intros E. contradiction.
Qed.

Lemma validateProducts_none l : forall i,
  validateProducts i l = None <-> forall product, In product l -> lineIsComplete product.
Proof.
  induction l as [|x l IH]; intros i; cbn [validateProducts].
  - split; [intros _ p [] | reflexivity].
  - destruct (validateProduct i x) eqn:Ev.
    + split; [discriminate|]. intros H.
      pose proof (proj2 (validateProduct_none i x) (H x (or_introl eq_refl))). congruence.
    + rewrite IH. apply validateProduct_none in Ev. split.
      * intros H p [<- | Hp]; [exact Ev | exact (H p Hp)].
      * intros H p Hp. apply H. right. exact Hp.
Qed.

(** The product line stored for a complete form line. *)
Definition storedLineIsComplete (product : ProductPurchase.t) : Prop :=
  ProductPurchase.productId product <> ""
  /\ (0 < ProductPurchase.totalPounds product)%Q
  /\ (Qabs (storedItemsTotal product - ProductPurchase.totalPounds product) <= 1 # 100)%Q
  /\ (ProductPurchase.productId product = "other" ->
      exists n, ProductPurchase.customProductName product = Some n /\ JS.trim n <> "")
  /\ (ProductPurchase.productId product <> "other" ->
      ProductPurchase.customProductName product = None).

Lemma formProduct_complete shipmentId product productIndex :
  lineIsComplete product ->
  storedLineIsComplete (formProduct shipmentId product productIndex).
Proof.
  intros (Hid & Hp & Hb & Ho). unfold storedLineIsComplete.
  rewrite storedItemsTotal_formProduct.
  cbn [formProduct ProductPurchase.productId ProductPurchase.totalPounds
       ProductPurchase.customProductName].
  repeat split; try assumption.
  - intros E. rewrite E. cbn. exact (Ho E).
  - intros E. apply String.eqb_neq in E. rewrite E. reflexivity.
Qed.

Lemma handleSubmit_inversion env state form action :
  handleSubmit env state form = Dispatched action ->
  exists d b,
    JS.truthy (JS.trim (shipper form)) = true
    /\ validateProducts 0 (formProducts form) = None
    /\ parseDateInput (estimatedArrival form) = Some d
    /\ requiresApprovalLoop state (getWeekStart d) (formProducts form) = Returns b
    /\ action = match editingShipment form with
                | Some _ => EDIT_SHIPMENT (builtShipment env state form d b)
                | None => ADD_SHIPMENT (builtShipment env state form d b)
                end.
Proof.
  intros H. unfold handleSubmit in H.
  destruct (JS.truthy (JS.trim (shipper form))) eqn:Es; [|discriminate].
  destruct (JS.truthy (estimatedArrival form)); [|discriminate]. cbn [negb orb] in H.
  destruct (validateProducts 0 (formProducts form)) eqn:Ev; [discriminate|].
  destruct (parseDateInput (estimatedArrival form)) as [d|] eqn:Ed; [|discriminate].
  destruct (requiresApprovalLoop state (getWeekStart d) (formProducts form)) as [b|] eqn:El;
    [|discriminate].
  exists d, b. repeat split; try reflexivity; try assumption.
  unfold builtShipment. destruct b; destruct (editingShipment form);
    injection H as <-; reflexivity.
Qed.



(* ===================================================================== *)
(** ** The stores the application can reach *)
(* ===================================================================== *)

(** The actions the components dispatch, each with what its handler reads:
    [handleSubmit] of the form for a new shipment (whose id, the clock
    reading, is taken to be new to the store) or for a listed shipment under
    edit; on the pending page, approve and reject on the card of a pending
    shipment, undo on the card of a rejected one, delete on any card, and the
    retention sweep; the settings page; the week navigation. *)
Inductive uiAction (now : Date) (state : AppState) : AppAction -> Prop :=
| ui_submit_new (user : option string) (form : FormState) (action : AppAction) :
    editingShipment form = None ->
    findShipment state (JS.toString now) = None ->
    handleSubmit (mkEnv now user) state form = Dispatched action ->
    uiAction now state action
| ui_submit_edit (user : option string) (form : FormState) (e : Shipment.t)
    (action : AppAction) :
    editingShipment form = Some e ->
    In e (shipments state) ->
    handleSubmit (mkEnv now user) state form = Dispatched action ->
    uiAction now state action
| ui_approve (s : Shipment.t) :
    In s (shipments state) -> Shipment.approvalStatus s = pending ->
    uiAction now state (handleApproveShipment now state s)
| ui_reject (s : Shipment.t) :
    In s (shipments state) -> Shipment.approvalStatus s = pending ->
    uiAction now state (handleRejectShipment s)
| ui_unreject (s : Shipment.t) :
    In s (shipments state) -> Shipment.approvalStatus s = rejected ->
    uiAction now state (handleUnrejectShipment (Shipment.id s))
| ui_delete (s : Shipment.t) :
    In s (shipments state) ->
    uiAction now state (confirmDeleteShipment s)
| ui_sweep : uiAction now state DELETE_OLD_REJECTED
| ui_save (product : Product.t) : uiAction now state (UPDATE_PRODUCT product)
| ui_navigate (direction : Direction) : uiAction now state (NAVIGATE_WEEK direction).

(** The stores reached from the empty one, the clock showing a year from 0
    on at each step. *)
Inductive uiReachable : AppState -> Prop :=
| ui_initial (now : Date) : uiReachable (initialState now)
| ui_dispatch (now : Date) (state : AppState) (action : AppAction) :
    uiReachable state ->
    0 <= DateJS.getFullYear now ->
    uiAction now state action ->
    uiReachable (appReducer now state action).

(** The purchases of the index that carry the id of a shipment. *)
Definition indexOf (pu : list Purchase.t) (s : Shipment.t) : list Purchase.t :=
  filter (shipmentId_is (Shipment.id s)) pu.

Definition derivedPurchases (s : Shipment.t) : list Purchase.t :=
  map (derivedPurchase s) (Shipment.products s).

(** What the index holds for a shipment: an approved one is there with the
    purchases derived from its lines, a rejected one is not there, a pending
    one is there in full or not at all. *)
Definition entryOn (pu : list Purchase.t) (s : Shipment.t) : Prop :=
  match Shipment.approvalStatus s with
  | approved => indexOf pu s = derivedPurchases s
  | pending => indexOf pu s = derivedPurchases s \/ indexOf pu s = []
  | rejected => indexOf pu s = []
  end.

(** A shipment has a purchase-order number exactly when it is approved. *)
Definition numbered (s : Shipment.t) : Prop :=
  match Shipment.approvalStatus s, Shipment.purchaseOrderNumber s with
  | approved, Some po => po <> ""
  | approved, None => False
  | _, Some _ => False
  | _, None => True
  end.

Record consistentOn (pu : list Purchase.t) (sh : list Shipment.t) : Prop := mkConsistent
  { ids_distinct : NoDup (map Shipment.id sh);
    ids_nonempty : forall s, In s sh -> Shipment.id s <> "";
    no_orphan : forall p, In p pu ->
                exists s, In s sh /\ Purchase.shipmentId p = Some (Shipment.id s);
    entries : forall s, In s sh -> entryOn pu s;
    numbers : forall s, In s sh -> numbered s;
    numbers_distinct :
      forall s t po, In s sh -> In t sh ->
                     Shipment.purchaseOrderNumber s = Some po ->
                     Shipment.purchaseOrderNumber t = Some po -> s = t }.

Definition consistent (state : AppState) : Prop :=
  consistentOn (purchases state) (shipments state).

(** *** Lists of shipments with distinct ids *)

Lemma same_id_same_shipment sh s t :
  NoDup (map Shipment.id sh) -> In s sh -> In t sh ->
  Shipment.id s = Shipment.id t -> s = t.
Proof.
  induction sh as [|x sh IH]; intros Hnd Hs Ht Hid; [contradiction|].
  cbn [map] in Hnd. inversion Hnd as [|? ? Hx Hnd']; subst.
  destruct Hs as [<- | Hs], Ht as [<- | Ht].
  - reflexivity.
  - exfalso. apply Hx. rewrite Hid. apply in_map, Ht.
  - exfalso. apply Hx. rewrite <- Hid. apply in_map, Hs.
  - apply IH; assumption.
Qed.

Lemma find_listed sh e :
  NoDup (map Shipment.id sh) -> In e sh -> find (hasId (Shipment.id e)) sh = Some e.
Proof.
  intros Hnd He. destruct (find (hasId (Shipment.id e)) sh) as [x|] eqn:Ef.
  - apply find_some in Ef. destruct Ef as [Hx Hid]. apply hasId_eq in Hid.
    f_equal. exact (same_id_same_shipment sh x e Hnd Hx He Hid).
  - pose proof (find_none _ _ Ef e He) as H. unfold hasId in H.
    rewrite String.eqb_refl in H. discriminate.
Qed.

Lemma NoDup_map_filter {A B : Type} (f : A -> B) (g : A -> bool) (l : list A) :
  NoDup (map f l) -> NoDup (map f (filter g l)).
Proof.
  induction l as [|x l IH]; intros Hnd; [constructor|].
  cbn [map] in Hnd. inversion Hnd as [|? ? Hx Hnd']; subst.
  cbn [filter]. destruct (g x); [|exact (IH Hnd')].
  cbn [map]. constructor; [|exact (IH Hnd')].
  intros Hin. apply Hx. apply in_map_iff in Hin. destruct Hin as (y & Hy & Hin).
  apply filter_In in Hin. rewrite <- Hy. apply in_map, Hin.
Qed.

Lemma NoDup_snoc {A : Type} (l : list A) (x : A) :
  NoDup l -> ~ In x l -> NoDup (l ++ [x]).
Proof.
  induction l as [|y l IH]; intros Hnd Hx.
  - cbn. constructor; [intros [] | constructor].
  - inversion Hnd as [|? ? Hy Hnd']; subst. cbn [app]. constructor.
    + intros Hin. apply in_app_or in Hin. destruct Hin as [Hin | [<- | []]].
      * exact (Hy Hin).
      * apply Hx. left. reflexivity.
    + apply IH; [exact Hnd'|]. intros Hin. apply Hx. right. exact Hin.
Qed.

Lemma map_id_replaceShipment id s' sh :
  Shipment.id s' = id ->
  map Shipment.id (replaceShipment id s' sh) = map Shipment.id sh.
Proof.
  intros Hid. unfold replaceShipment. rewrite map_map. apply map_ext. intros x.
  destruct (hasId id x) eqn:E; [|reflexivity]. apply hasId_eq in E. congruence.
Qed.

Lemma In_replaceShipment_new id s' sh e :
  In e sh -> Shipment.id e = id -> In s' (replaceShipment id s' sh).
Proof.
  intros He Hid. unfold replaceShipment. apply in_map_iff. exists e.
  split; [|exact He]. apply hasId_eq in Hid. rewrite Hid. reflexivity.
Qed.

Lemma In_replaceShipment_old id s' sh t :
  In t sh -> Shipment.id t <> id -> In t (replaceShipment id s' sh).
Proof.
  intros Ht Hid. unfold replaceShipment. apply in_map_iff. exists t.
  split; [|exact Ht]. destruct (hasId id t) eqn:E; [|reflexivity].
  apply hasId_eq in E. contradiction.
Qed.

Lemma hasId_false id t : hasId id t = false <-> Shipment.id t <> id.
Proof. unfold hasId. apply String.eqb_neq. Qed.

(** *** The purchases a shipment has in the index *)

Lemma shipmentId_is_two id id' p :
  shipmentId_is id p = true -> id <> id' -> shipmentId_is id' p = false.
Proof.
  unfold shipmentId_is. destruct (Purchase.shipmentId p) as [i|]; [|discriminate].
  intros H Hne. apply String.eqb_eq in H. apply String.eqb_neq. congruence.
Qed.

Lemma shipmentId_is_iff id p :
  shipmentId_is id p = true <-> Purchase.shipmentId p = Some id.
Proof.
  unfold shipmentId_is. destruct (Purchase.shipmentId p) as [i|].
  - rewrite String.eqb_eq. split; congruence.
  - split; discriminate.
Qed.

Lemma indexOf_app pu1 pu2 s : indexOf (pu1 ++ pu2) s = (indexOf pu1 s ++ indexOf pu2 s)%list.
Proof. apply filter_app. Qed.

Lemma indexOf_own s : indexOf (shipmentPurchases s) s = shipmentPurchases s.
Proof. apply filter_id. intros p Hp. exact (shipmentPurchases_carry_id s p Hp). Qed.

Lemma indexOf_foreign s t :
  Shipment.id t <> Shipment.id s -> indexOf (shipmentPurchases s) t = [].
Proof.
  intros Hne. apply filter_none. intros p Hp.
  apply (shipmentId_is_two (Shipment.id s)); [|congruence].
  exact (shipmentPurchases_carry_id s p Hp).
Qed.

Lemma indexOf_without_other id pu t :
  Shipment.id t <> id -> indexOf (filter (shipmentId_isnt id) pu) t = indexOf pu t.
Proof.
  intros Hne. apply filter_filter_implied. intros p Hp.
  unfold shipmentId_isnt. rewrite (shipmentId_is_two _ id p Hp Hne). reflexivity.
Qed.

Lemma indexOf_without_own pu t :
  indexOf (filter (shipmentId_isnt (Shipment.id t)) pu) t = [].
Proof.
  apply filter_none. intros p Hp. apply filter_In in Hp. destruct Hp as [_ Hp].
  unfold shipmentId_isnt in Hp. apply negb_true_iff in Hp. exact Hp.
Qed.

Lemma indexOf_id pu s t : Shipment.id s = Shipment.id t -> indexOf pu s = indexOf pu t.
Proof. unfold indexOf. intros ->. reflexivity. Qed.

Lemma entryOn_ext pu pu' t : indexOf pu' t = indexOf pu t -> entryOn pu t -> entryOn pu' t.
Proof. unfold entryOn. intros ->. exact (fun H => H). Qed.

Lemma shipmentPurchases_counted s :
  Shipment.approvalStatus s <> rejected -> shipmentPurchases s = derivedPurchases s.
Proof.
  unfold shipmentPurchases, derivedPurchases.
  destruct (Shipment.approvalStatus s); [reflexivity | reflexivity | contradiction].
Qed.

Lemma entryOn_counted pu s :
  Shipment.approvalStatus s <> rejected ->
  indexOf pu s = shipmentPurchases s -> entryOn pu s.
Proof.
  intros Hst Hidx. rewrite (shipmentPurchases_counted s Hst) in Hidx. unfold entryOn.
  destruct (Shipment.approvalStatus s); [exact Hidx | left; exact Hidx | contradiction].
Qed.

(** *** The operations of the reducer keep the store consistent *)

Lemma consistent_add pu sh s :
  consistentOn pu sh ->
  (forall t, In t sh -> Shipment.id t <> Shipment.id s) ->
  Shipment.id s <> "" ->
  Shipment.approvalStatus s <> rejected ->
  numbered s ->
  (forall t po, In t sh -> Shipment.purchaseOrderNumber t = Some po ->
                Shipment.purchaseOrderNumber s <> Some po) ->
  consistentOn (pu ++ shipmentPurchases s) (sh ++ [s]).
Proof.
  intros [Hnd Hne Horph Hent Hnum Hdis] Hfresh Hid Hst Hns Hpo. constructor.
  - rewrite map_app. apply NoDup_snoc; [exact Hnd|].
    intros Hin. apply in_map_iff in Hin. destruct Hin as (t & Ht & Hin).
    exact (Hfresh t Hin Ht).
  - intros t Ht. apply in_app_or in Ht. destruct Ht as [Ht | [<- | []]];
      [exact (Hne t Ht) | exact Hid].
  - intros p Hp. apply in_app_or in Hp. destruct Hp as [Hp | Hp].
    + destruct (Horph p Hp) as (t & Ht & Hpt). exists t.
      split; [apply in_or_app; left; exact Ht | exact Hpt].
    + exists s. split; [apply in_or_app; right; left; reflexivity|].
      apply shipmentId_is_iff. exact (shipmentPurchases_carry_id s p Hp).
  - intros t Ht. apply in_app_or in Ht. destruct Ht as [Ht | [<- | []]].
    + apply (entryOn_ext pu); [|exact (Hent t Ht)].
      rewrite indexOf_app, (indexOf_foreign s t (Hfresh t Ht)). apply app_nil_r.
    + apply entryOn_counted; [exact Hst|].
      rewrite indexOf_app, indexOf_own.
      replace (indexOf pu s) with (@nil Purchase.t); [reflexivity|].
      symmetry. apply filter_none. intros p Hp.
      destruct (shipmentId_is (Shipment.id s) p) eqn:E; [|reflexivity].
      destruct (Horph p Hp) as (t & Ht & Hpt). apply shipmentId_is_iff in E.
      exfalso. apply (Hfresh t Ht). congruence.
  - intros t Ht. apply in_app_or in Ht. destruct Ht as [Ht | [<- | []]];
      [exact (Hnum t Ht) | exact Hns].
  - intros a b po Ha Hb Hpa Hpb. apply in_app_or in Ha. apply in_app_or in Hb.
    destruct Ha as [Ha | [<- | []]], Hb as [Hb | [<- | []]].
    + exact (Hdis a b po Ha Hb Hpa Hpb).
    + exfalso. exact (Hpo a po Ha Hpa Hpb).
    + exfalso. exact (Hpo b po Hb Hpb Hpa).
    + reflexivity.
Qed.

Lemma consistent_replace pu sh pu' e s' :
  consistentOn pu sh ->
  In e sh ->
  Shipment.id s' = Shipment.id e ->
  (forall t, In t sh -> Shipment.id t <> Shipment.id e -> indexOf pu' t = indexOf pu t) ->
  (forall p, In p pu' -> In p pu \/ Purchase.shipmentId p = Some (Shipment.id e)) ->
  entryOn pu' s' ->
  numbered s' ->
  (forall t po, In t sh -> Shipment.id t <> Shipment.id e ->
                Shipment.purchaseOrderNumber t = Some po ->
                Shipment.purchaseOrderNumber s' <> Some po) ->
  consistentOn pu' (replaceShipment (Shipment.id e) s' sh).
Proof.
  intros [Hnd Hne Horph Hent Hnum Hdis] He Hid Hidx Hpu Hes Hns Hpo. constructor.
  - rewrite (map_id_replaceShipment _ _ _ Hid). exact Hnd.
  - intros t Ht. apply In_replaceShipment in Ht. destruct Ht as [-> | [Ht _]].
    + rewrite Hid. exact (Hne e He).
    + exact (Hne t Ht).
  - intros p Hp.
    assert (Hown : Purchase.shipmentId p = Some (Shipment.id e) ->
                   exists s, In s (replaceShipment (Shipment.id e) s' sh)
                             /\ Purchase.shipmentId p = Some (Shipment.id s)).
    { intros Hpe. exists s'.
      split; [exact (In_replaceShipment_new _ s' sh e He eq_refl) | congruence]. }
    destruct (Hpu p Hp) as [Hold | Hpe]; [|exact (Hown Hpe)].
    destruct (Horph p Hold) as (t & Ht & Hpt).
    destruct (string_dec (Shipment.id t) (Shipment.id e)) as [E | E].
    + apply Hown. congruence.
    + exists t. split; [exact (In_replaceShipment_old _ s' sh t Ht E) | exact Hpt].
  - intros t Ht. apply In_replaceShipment in Ht. destruct Ht as [-> | [Ht Hf]].
    + exact Hes.
    + apply hasId_false in Hf.
      exact (entryOn_ext pu pu' t (Hidx t Ht Hf) (Hent t Ht)).
  - intros t Ht. apply In_replaceShipment in Ht. destruct Ht as [-> | [Ht _]].
    + exact Hns.
    + exact (Hnum t Ht).
  - intros a b po Ha Hb Hpa Hpb.
    apply In_replaceShipment in Ha. apply In_replaceShipment in Hb.
    destruct Ha as [-> | [Ha Hfa]], Hb as [-> | [Hb Hfb]].
    + reflexivity.
    + apply hasId_false in Hfb. exfalso. exact (Hpo b po Hb Hfb Hpb Hpa).
    + apply hasId_false in Hfa. exfalso. exact (Hpo a po Ha Hfa Hpa Hpb).
    + exact (Hdis a b po Ha Hb Hpa Hpb).
Qed.

Lemma consistent_filter pu sh pu' keep :
  consistentOn pu sh ->
  (forall t, In t sh -> keep t = true -> indexOf pu' t = indexOf pu t) ->
  (forall p, In p pu' -> In p pu) ->
  (forall p s, In p pu' -> In s sh -> Purchase.shipmentId p = Some (Shipment.id s) ->
               keep s = true) ->
  consistentOn pu' (filter keep sh).
Proof.
  intros [Hnd Hne Horph Hent Hnum Hdis] Hidx Hpu Hkeep. constructor.
  - apply NoDup_map_filter, Hnd.
  - intros t Ht. apply filter_In in Ht. exact (Hne t (proj1 Ht)).
  - intros p Hp. destruct (Horph p (Hpu p Hp)) as (t & Ht & Hpt). exists t.
    split; [|exact Hpt]. apply filter_In. split; [exact Ht|].
    exact (Hkeep p t Hp Ht Hpt).
  - intros t Ht. apply filter_In in Ht. destruct Ht as [Ht Hk].
    exact (entryOn_ext pu pu' t (Hidx t Ht Hk) (Hent t Ht)).
  - intros t Ht. apply filter_In in Ht. exact (Hnum t (proj1 Ht)).
  - intros a b po Ha Hb. apply filter_In in Ha. apply filter_In in Hb.
    exact (Hdis a b po (proj1 Ha) (proj1 Hb)).
Qed.

(** [EDIT_SHIPMENT] of a listed shipment. *)
Lemma consistent_edit pu sh e s' :
  consistentOn pu sh ->
  In e sh ->
  Shipment.id s' = Shipment.id e ->
  Shipment.approvalStatus s' <> rejected ->
  numbered s' ->
  (forall t po, In t sh -> Shipment.purchaseOrderNumber t = Some po ->
                Shipment.purchaseOrderNumber s' <> Some po) ->
  consistentOn (filter (shipmentId_isnt (Shipment.id s')) pu ++ shipmentPurchases s')
               (replaceShipment (Shipment.id s') s' sh).
Proof.
  intros Hc He Hid Hst Hns Hpo. rewrite Hid.
  apply (consistent_replace pu sh _ e s' Hc He Hid).
  - intros t Ht Hne. rewrite indexOf_app, (indexOf_without_other _ pu t Hne).
    rewrite (indexOf_foreign s' t); [apply app_nil_r | congruence].
  - intros p Hp. apply in_app_or in Hp. destruct Hp as [Hp | Hp].
    + left. apply filter_In in Hp. exact (proj1 Hp).
    + right. rewrite <- Hid. apply shipmentId_is_iff.
      exact (shipmentPurchases_carry_id s' p Hp).
  - apply entryOn_counted; [exact Hst|].
    rewrite indexOf_app, indexOf_own, <- Hid, indexOf_without_own. reflexivity.
  - exact Hns.
  - intros t po Ht _. exact (Hpo t po Ht).
Qed.

(** *** The numbers in the store and a number generated from it *)

Lemma generate_not_listed today existing :
  0 <= DateJS.getFullYear today ->
  ~ In (generatePurchaseOrderNumber today existing) existing.
Proof.
  intros Hy Hin.
  pose proof (maxSequenceOf_nonneg (todaysNumbers today existing)) as Hnn.
  assert (Hseq : sequenceOf (generatePurchaseOrderNumber today existing)
                 = Some (maxSequenceOf (todaysNumbers today existing) + 1)).
  { rewrite generate_numbered. apply sequenceOf_numbered; [exact Hy | lia]. }
  assert (Htoday : In (generatePurchaseOrderNumber today existing)
                      (todaysNumbers today existing)).
  { apply filter_In. split; [exact Hin|].
    rewrite generate_numbered. apply startsWith_app. }
  pose proof (maxSequenceOf_upper _ _ _ Htoday Hseq). lia.
Qed.

Lemma generate_nonempty today existing : generatePurchaseOrderNumber today existing <> "".
Proof.
  rewrite generate_numbered. change (datePrefix today) with ("PO-" ++ prefixDigits today).
  cbn [append]. discriminate.
Qed.

Lemma numbered_is_existing state t po :
  In t (shipments state) -> numbered t ->
  Shipment.purchaseOrderNumber t = Some po ->
  In po (existingPONumbers state).
Proof.
  intros Ht Hn Hpo. unfold existingPONumbers. apply in_map_iff. exists t.
  rewrite Hpo. split; [reflexivity|]. apply filter_In. split; [exact Ht|].
  unfold numbered in Hn. unfold approvedWithPO. rewrite Hpo in *.
  destruct (Shipment.approvalStatus t); try contradiction. apply truthy_iff, Hn.
Qed.

Lemma generated_is_unused today state t po :
  consistent state -> 0 <= DateJS.getFullYear today ->
  In t (shipments state) ->
  Shipment.purchaseOrderNumber t = Some po ->
  Some (generatePurchaseOrderNumber today (existingPONumbers state)) <> Some po.
Proof.
  intros Hc Hy Ht Hpo [= E].
  apply (generate_not_listed today (existingPONumbers state) Hy). rewrite E.
  exact (numbered_is_existing state t po Ht (numbers _ _ Hc t Ht) Hpo).
Qed.

Lemma toString_nonempty n : JS.toString n <> "".
Proof.
  destruct n as [|p|p]; [discriminate | | discriminate].
  exact (proj1 (proj2 (toString_numeral (Z.pos p) ltac:(lia)))).
Qed.

Lemma builtShipment_numbered env state form d b :
  numbered (builtShipment env state form d b).
Proof.
  unfold numbered. destruct b; cbn [builtShipment Shipment.approvalStatus
                                    Shipment.purchaseOrderNumber];
    [exact I | apply generate_nonempty].
Qed.

Lemma builtShipment_counted env state form d b :
  Shipment.approvalStatus (builtShipment env state form d b) <> rejected.
Proof. destruct b; discriminate. Qed.

Lemma builtShipment_number env state form d b po :
  Shipment.purchaseOrderNumber (builtShipment env state form d b) = Some po ->
  Some (generatePurchaseOrderNumber (now env) (existingPONumbers state)) = Some po.
Proof. destruct b; [discriminate | exact (fun H => H)]. Qed.

(** *** One step *)

Lemma consistent_step now state action :
  consistent state ->
  0 <= DateJS.getFullYear now ->
  uiAction now state action ->
  consistent (appReducer now state action).
Proof.
  intros Hc Hy Hact. unfold consistent in *.
  destruct Hact as [user form action Hnew Hfresh Hsub
                   | user form e action Hedit He Hsub
                   | s Hs Hst | s Hs Hst | s Hs Hst | s Hs | | product | direction].
  - (* a new shipment *)
    destruct (handleSubmit_inversion _ _ _ _ Hsub) as (d & b & _ & _ & _ & _ & ->).
    rewrite Hnew. cbn [appReducer purchases shipments].
    set (s := builtShipment _ state form d b).
    assert (Hid : Shipment.id s = JS.toString now)
      by (unfold s, builtShipment; rewrite Hnew; reflexivity).
    apply consistent_add.
    + exact Hc.
    + intros t Ht. rewrite Hid. apply hasId_false.
      exact (find_none _ _ Hfresh t Ht).
    + rewrite Hid. apply toString_nonempty.
    + apply builtShipment_counted.
    + apply builtShipment_numbered.
    + intros t po Ht Hpo Hs. apply builtShipment_number in Hs.
      exact (generated_is_unused now state t po Hc Hy Ht Hpo Hs).
  - (* a listed shipment under edit *)
    destruct (handleSubmit_inversion _ _ _ _ Hsub) as (d & b & _ & _ & _ & _ & ->).
    rewrite Hedit. cbn [appReducer purchases shipments].
    set (s := builtShipment _ state form d b).
    assert (Hid : Shipment.id s = Shipment.id e).
    { unfold s, builtShipment. rewrite Hedit. cbn [Shipment.id shipmentIdOf].
      pose proof (proj2 (truthy_iff _) (ids_nonempty _ _ Hc e He)) as Ht.
      rewrite Ht. reflexivity. }
    apply (consistent_edit _ _ e s Hc He Hid).
    + apply builtShipment_counted.
    + apply builtShipment_numbered.
    + intros t po Ht Hpo Hs. apply builtShipment_number in Hs.
      exact (generated_is_unused now state t po Hc Hy Ht Hpo Hs).
  - (* approve *)
    cbn [handleApproveShipment appReducer purchases shipments].
    set (a := Shipment.withStatusPO s approved _).
    apply (consistent_edit _ _ s a Hc Hs eq_refl).
    + discriminate.
    + apply generate_nonempty.
    + intros t po Ht Hpo Ha.
      exact (generated_is_unused now state t po Hc Hy Ht Hpo Ha).
  - (* reject *)
    unfold handleRejectShipment. cbn [appReducer].
    rewrite (find_listed _ s (ids_distinct _ _ Hc) Hs). cbn [purchases shipments].
    assert (Hno : Shipment.purchaseOrderNumber s = None).
    { pose proof (numbers _ _ Hc s Hs) as Hn. unfold numbered in Hn. rewrite Hst in Hn.
      destruct (Shipment.purchaseOrderNumber s); [contradiction | reflexivity]. }
    apply (consistent_replace _ _ _ s
             (Shipment.withStatusRejectedAt s rejected (Some now)) Hc Hs eq_refl).
    + intros t Ht Hne. apply indexOf_without_other, Hne.
    + intros p Hp. left. apply filter_In in Hp. exact (proj1 Hp).
    + unfold entryOn. cbn [Shipment.withStatusRejectedAt Shipment.approvalStatus].
      rewrite <- (indexOf_without_own (purchases state) s). reflexivity.
    + unfold numbered. cbn [Shipment.withStatusRejectedAt Shipment.approvalStatus
                            Shipment.purchaseOrderNumber]. rewrite Hno. exact I.
    + intros t po _ _ _. cbn [Shipment.withStatusRejectedAt Shipment.purchaseOrderNumber].
      rewrite Hno. discriminate.
  - (* undo a rejection *)
    unfold handleUnrejectShipment. cbn [appReducer].
    rewrite (find_listed _ s (ids_distinct _ _ Hc) Hs), Hst. cbn [purchases shipments].
    assert (Hno : Shipment.purchaseOrderNumber s = None).
    { pose proof (numbers _ _ Hc s Hs) as Hn. unfold numbered in Hn. rewrite Hst in Hn.
      destruct (Shipment.purchaseOrderNumber s); [contradiction | reflexivity]. }
    apply (consistent_replace _ _ _ s
             (Shipment.withStatusRejectedAt s pending None) Hc Hs eq_refl).
    + reflexivity.
    + intros p Hp. left. exact Hp.
    + pose proof (entries _ _ Hc s Hs) as Hent. unfold entryOn in *. rewrite Hst in Hent.
      cbn [Shipment.withStatusRejectedAt Shipment.approvalStatus]. right. exact Hent.
    + unfold numbered. cbn [Shipment.withStatusRejectedAt Shipment.approvalStatus
                            Shipment.purchaseOrderNumber]. rewrite Hno. exact I.
    + intros t po _ _ _. cbn [Shipment.withStatusRejectedAt Shipment.purchaseOrderNumber].
      rewrite Hno. discriminate.
  - (* delete *)
    unfold confirmDeleteShipment. cbn [appReducer purchases shipments].
    apply (consistent_filter _ _ _ _ Hc).
    + intros t _ Hk. apply negb_true_iff, hasId_false in Hk.
      apply indexOf_without_other, Hk.
    + intros p Hp. apply filter_In in Hp. exact (proj1 Hp).
    + intros p t Hp _ Hpt. apply filter_In in Hp. destruct Hp as [_ Hp].
      unfold shipmentId_isnt, shipmentId_is in Hp. rewrite Hpt in Hp.
      unfold hasId. exact Hp.
  - (* the retention sweep *)
    cbn [appReducer purchases shipments].
    apply (consistent_filter _ _ _ _ Hc).
    + reflexivity.
    + exact (fun p Hp => Hp).
    + intros p t Hp Ht Hpt. unfold sweepKeeps.
      destruct (Shipment.approvalStatus t) eqn:Est; try reflexivity.
      pose proof (entries _ _ Hc t Ht) as Hent. unfold entryOn in Hent.
      rewrite Est in Hent.
      assert (Hin : In p (indexOf (purchases state) t))
        by (apply filter_In; split; [exact Hp | apply shipmentId_is_iff, Hpt]).
      rewrite Hent in Hin. contradiction.
  - exact Hc.
  - exact Hc.
Qed.

Lemma consistent_initial now : consistent (initialState now).
Proof.
  constructor; cbn; try (intros; contradiction). constructor.
Qed.

Lemma uiReachable_consistent state : uiReachable state -> consistent state.
Proof.
  induction 1 as [now | now state action _ IH Hy Hact].
  - apply consistent_initial.
  - exact (consistent_step now state action IH Hy Hact).
Qed.

(** *** Totals over the listed shipments *)

Lemma sumFrom_ext_in {A : Type} (f g : A -> Q) (l : list A) :
  (forall a, In a l -> (f a == g a)%Q) -> (sumFrom f 0 l == sumFrom g 0 l)%Q.
Proof.
  induction l as [|x l IH]; intros H; [reflexivity|].
  rewrite !sumFrom_cons, (H x (or_introl eq_refl)), IH; [reflexivity|].
  intros a Ha. apply H. right. exact Ha.
Qed.

(** The purchase carries the id of none of the shipments. *)
Definition foreignTo (sh : list Shipment.t) (p : Purchase.t) : bool :=
  forallb (fun s => shipmentId_isnt (Shipment.id s) p) sh.

Lemma filter_filter_and {A : Type} (f g : A -> bool) (l : list A) :
  filter f (filter g l) = filter (fun a => g a && f a) l.
Proof.
  induction l as [|x l IH]; [reflexivity|]. cbn [filter].
  destruct (g x); cbn [andb filter]; [destruct (f x)|]; rewrite IH; reflexivity.
Qed.

Lemma bucketTotal_by_shipment productId weekKey sh :
  NoDup (map Shipment.id sh) ->
  forall pu,
    (bucketTotal productId weekKey pu
     == sumFrom (fun s => indexedWeight (Shipment.id s) productId weekKey pu) 0 sh
        + bucketTotal productId weekKey (filter (foreignTo sh) pu))%Q.
Proof.
  induction sh as [|x sh IH]; intros Hnd pu.
  - rewrite (filter_id (foreignTo []) pu) by reflexivity.
    unfold sumFrom. cbn [fold_left]. ring.
  - cbn [map] in Hnd. inversion Hnd as [|? ? Hx Hnd']; subst.
    pose proof (bucketTotal_split (Shipment.id x) productId weekKey pu) as H1.
    pose proof (IH Hnd' (filter (shipmentId_isnt (Shipment.id x)) pu)) as H2.
    assert (H3 : (sumFrom (fun s => indexedWeight (Shipment.id s) productId weekKey
                             (filter (shipmentId_isnt (Shipment.id x)) pu)) 0 sh
                  == sumFrom (fun s => indexedWeight (Shipment.id s) productId weekKey pu)
                       0 sh)%Q).
    { apply sumFrom_ext_in. intros t Ht. unfold indexedWeight.
      fold (indexOf (filter (shipmentId_isnt (Shipment.id x)) pu) t). fold (indexOf pu t).
      rewrite indexOf_without_other; [reflexivity|].
      intros E. apply Hx. rewrite <- E. apply in_map, Ht. }
    rewrite filter_filter_and in H2.
    rewrite H1, H2, H3, sumFrom_cons. unfold foreignTo. cbn [forallb]. ring.
Qed.

Lemma bucketTotal_of_listed productId weekKey pu sh :
  consistentOn pu sh ->
  (bucketTotal productId weekKey pu
   == sumFrom (fun s => indexedWeight (Shipment.id s) productId weekKey pu) 0 sh)%Q.
Proof.
  intros Hc.
  rewrite (bucketTotal_by_shipment productId weekKey sh (ids_distinct _ _ Hc) pu).
  rewrite (filter_none (foreignTo sh) pu).
  - rewrite bucketTotal_nil. ring.
  - intros p Hp. destruct (no_orphan _ _ Hc p Hp) as (s & Hs & Hps).
    unfold foreignTo. apply not_true_is_false. intros Hall.
    rewrite forallb_forall in Hall. specialize (Hall s Hs).
    unfold shipmentId_isnt in Hall. apply negb_true_iff in Hall.
    apply shipmentId_is_iff in Hps. congruence.
Qed.

Lemma indexedWeight_of_entry pu s productId weekKey :
  indexOf pu s = derivedPurchases s ->
  indexedWeight (Shipment.id s) productId weekKey pu = shipmentWeight s productId weekKey.
Proof.
  intros H. unfold indexedWeight, shipmentWeight. fold (indexOf pu s). rewrite H. reflexivity.
Qed.

Lemma indexedWeight_of_none pu s productId weekKey :
  indexOf pu s = [] -> indexedWeight (Shipment.id s) productId weekKey pu = 0%Q.
Proof.
  intros H. unfold indexedWeight. fold (indexOf pu s). rewrite H. reflexivity.
Qed.


(** The store after the submission of [PendingSample.form] to the empty
    store, and after the approval of the shipment it created. *)
Module ReachableSample.
Definition approval : AppAction :=
  handleApproveShipment Sample.today PendingSample.state PendingSample.submitted.
Definition state : AppState := appReducer Sample.today PendingSample.state approval.
End ReachableSample.

Lemma pendingSample_reachable : uiReachable PendingSample.state.
Proof.
  apply (ui_dispatch Sample.today (initialState Sample.today)
           (ADD_SHIPMENT PendingSample.submitted) (ui_initial Sample.today)).
  - vm_compute. discriminate.
  - apply (ui_submit_new Sample.today (initialState Sample.today) (Some "u1")
             PendingSample.form (ADD_SHIPMENT PendingSample.submitted)).
    + reflexivity.
    + reflexivity.
    + vm_compute. reflexivity.
Qed.

Lemma reachableSample_reachable : uiReachable ReachableSample.state.
Proof.
  apply (ui_dispatch Sample.today PendingSample.state ReachableSample.approval
           pendingSample_reachable).
  - vm_compute. discriminate.
  - apply (ui_approve Sample.today PendingSample.state PendingSample.submitted).
    + left. reflexivity.
    + reflexivity.
Qed.


Lemma NoDup_of_map {A B : Type} (f : A -> B) (l : list A) :
  NoDup (map f l) -> NoDup l.
Proof.
  induction l as [|x l IH]; intros H; [constructor|].
  cbn [map] in H. inversion H as [|? ? Hx Hnd]; subst.
  constructor; [|exact (IH Hnd)]. intros Hin. apply Hx, in_map, Hin.
Qed.

Lemma NoDup_map_in {A B : Type} (f : A -> B) (l : list A) :
  NoDup l -> (forall a b, In a l -> In b l -> f a = f b -> a = b) -> NoDup (map f l).
Proof.
  induction l as [|x l IH]; intros Hnd Hinj; [constructor|].
  inversion Hnd as [|? ? Hx Hnd']; subst. cbn [map]. constructor.
  - intros Hin. apply in_map_iff in Hin. destruct Hin as (y & Hy & Hin).
    apply Hx. rewrite (Hinj x y (or_introl eq_refl) (or_intror Hin) (eq_sym Hy)).
    exact Hin.
  - apply IH; [exact Hnd'|]. intros a b Ha Hb. apply Hinj; right; assumption.
Qed.

Lemma filter_NoDup {A : Type} (f : A -> bool) (l : list A) :
  NoDup l -> NoDup (filter f l).
Proof.
  induction l as [|x l IH]; intros H; [constructor|].
  inversion H as [|? ? Hx Hnd]; subst. cbn [filter].
  destruct (f x); [|exact (IH Hnd)].
  constructor; [|exact (IH Hnd)]. intros Hin. apply filter_In in Hin. exact (Hx (proj1 Hin)).
Qed.

(** X23.  In every store the application reaches from the empty one, a
    shipment has a purchase-order number exactly when it is approved, the
    number is not empty, no two listed shipments have the same number, and the
    list of numbers handed to the generator has no duplicate. *)
Theorem numbers_go_with_approval :
  forall state,
    uiReachable state ->
    (forall s, In s (shipments state) ->
               (Shipment.approvalStatus s = approved
                <-> Shipment.purchaseOrderNumber s <> None)
               /\ Shipment.purchaseOrderNumber s <> Some "")
    /\ (forall s t po, In s (shipments state) -> In t (shipments state) ->
                       Shipment.purchaseOrderNumber s = Some po ->
                       Shipment.purchaseOrderNumber t = Some po -> s = t)
    /\ NoDup (existingPONumbers state).
Proof.
  intros state Hr.
  pose proof (uiReachable_consistent state Hr) as Hc. unfold consistent in Hc.
  split; [|split].
  - intros s Hs. pose proof (numbers _ _ Hc s Hs) as Hn. unfold numbered in Hn.
    destruct (Shipment.approvalStatus s), (Shipment.purchaseOrderNumber s) as [po|];
      try contradiction; (split; [split; congruence | congruence]).
  - exact (numbers_distinct _ _ Hc).
  - unfold existingPONumbers. apply NoDup_map_in.
    + apply filter_NoDup, (NoDup_of_map Shipment.id), (ids_distinct _ _ Hc).
    + intros a b Ha Hb E. apply filter_In in Ha. apply filter_In in Hb.
      destruct Ha as [Ha Hpa], Hb as [Hb Hpb]. unfold approvedWithPO in Hpa, Hpb.
      destruct (Shipment.purchaseOrderNumber a) as [pa|] eqn:Ea;
        [|destruct (Shipment.approvalStatus a); discriminate].
      destruct (Shipment.purchaseOrderNumber b) as [pb|] eqn:Eb;
        [|destruct (Shipment.approvalStatus b); discriminate].
      subst pb. exact (numbers_distinct _ _ Hc a b pa Ha Hb Ea Eb).
Qed.

Lemma numbers_go_with_approval_witness :
  uiReachable ReachableSample.state
  /\ NoDup (existingPONumbers ReachableSample.state).
Proof.
  split; [exact reachableSample_reachable|].
  exact (proj2 (proj2 (numbers_go_with_approval ReachableSample.state
                         reachableSample_reachable))).
Defined.

(* ===================================================================== *)
(** ** Starting from saved data ([initializeState] of [hooks/useAppState.tsx]) *)
(* ===================================================================== *)

(** A shipment as it is found in saved data: the approval fields may be
    missing, in data saved before approvals existed. *)
Module SavedShipment.
Record t := mk
  { id : string; shipper : string; estimatedArrival : Date; purchaseDate : Date;
    weekStartDate : Date; products : list ProductPurchase.t; createdAt : Date;
    approvalStatus : option ApprovalStatus;
    purchaseOrderNumber : option string;
    rejectedAt : option Date;
    purchaserId : option string }.
End SavedShipment.

(** What [loadAppState] returns when it returns a state: the four lists are
    arrays and [viewingWeekStart] is a valid date. *)
Record SavedState := mkSaved
  { savedProducts : list Product.t;
    savedPurchases : list Purchase.t;
    savedShipments : list SavedShipment.t;
    savedWeeklyQuotas : list WeeklyQuota.t;
    savedViewingWeekStart : Date }.

(** [savedState.products?.find(p => p.id === defaultProduct.id) || defaultProduct] *)
Definition mergeProduct (saved : list Product.t) (defaultProduct : Product.t) : Product.t :=
  match find (fun p => (Product.id p =? Product.id defaultProduct)%string) saved with
  | Some savedProduct => savedProduct
  | None => defaultProduct
  end.

(** [{ ...shipment, approvalStatus: shipment.approvalStatus || 'approved',
       purchaseOrderNumber: shipment.purchaseOrderNumber || undefined }] *)
Definition migrateShipment (shipment : SavedShipment.t) : Shipment.t :=
  Shipment.mk (SavedShipment.id shipment) (SavedShipment.shipper shipment)
    (SavedShipment.estimatedArrival shipment) (SavedShipment.purchaseDate shipment)
    (SavedShipment.weekStartDate shipment) (SavedShipment.products shipment)
    (SavedShipment.createdAt shipment)
    (match SavedShipment.approvalStatus shipment with
     | Some status => status
     | None => approved
     end)
    (match SavedShipment.purchaseOrderNumber shipment with
     | Some po => if JS.truthy po then Some po else None
     | None => None
     end)
    (SavedShipment.rejectedAt shipment)
    (SavedShipment.purchaserId shipment).

(** [initializeState()], given the result of [loadAppState()]. *)
Definition initializeState (now : Date) (loaded : option SavedState) : AppState :=
  match loaded with
  | Some savedState =>
      mkState (map (mergeProduct (savedProducts savedState)) SEAFOOD_PRODUCTS)
              (savedPurchases savedState)
              (map migrateShipment (savedShipments savedState))
              (savedWeeklyQuotas savedState)
              (savedViewingWeekStart savedState)
  | None => initialState now
  end.

Lemma mergeProduct_id saved d : Product.id (mergeProduct saved d) = Product.id d.
Proof.
  unfold mergeProduct.
  destruct (find _ saved) as [sp|] eqn:E; [|reflexivity].
  apply find_some in E. apply String.eqb_eq, E.
Qed.

Lemma initializeState_ids now loaded :
  map Product.id (products (initializeState now loaded)) = map Product.id SEAFOOD_PRODUCTS.
Proof.
  destruct loaded as [saved|]; [|reflexivity].
  cbn [initializeState products]. rewrite map_map. apply map_ext, mergeProduct_id.
Qed.

Lemma find_product_listed (l : list Product.t) (x : Product.t) :
  NoDup (map Product.id l) -> In x l ->
  find (fun p => (Product.id p =? Product.id x)%string) l = Some x.
Proof.
  induction l as [|y l IH]; intros Hnd Hx; [contradiction|].
  cbn [map] in Hnd. inversion Hnd as [|? ? Hy Hnd']; subst. cbn [find].
  destruct Hx as [-> | Hx]; [rewrite String.eqb_refl; reflexivity|].
  destruct (Product.id y =? Product.id x)%string eqn:E; [|exact (IH Hnd' Hx)].
  apply String.eqb_eq in E. exfalso. apply Hy. rewrite E. apply in_map, Hx.
Qed.

Lemma find_product_some_iff (l : list Product.t) (productId : string) :
  In productId (map Product.id l)
  <-> exists p, find (fun p => (Product.id p =? productId)%string) l = Some p.
Proof.
  split.
  - intros Hin. apply in_map_iff in Hin. destruct Hin as (x & Hid & Hx).
    destruct (find _ l) as [p|] eqn:E; [exists p; reflexivity|].
    pose proof (find_none _ _ E x Hx) as H. cbn in H.
    apply String.eqb_neq in H. contradiction.
  - intros (p & Hp). apply find_some in Hp. destruct Hp as [Hp Hid].
    apply String.eqb_eq in Hid. rewrite <- Hid. apply in_map, Hp.
Qed.

Lemma merge_of_same_ids (full : list Product.t) : forall ds ss,
  map Product.id ss = map Product.id ds ->
  (forall s, In s ss ->
             find (fun p => (Product.id p =? Product.id s)%string) full = Some s) ->
  map (mergeProduct full) ds = ss.
Proof.
  induction ds as [|d ds IH]; intros [|s ss] Hids Hfind; try discriminate; [reflexivity|].
  injection Hids as Hid Hids. cbn [map]. f_equal.
  - unfold mergeProduct. rewrite <- Hid, (Hfind s (or_introl eq_refl)). reflexivity.
  - apply IH; [exact Hids|]. intros x Hx. apply Hfind. right. exact Hx.
Qed.

Lemma SEAFOOD_PRODUCTS_distinct : NoDup (map Product.id SEAFOOD_PRODUCTS).
Proof. cbn. repeat constructor; cbn; intuition discriminate. Qed.

(** X24.  Starting from saved data keeps the catalogue of the code and the
    quotas of the data: the store has the products of [SEAFOOD_PRODUCTS], by
    id and in that order, each with the saved record of that id when there is
    one and the default otherwise, so that [getQuotaStatus] returns exactly
    for the ids of the catalogue; and a saved list that has the ids of the
    catalogue comes back as it was saved. *)
Theorem initializeState_keeps_catalogue_and_quotas :
  forall now loaded,
    let state := initializeState now loaded in
    map Product.id (products state) = map Product.id SEAFOOD_PRODUCTS
    /\ (forall productId weekStart,
          In productId (map Product.id SEAFOOD_PRODUCTS)
          <-> exists q, getQuotaStatus state productId weekStart = Returns q)
    /\ (forall saved d,
          loaded = Some saved -> In d SEAFOOD_PRODUCTS ->
          findProduct state (Product.id d) = Some (mergeProduct (savedProducts saved) d))
    /\ (forall saved,
          loaded = Some saved ->
          map Product.id (savedProducts saved) = map Product.id SEAFOOD_PRODUCTS ->
          products state = savedProducts saved).
Proof.
  intros now loaded state.
  pose proof (initializeState_ids now loaded) as Hids. fold state in Hids.
  split; [exact Hids|]. split; [|split].
  - intros productId weekStart. rewrite <- Hids, find_product_some_iff.
    unfold getQuotaStatus. split.
    + intros (p & ->). eexists. reflexivity.
    + intros (q & Hq). destruct (find _ (products state)) as [p|];
        [exists p; reflexivity | discriminate].
  - intros saved d -> Hd. unfold findProduct.
    rewrite <- (mergeProduct_id (savedProducts saved) d).
    apply find_product_listed.
    + rewrite Hids. exact SEAFOOD_PRODUCTS_distinct.
    + cbn [state initializeState products]. apply in_map, Hd.
  - intros saved -> Hsame. cbn [state initializeState products].
    apply merge_of_same_ids; [exact Hsame|].
    intros s Hs. apply find_product_listed; [|exact Hs].
    rewrite Hsame. exact SEAFOOD_PRODUCTS_distinct.
Qed.

(* ===================================================================== *)
(** ** Date ranges ([utils/analytics.ts]) *)
(* ===================================================================== *)

(** Dates are compared as instants; the calendar day of an instant is
    taken in UTC, as everywhere in this development. *)
Module DateRange.
Record t := mk { start : Date; end_ : Date }.
End DateRange.

(** date-fns [isAfter], [isBefore], [isEqual]. *)
Definition isAfter (date dateToCompare : Date) : bool := dateToCompare <? date.
Definition isBefore (date dateToCompare : Date) : bool := date <? dateToCompare.
Definition isEqual (dateLeft dateRight : Date) : bool := dateLeft =? dateRight.

Definition isDateInRange (date : Date) (range : DateRange.t) : bool :=
  (isSameDay date (DateRange.start range) || isAfter date (DateRange.start range))
  && (isSameDay date (DateRange.end_ range) || isBefore date (DateRange.end_ range)).

Definition getShipmentsInDateRange (shipments : list Shipment.t) (range : DateRange.t)
  : list Shipment.t :=
  filter (fun shipment => isDateInRange (Shipment.estimatedArrival shipment) range)
         shipments.

Definition createDateRange (date1 date2 : Date) : DateRange.t :=
  if isBefore date1 date2 || isEqual date1 date2
  then DateRange.mk date1 date2
  else DateRange.mk date2 date1.

(** [Math.ceil((end - start) / (1000 * 60 * 60 * 24)) + 1] of
    [formatDateRange]. *)
Definition dayCount (range : DateRange.t) : Z :=
  - ((DateRange.start range - DateRange.end_ range) / DateJS.msPerDay) + 1.

Lemma from_start_iff date start :
  isSameDay date start || isAfter date start = true <-> startOfDay start <= date.
Proof.
  unfold isSameDay, isAfter, startOfDay, DateJS.dayNumber, DateJS.msPerDay.
  rewrite orb_true_iff, Z.eqb_eq, Z.ltb_lt. Z.div_mod_to_equations. lia.
Qed.

Lemma to_end_iff date finish :
  isSameDay date finish || isBefore date finish = true
  <-> date < startOfDay finish + DateJS.msPerDay.
Proof.
  unfold isSameDay, isBefore, startOfDay, DateJS.dayNumber, DateJS.msPerDay.
  rewrite orb_true_iff, Z.eqb_eq, Z.ltb_lt. Z.div_mod_to_equations. lia.
Qed.

Lemma isDateInRange_iff date range :
  isDateInRange date range = true
  <-> startOfDay (DateRange.start range) <= date
      < startOfDay (DateRange.end_ range) + DateJS.msPerDay.
Proof.
  unfold isDateInRange. rewrite andb_true_iff, from_start_iff, to_end_iff. reflexivity.
Qed.

Lemma createDateRange_ordered date1 date2 :
  createDateRange date1 date2 = DateRange.mk (Z.min date1 date2) (Z.max date1 date2).
Proof.
  unfold createDateRange, isBefore, isEqual.
  destruct (date1 <? date2) eqn:E1; cbn [orb].
  - apply Z.ltb_lt in E1. f_equal; lia.
  - destruct (date1 =? date2) eqn:E2.
    + apply Z.eqb_eq in E2. f_equal; lia.
    + apply Z.ltb_ge in E1. apply Z.eqb_neq in E2. f_equal; lia.
Qed.

(** X25.  A range made from two dates does not depend on their order and
    covers whole days: it runs from the earlier to the later date, and a date
    is in it exactly from the first instant of the earlier day to the last of
    the later day, so that both dates are in it; for two dates at the same
    time of day, the day count of [formatDateRange] is the number of calendar
    days from the one to the other, both included. *)
Theorem date_range_covers_whole_days :
  forall date date1 date2,
    let range := createDateRange date1 date2 in
    createDateRange date2 date1 = range
    /\ DateRange.start range = Z.min date1 date2
    /\ DateRange.end_ range = Z.max date1 date2
    /\ (isDateInRange date range = true
        <-> startOfDay (Z.min date1 date2) <= date
            < startOfDay (Z.max date1 date2) + DateJS.msPerDay)
    /\ isDateInRange date1 range = true
    /\ isDateInRange date2 range = true
    /\ (date1 - startOfDay date1 = date2 - startOfDay date2 ->
        dayCount range
        = Z.abs (DateJS.dayNumber date2 - DateJS.dayNumber date1) + 1).
Proof.
  intros date date1 date2 range. unfold range.
  rewrite (createDateRange_ordered date2 date1), (createDateRange_ordered date1 date2).
  cbn [DateRange.start DateRange.end_].
  split; [f_equal; lia|]. split; [reflexivity|]. split; [reflexivity|].
  split; [apply isDateInRange_iff|].
  assert (Hin : forall d, Z.min date1 date2 <= d <= Z.max date1 date2 ->
                          isDateInRange d (DateRange.mk (Z.min date1 date2)
                                                        (Z.max date1 date2)) = true).
  { intros d Hd. apply isDateInRange_iff. cbn [DateRange.start DateRange.end_].
    revert Hd. generalize (Z.min date1 date2), (Z.max date1 date2). intros lo hi Hd.
    unfold startOfDay, DateJS.dayNumber, DateJS.msPerDay.
    Z.div_mod_to_equations. lia. }
  split; [apply Hin; lia|]. split; [apply Hin; lia|].
  unfold dayCount, startOfDay, DateJS.dayNumber, DateJS.msPerDay.
  cbn [DateRange.start DateRange.end_]. intros Hsame.
  destruct (Z.min_spec date1 date2) as [[Hlt ->] | [Hle ->]];
    [rewrite Z.max_r by lia | rewrite Z.max_l by lia];
    Z.div_mod_to_equations; lia.
Qed.

(* ===================================================================== *)
(** ** The arrival badge ([components/PurchasesList.tsx]) *)
(* ===================================================================== *)

Module StatusInfo.
Inductive Status := arrived | today | soon | future.
Record t := mk { status : Status; color : string; label : string }.
End StatusInfo.

(** [getStatusInfo(shipment)] at the instant [now]. *)
Definition getStatusInfo (now : Date) (shipment : Shipment.t) : StatusInfo.t :=
  let today := startOfDay now in
  let arrivalDate := startOfDay (Shipment.estimatedArrival shipment) in
  let daysDiff := differenceInDays arrivalDate today in
  if daysDiff <? 0
  then StatusInfo.mk StatusInfo.arrived "bg-green-100 text-green-800" "Arrived"
  else if daysDiff =? 0
  then StatusInfo.mk StatusInfo.today "bg-blue-100 text-blue-800" "Arriving Today"
  else if daysDiff <=? 2
  then StatusInfo.mk StatusInfo.soon "bg-yellow-100 text-yellow-800"
         ("Arriving in " ++ JS.toString daysDiff ++ "d")
  else StatusInfo.mk StatusInfo.future "bg-gray-100 text-gray-800"
         ("Arriving in " ++ JS.toString daysDiff ++ "d").

Lemma differenceInDays_of_days a b :
  differenceInDays (startOfDay a) (startOfDay b) = DateJS.dayNumber a - DateJS.dayNumber b.
Proof.
  unfold differenceInDays, startOfDay.
  rewrite <- Z.mul_sub_distr_r. apply Z.quot_mul. discriminate.
Qed.

(** X26.  The arrival badge goes by calendar days, not by the time of day:
    with [n] the number of days from today's date to the arrival date, the
    badge is "arrived" for [n < 0], "today" exactly when the two instants are
    on the same day, "soon" for 1 or 2 days and "future" from 3 days on, and
    in the last two cases it reads "Arriving in [n]d". *)
Theorem arrival_badge_counts_calendar_days :
  forall now shipment,
    let n := DateJS.dayNumber (Shipment.estimatedArrival shipment)
             - DateJS.dayNumber now in
    let info := getStatusInfo now shipment in
    (StatusInfo.status info = StatusInfo.arrived <-> n < 0)
    /\ (StatusInfo.status info = StatusInfo.today
        <-> isSameDay (Shipment.estimatedArrival shipment) now = true)
    /\ (StatusInfo.status info = StatusInfo.soon <-> 1 <= n <= 2)
    /\ (StatusInfo.status info = StatusInfo.future <-> 3 <= n)
    /\ (1 <= n -> StatusInfo.label info = "Arriving in " ++ JS.toString n ++ "d").
Proof.
  intros now shipment n info. unfold info, getStatusInfo.
  rewrite differenceInDays_of_days. fold n.
  assert (Hsame : isSameDay (Shipment.estimatedArrival shipment) now = true <-> n = 0).
  { unfold isSameDay, startOfDay, n, DateJS.msPerDay. rewrite Z.eqb_eq. lia. }
  rewrite Hsame.
  destruct (n <? 0) eqn:E1; [apply Z.ltb_lt in E1 | apply Z.ltb_ge in E1].
  { cbn. repeat split; intros; try discriminate; try lia. }
  destruct (n =? 0) eqn:E2; [apply Z.eqb_eq in E2 | apply Z.eqb_neq in E2].
  { cbn. repeat split; intros; try discriminate; try lia. }
  destruct (n <=? 2) eqn:E3; [apply Z.leb_le in E3 | apply Z.leb_gt in E3].
  { cbn [StatusInfo.status StatusInfo.label].
    repeat split; intros; try discriminate; try lia. }
  cbn [StatusInfo.status StatusInfo.label].
  repeat split; intros; try discriminate; try lia.
Qed.

(* ===================================================================== *)
(** ** Sorting ([Array.prototype.sort]) *)
(* ===================================================================== *)

(** [sort] is stable; with a comparator that orders the elements, its
    result is the one sorted list that keeps equal elements in their order,
    which is what insertion from the right builds.  [before x y] stands for
    [compare(x, y) <= 0]. *)
Section Sort.
Context {A : Type} (before : A -> A -> bool).

Fixpoint insertSorted (x : A) (l : list A) : list A :=
  match l with
  | [] => [x]
  | y :: r => if before x y then x :: y :: r else y :: insertSorted x r
  end.

Definition stableSort (l : list A) : list A := fold_right insertSorted [] l.

Lemma In_insertSorted x l y : In y (insertSorted x l) <-> y = x \/ In y l.
Proof.
  induction l as [|z l IH]; cbn [insertSorted].
  - cbn. intuition congruence.
  - destruct (before x z); cbn [In]; [intuition congruence|].
    rewrite IH. intuition congruence.
Qed.

Lemma In_stableSort l y : In y (stableSort l) <-> In y l.
Proof.
  induction l as [|x l IH]; [reflexivity|].
  cbn [stableSort fold_right]. fold (stableSort l).
  rewrite In_insertSorted, IH. cbn [In]. intuition congruence.
Qed.

Lemma length_insertSorted x l : List.length (insertSorted x l) = S (List.length l).
Proof.
  induction l as [|z l IH]; [reflexivity|]. cbn [insertSorted].
  destruct (before x z); cbn [List.length]; [reflexivity | rewrite IH; reflexivity].
Qed.

Lemma length_stableSort l : List.length (stableSort l) = List.length l.
Proof.
  induction l as [|x l IH]; [reflexivity|].
  cbn [stableSort fold_right]. fold (stableSort l).
  rewrite length_insertSorted, IH. reflexivity.
Qed.

Lemma sumFrom_insertSorted (w : A -> Q) x l :
  (sumFrom w 0 (insertSorted x l) == w x + sumFrom w 0 l)%Q.
Proof.
  induction l as [|z l IH]; cbn [insertSorted].
  - apply sumFrom_cons.
  - destruct (before x z); [apply sumFrom_cons|].
    rewrite !sumFrom_cons, IH. ring.
Qed.

Lemma sumFrom_stableSort (w : A -> Q) l :
  (sumFrom w 0 (stableSort l) == sumFrom w 0 l)%Q.
Proof.
  induction l as [|x l IH]; [reflexivity|].
  cbn [stableSort fold_right]. fold (stableSort l).
  rewrite sumFrom_insertSorted, sumFrom_cons, IH. reflexivity.
Qed.

Context (R : A -> A -> Prop).
Hypothesis before_true : forall x y, before x y = true -> R x y.
Hypothesis before_false : forall x y, before x y = false -> R y x.
Hypothesis R_trans : forall x y z, R x y -> R y z -> R x z.

Lemma insertSorted_sorted x l :
  StronglySorted R l -> StronglySorted R (insertSorted x l).
Proof.
  induction l as [|z l IH]; intros Hs; cbn [insertSorted].
  - constructor; [constructor | constructor].
  - inversion Hs as [|? ? Hl Hz]; subst.
    destruct (before x z) eqn:E.
    + constructor; [exact Hs|]. constructor; [exact (before_true _ _ E)|].
      rewrite Forall_forall in *. intros y Hy.
      exact (R_trans _ _ _ (before_true _ _ E) (Hz y Hy)).
    + constructor; [exact (IH Hl)|].
      rewrite Forall_forall in *. intros y Hy. apply In_insertSorted in Hy.
      destruct Hy as [-> | Hy]; [exact (before_false _ _ E) | exact (Hz y Hy)].
Qed.

Lemma stableSort_sorted l : StronglySorted R (stableSort l).
Proof.
  induction l as [|x l IH]; [constructor|].
  cbn [stableSort fold_right]. apply insertSorted_sorted, IH.
Qed.
End Sort.

(* ===================================================================== *)
(** ** The purchase history ([components/PurchasesList.tsx],
       [components/PurchasesDesktopView.tsx]) *)
(* ===================================================================== *)

(** The filter buttons of the list. *)
Inductive ListFilter := filter_all | filter_current_week | filter_recent.

(** The props and local state the list filters by. *)
Record ListProps := mkListProps
  { selectedDate : option Date;
    selectedDateRange : option DateRange.t;
    isDesktopView : bool;
    listFilter : ListFilter }.

(** The predicate of [filteredShipments] at the instant [now]. *)
Definition isListed (now : Date) (props : ListProps) (shipment : Shipment.t) : bool :=
  match Shipment.approvalStatus shipment with
  | rejected => false
  | _ =>
      match isDesktopView props, selectedDateRange props, selectedDate props with
      | true, Some range, _ => isDateInRange (Shipment.estimatedArrival shipment) range
      | true, None, Some date => isSameDay (Shipment.estimatedArrival shipment) date
      | _, _, _ =>
          match listFilter props with
          | filter_current_week => isCurrentWeek now (Shipment.estimatedArrival shipment)
          | filter_recent =>
              let thirtyDaysAgo := now - 30 * 24 * 60 * 60 * 1000 in
              let thirtyDaysFromNow := now + 30 * 24 * 60 * 60 * 1000 in
              (thirtyDaysAgo <=? Shipment.createdAt shipment)
              || ((now <=? Shipment.estimatedArrival shipment)
                  && (Shipment.estimatedArrival shipment <=? thirtyDaysFromNow))
          | filter_all => true
          end
      end
  end.

Definition filteredShipments (now : Date) (state : AppState) (props : ListProps)
  : list Shipment.t :=
  filter (isListed now props) (shipments state).

(** [[...filteredShipments].sort((a, b) => a.estimatedArrival.getTime()
     - b.estimatedArrival.getTime())] *)
Definition sortedShipments (now : Date) (state : AppState) (props : ListProps)
  : list Shipment.t :=
  stableSort (fun a b => Shipment.estimatedArrival a <=? Shipment.estimatedArrival b)
             (filteredShipments now state props).

(** [formatDateRange] and [getDateRangeSummary] of [utils/analytics.ts];
    [toLocaleDateString] is the rendering of a date in the locale of the
    browser. *)
Section Locale.
Variable toLocaleDateString : Date -> string.

Definition formatDateRange (range : DateRange.t) : string :=
  if isSameDay (DateRange.start range) (DateRange.end_ range)
  then toLocaleDateString (DateRange.start range)
  else
    let startStr := toLocaleDateString (DateRange.start range) in
    let endStr := toLocaleDateString (DateRange.end_ range) in
    startStr ++ " - " ++ endStr ++ " (" ++ JS.toString (dayCount range) ++ " day"
    ++ (if dayCount range =? 1 then "" else "s") ++ ")".

Record DateRangeSummary := mkSummary
  { totalShipments : nat;
    totalPounds : Q;
    totalCost : Q;
    uniqueShippers : nat;
    dateRange : string }.

(** [item.pounds * (item.cost || 0)], summed over the items of a line. *)
Definition itemsCost (product : ProductPurchase.t) : Q :=
  fold_left (fun itemSum item =>
               (itemSum + PurchaseItem.pounds item * PurchaseItem.cost item)%Q)
            (ProductPurchase.items product) 0%Q.

Definition shipmentPounds (shipment : Shipment.t) : Q :=
  fold_left (fun shipSum product => (shipSum + ProductPurchase.totalPounds product)%Q)
            (Shipment.products shipment) 0%Q.

Definition shipmentCost (shipment : Shipment.t) : Q :=
  fold_left (fun shipSum product => (shipSum + itemsCost product)%Q)
            (Shipment.products shipment) 0%Q.

Definition getDateRangeSummary (shipments : list Shipment.t) (range : DateRange.t)
  : DateRangeSummary :=
  let rangeShipments := getShipmentsInDateRange shipments range in
  mkSummary
    (List.length rangeShipments)
    (fold_left (fun sum shipment => (sum + shipmentPounds shipment)%Q) rangeShipments 0%Q)
    (fold_left (fun sum shipment => (sum + shipmentCost shipment)%Q) rangeShipments 0%Q)
    (List.length (nodup string_dec (map Shipment.shipper rangeShipments)))
    (formatDateRange range).
End Locale.

Lemma filter_length_split {A : Type} (f : A -> bool) (l : list A) :
  List.length l
  = (List.length (filter f l) + List.length (filter (fun a => negb (f a)) l))%nat.
Proof.
  induction l as [|x l IH]; [reflexivity|]. cbn [filter].
  destruct (f x); cbn [negb List.length]; lia.
Qed.

Definition isRejected (s : Shipment.t) : bool :=
  ApprovalStatus_eqb (Shipment.approvalStatus s) rejected.

(** X27.  The purchase history never lists a rejected shipment, whatever the
    filter, and lists its shipments by arrival date, earliest first.  Beside a
    date range on the desktop view it lists the shipments that the summary of
    the range counts, less the rejected ones: the number of shipments in the
    header is the number of listed shipments plus the number of rejected
    shipments in the range. *)
Theorem history_lists_what_is_not_rejected :
  forall toLocaleDateString now state props,
    let listed := sortedShipments now state props in
    (forall s, In s listed -> Shipment.approvalStatus s <> rejected)
    /\ (forall s, In s listed <-> In s (filteredShipments now state props))
    /\ StronglySorted
         (fun a b => Shipment.estimatedArrival a <= Shipment.estimatedArrival b) listed
    /\ (forall range,
          isDesktopView props = true -> selectedDateRange props = Some range ->
          let counted := getShipmentsInDateRange (shipments state) range in
          filteredShipments now state props
          = filter (fun s => negb (isRejected s)) counted
          /\ totalShipments (getDateRangeSummary toLocaleDateString (shipments state) range)
             = (List.length listed + List.length (filter isRejected counted))%nat).
Proof.
  intros toLocaleDateString now state props listed.
  assert (Hin : forall s, In s listed <-> In s (filteredShipments now state props))
    by (intros s; apply In_stableSort).
  split; [|split; [exact Hin|split]].
  - intros s Hs. apply Hin in Hs. apply filter_In in Hs. destruct Hs as [_ Hs].
    unfold isListed in Hs. destruct (Shipment.approvalStatus s); discriminate.
  - apply (stableSort_sorted _ (fun a b => Shipment.estimatedArrival a
                                           <= Shipment.estimatedArrival b)).
    + intros x y H. apply Z.leb_le, H.
    + intros x y H. apply Z.leb_gt in H. lia.
    + intros x y z H1 H2. lia.
  - intros range Hd Hr counted.
    assert (Heq : filteredShipments now state props
                  = filter (fun s => negb (isRejected s)) counted).
    { unfold counted, getShipmentsInDateRange, filteredShipments.
      rewrite filter_filter_and. apply filter_ext. intros s.
      unfold isListed, isRejected. rewrite Hd, Hr.
      destruct (Shipment.approvalStatus s); cbn;
        rewrite ?andb_true_r, ?andb_false_r; reflexivity. }
    split; [exact Heq|].
    cbn [getDateRangeSummary totalShipments]. fold counted.
    unfold listed, sortedShipments. rewrite length_stableSort, Heq.
    rewrite (filter_length_split isRejected counted). lia.
Qed.

(* ===================================================================== *)
(** ** The chart of the desktop view ([aggregateProductData] of
       [utils/analytics.ts]) *)
(* ===================================================================== *)

Module ProductAnalytics.
Record t := mk
  { productId : string; productName : string; totalPounds : Q; totalCost : Q;
    shipmentCount : Z; color : string }.
End ProductAnalytics.

Definition PRODUCT_COLORS : list (string * string) :=
  [ ("tuna", "#ef4444"); ("sword", "#f97316"); ("mahi", "#eab308");
    ("wahoo", "#22c55e"); ("grouper", "#06b6d4"); ("snapper", "#3b82f6");
    ("salmon", "#8b5cf6"); ("seabass", "#ec4899") ].

(** [PRODUCT_COLORS[id] || '#6b7280'], for ids that are not names of
    properties every JavaScript object inherits. *)
Definition colorOf (id : string) : string :=
  match find (fun entry => (fst entry =? id)%string) PRODUCT_COLORS with
  | Some (_, c) => c
  | None => "#6b7280"
  end.

(** A [Map<string, ProductAnalytics>]: its entries in insertion order. *)
Definition ProductMap := list (string * ProductAnalytics.t).

Fixpoint mapGet (key : string) (m : ProductMap) : option ProductAnalytics.t :=
  match m with
  | [] => None
  | (k, v) :: r => if (k =? key)%string then Some v else mapGet key r
  end.

(** [set] replaces the value of a key that is present, where it is, and
    adds a new key at the end. *)
Fixpoint mapSet (key : string) (value : ProductAnalytics.t) (m : ProductMap) : ProductMap :=
  match m with
  | [] => [(key, value)]
  | (k, v) :: r =>
      if (k =? key)%string then (k, value) :: r else (k, v) :: mapSet key value r
  end.

(** The first loop: every product but "other" starts at zero. *)
Definition initializeProducts (products : list Product.t) : ProductMap :=
  fold_left
    (fun m product =>
       if negb (Product.id product =? "other")%string
       then mapSet (Product.id product)
              (ProductAnalytics.mk (Product.id product) (Product.name product) 0 0 0
                 (colorOf (Product.id product)))
              m
       else m)
    products [].

(** [productPurchase.productId === 'other' && productPurchase.customProductName] *)
Definition namedOther (productPurchase : ProductPurchase.t) : option string :=
  if (ProductPurchase.productId productPurchase =? "other")%string
  then match ProductPurchase.customProductName productPurchase with
       | Some n => if JS.truthy n then Some n else None
       | None => None
       end
  else None.

Definition keyOf (productPurchase : ProductPurchase.t) : string :=
  match namedOther productPurchase with
  | Some n => "other_" ++ n
  | None => ProductPurchase.productId productPurchase
  end.

(** The entry created for a key that is not in the map. *)
Definition newEntry (products : list Product.t) (productPurchase : ProductPurchase.t)
  : ProductAnalytics.t :=
  let productName :=
    match namedOther productPurchase with
    | Some n => n
    | None =>
        match find (fun p => (Product.id p =? ProductPurchase.productId productPurchase)%string)
                   products with
        | Some p => if JS.truthy (Product.name p) then Product.name p
                    else "Unknown Product"
        | None => "Unknown Product"
        end
    end in
  ProductAnalytics.mk (keyOf productPurchase) productName 0 0 0
    (colorOf (ProductPurchase.productId productPurchase)).

(** The three updates made on the entry of a line ([existing] is the
    object held by the map, so that the map sees them). *)
Definition addTo (existing : ProductAnalytics.t) (productPurchase : ProductPurchase.t)
  : ProductAnalytics.t :=
  ProductAnalytics.mk
    (ProductAnalytics.productId existing) (ProductAnalytics.productName existing)
    (ProductAnalytics.totalPounds existing + ProductPurchase.totalPounds productPurchase)
    (ProductAnalytics.totalCost existing + itemsCost productPurchase)
    (ProductAnalytics.shipmentCount existing + 1)
    (ProductAnalytics.color existing).

(** One round of the inner loop. *)
Definition addLine (products : list Product.t) (m : ProductMap)
    (productPurchase : ProductPurchase.t) : ProductMap :=
  let key := keyOf productPurchase in
  let existing :=
    match mapGet key m with
    | Some e => e
    | None => newEntry products productPurchase
    end in
  mapSet key (addTo existing productPurchase) m.

Definition aggregate (products : list Product.t) (shipments : list Shipment.t) : ProductMap :=
  fold_left (fun m shipment => fold_left (addLine products) (Shipment.products shipment) m)
            shipments (initializeProducts products).

(** [Array.from(productMap.values()).sort((a, b) => b.totalPounds - a.totalPounds)] *)
Definition aggregateProductData (shipments : list Shipment.t) (products : list Product.t)
  : list ProductAnalytics.t :=
  stableSort (fun a b => Qle_bool (ProductAnalytics.totalPounds b)
                                  (ProductAnalytics.totalPounds a))
             (map snd (aggregate products shipments)).

(** *** Sums over the map *)

Section MapSums.
(** A quantity of the rows and the amount a line adds to it. *)
Variable w : ProductAnalytics.t -> Q.
Variable wl : ProductPurchase.t -> Q.
Hypothesis w_new : forall products pp, (w (newEntry products pp) == 0)%Q.
Hypothesis w_add : forall e pp, (w (addTo e pp) == w e + wl pp)%Q.

Definition mapSum (m : ProductMap) : Q := sumFrom w 0 (map snd m).

Lemma mapSum_cons k v m : (mapSum ((k, v) :: m) == w v + mapSum m)%Q.
Proof. unfold mapSum. cbn [map snd]. apply sumFrom_cons. Qed.

Lemma mapSum_set key v m :
  (mapSum (mapSet key v m)
   == mapSum m - match mapGet key m with Some e => w e | None => 0 end + w v)%Q.
Proof.
  induction m as [|[k x] m IH]; cbn [mapSet mapGet].
  - rewrite mapSum_cons. unfold mapSum, sumFrom. cbn. ring.
  - destruct (k =? key)%string.
    + rewrite !mapSum_cons. ring.
    + rewrite !mapSum_cons, IH. ring.
Qed.

Lemma mapSum_addLine products m pp :
  (mapSum (addLine products m pp) == mapSum m + wl pp)%Q.
Proof.
  unfold addLine. rewrite mapSum_set, w_add.
  destruct (mapGet (keyOf pp) m) as [e|]; [ring|].
  rewrite (w_new products pp). ring.
Qed.

Lemma mapSum_lines products lines : forall m,
  (mapSum (fold_left (addLine products) lines m) == mapSum m + sumFrom wl 0 lines)%Q.
Proof.
  induction lines as [|pp lines IH]; intros m; cbn [fold_left].
  - change (sumFrom wl 0 []) with 0%Q. ring.
  - rewrite IH, mapSum_addLine, sumFrom_cons. ring.
Qed.

Lemma mapSum_shipments products shipments : forall m,
  (mapSum (fold_left (fun m shipment =>
                        fold_left (addLine products) (Shipment.products shipment) m)
                     shipments m)
   == mapSum m
      + sumFrom (fun shipment => sumFrom wl 0 (Shipment.products shipment)) 0 shipments)%Q.
Proof.
  induction shipments as [|s shipments IH]; intros m; cbn [fold_left].
  - change (sumFrom (fun shipment => sumFrom wl 0 (Shipment.products shipment)) 0 [])
      with 0%Q. ring.
  - rewrite IH, mapSum_lines, sumFrom_cons. ring.
Qed.

Hypothesis w_zero : forall id name c, (w (ProductAnalytics.mk id name 0 0 0 c) == 0)%Q.

Lemma mapSum_initial products : (mapSum (initializeProducts products) == 0)%Q.
Proof.
  unfold initializeProducts.
  assert (H : forall m, (forall k e, In (k, e) m -> (w e == 0)%Q) ->
                        (mapSum m == 0)%Q).
  { induction m as [|[k e] m IH]; intros Hz; [reflexivity|].
    rewrite mapSum_cons, (Hz k e (or_introl eq_refl)), IH; [ring|].
    intros k' e' Hin. apply (Hz k' e'). right. exact Hin. }
  apply H.
  assert (Hset : forall key v m k e,
             In (k, e) (mapSet key v m) -> (k, e) = (key, v) \/ In (k, e) m).
  { intros key v m. induction m as [|[k0 x] m IH]; intros k e Hin; cbn [mapSet] in Hin.
    - destruct Hin as [<- | []]. left. reflexivity.
    - destruct (k0 =? key)%string eqn:E.
      + destruct Hin as [Hin | Hin]; [|right; right; exact Hin].
        apply String.eqb_eq in E. left. congruence.
      + destruct Hin as [Hin | Hin]; [right; left; exact Hin|].
        destruct (IH k e Hin) as [H1 | H1]; [left; exact H1 | right; right; exact H1]. }
  assert (Hfold : forall l m,
             (forall k e, In (k, e) m -> (w e == 0)%Q) ->
             forall k e,
               In (k, e)
                  (fold_left
                     (fun m product =>
                        if negb (Product.id product =? "other")%string
                        then mapSet (Product.id product)
                               (ProductAnalytics.mk (Product.id product)
                                  (Product.name product) 0 0 0
                                  (colorOf (Product.id product))) m
                        else m) l m) ->
               (w e == 0)%Q).
  { induction l as [|p l IH]; intros m Hz k e Hin; cbn [fold_left] in Hin.
    - exact (Hz k e Hin).
    - refine (IH _ _ k e Hin). intros k' e' Hin'.
      destruct (negb (Product.id p =? "other")%string); [|exact (Hz k' e' Hin')].
      destruct (Hset _ _ _ _ _ Hin') as [[= -> ->] | Hold];
        [apply w_zero | exact (Hz k' e' Hold)]. }
  intros k e. apply Hfold. intros k' e' [].
Qed.

Lemma mapSum_aggregate products shipments :
  (mapSum (aggregate products shipments)
   == sumFrom (fun shipment => sumFrom wl 0 (Shipment.products shipment)) 0 shipments)%Q.
Proof.
  unfold aggregate. rewrite mapSum_shipments, mapSum_initial. ring.
Qed.
End MapSums.

(** *** The keys of the map *)

Lemma mapSet_keeps key v m k :
  In k (map fst m) -> In k (map fst (mapSet key v m)).
Proof.
  induction m as [|[k0 x] m IH]; intros Hin; [contradiction|]. cbn [mapSet].
  destruct (k0 =? key)%string; cbn [map fst] in *; [exact Hin|].
  destruct Hin as [Hin | Hin]; [left; exact Hin | right; exact (IH Hin)].
Qed.

Lemma mapSet_has key v m : In key (map fst (mapSet key v m)).
Proof.
  induction m as [|[k0 x] m IH]; cbn [mapSet]; [left; reflexivity|].
  destruct (k0 =? key)%string eqn:E; cbn [map fst].
  - left. apply String.eqb_eq, E.
  - right. exact IH.
Qed.

Lemma initializeProducts_has products product :
  In product products -> Product.id product <> "other" ->
  In (Product.id product) (map fst (initializeProducts products)).
Proof.
  unfold initializeProducts. generalize (@nil (string * ProductAnalytics.t)).
  induction products as [|p l IH]; intros m Hin Hne; [contradiction|].
  cbn [fold_left]. destruct Hin as [-> | Hin]; [|exact (IH _ Hin Hne)].
  apply String.eqb_neq in Hne. rewrite Hne. cbn [negb].
  set (m1 := mapSet _ _ m). assert (H1 : In (Product.id product) (map fst m1))
    by apply mapSet_has.
  clearbody m1. clear IH. revert m1 H1.
  induction l as [|q l IH]; intros m1 H1; [exact H1|]. cbn [fold_left].
  apply IH. destruct (negb (Product.id q =? "other")%string); [|exact H1].
  apply mapSet_keeps, H1.
Qed.

Lemma aggregate_keeps products shipments k :
  In k (map fst (initializeProducts products)) ->
  In k (map fst (aggregate products shipments)).
Proof.
  unfold aggregate. generalize (initializeProducts products).
  induction shipments as [|s shipments IH]; intros m Hin; [exact Hin|].
  cbn [fold_left]. apply IH. revert m Hin.
  induction (Shipment.products s) as [|pp lines IHl]; intros m Hin; [exact Hin|].
  cbn [fold_left]. apply IHl. unfold addLine. apply mapSet_keeps, Hin.
Qed.

(** Every entry of the map is filed under its own [productId]. *)
Definition filedByKey (m : ProductMap) : Prop :=
  forall k e, In (k, e) m -> ProductAnalytics.productId e = k.

Lemma mapSet_filed key v m :
  filedByKey m -> ProductAnalytics.productId v = key -> filedByKey (mapSet key v m).
Proof.
  intros Hm Hv. induction m as [|[k0 x] m IH]; cbn [mapSet].
  - intros k e [[= <- <-] | []]. exact Hv.
  - assert (Hm' : filedByKey m) by (intros k e Hin; apply (Hm k e); right; exact Hin).
    destruct (k0 =? key)%string eqn:E.
    + apply String.eqb_eq in E. intros k e [[= <- <-] | Hin]; [congruence|].
      apply (Hm k e). right. exact Hin.
    + intros k e [[= <- <-] | Hin]; [apply (Hm k0 x); left; reflexivity|].
      exact (IH Hm' k e Hin).
Qed.

Lemma mapGet_In key m e : mapGet key m = Some e -> In (key, e) m.
Proof.
  induction m as [|[k0 x] m IH]; cbn [mapGet]; [discriminate|].
  destruct (k0 =? key)%string eqn:E.
  - apply String.eqb_eq in E. intros [= <-]. left. congruence.
  - intros H. right. exact (IH H).
Qed.

Lemma aggregate_filed products shipments : filedByKey (aggregate products shipments).
Proof.
  unfold aggregate.
  assert (Hinit : filedByKey (initializeProducts products)).
  { unfold initializeProducts.
    assert (H0 : filedByKey []) by (intros k e []).
    revert H0. generalize (@nil (string * ProductAnalytics.t)).
    induction products as [|p l IH]; intros m Hm; [exact Hm|].
    cbn [fold_left]. apply IH.
    destruct (negb (Product.id p =? "other")%string); [|exact Hm].
    apply mapSet_filed; [exact Hm | reflexivity]. }
  revert Hinit. generalize (initializeProducts products).
  induction shipments as [|s shipments IH]; intros m Hm; [exact Hm|].
  cbn [fold_left]. apply IH. revert m Hm.
  induction (Shipment.products s) as [|pp lines IHl]; intros m Hm; [exact Hm|].
  cbn [fold_left]. apply IHl. unfold addLine. apply mapSet_filed; [exact Hm|].
  cbn [addTo ProductAnalytics.productId].
  destruct (mapGet (keyOf pp) m) as [e|] eqn:E; [|reflexivity].
  exact (Hm _ _ (mapGet_In _ _ _ E)).
Qed.


(* ===================================================================== *)
(** ** What automatic approval guarantees *)
(* ===================================================================== *)

Lemma requiresApprovalLoop_false state weekStart l :
  requiresApprovalLoop state weekStart l = Returns false ->
  forall line,
    In line l -> ProductFormData.productId line <> "other" ->
    exists q,
      getQuotaStatus state (ProductFormData.productId line) weekStart = Returns q
      /\ lineRequiresApproval q line = false.
Proof.
  induction l as [|x l IH]; intros H line Hin Hne; [contradiction|].
  cbn [requiresApprovalLoop] in H.
  destruct (ProductFormData.productId x =? "other")%string eqn:Eo.
  - destruct Hin as [<- | Hin]; [|exact (IH H line Hin Hne)].
    apply String.eqb_eq in Eo. contradiction.
  - destruct (getQuotaStatus state (ProductFormData.productId x) weekStart) as [q|] eqn:Eq;
      [|discriminate].
    destruct (lineRequiresApproval q x) eqn:El; [discriminate|].
    destruct Hin as [<- | Hin]; [|exact (IH H line Hin Hne)].
    exists q. split; [exact Eq | exact El].
Qed.

Lemma getWeekKey_of_week_start d : getWeekKey (getWeekStart d) = getWeekKey d.
Proof. unfold getWeekKey. rewrite getWeekStart_is_aligned. reflexivity. Qed.

(** The weight in a bucket of the purchases derived from the lines of a
    form: the pounds of the lines of that product. *)
Lemma bucketTotal_of_form_lines s shipmentId productId lines : forall i,
  (bucketTotal productId (getWeekKey (Shipment.estimatedArrival s))
     (map (derivedPurchase s) (mapi_from i (formProduct shipmentId) lines))
   == sumFrom ProductFormData.totalPounds 0
        (filter (fun line => (ProductFormData.productId line =? productId)%string) lines))%Q.
Proof.
  induction lines as [|x lines IH]; intros i; [reflexivity|].
  cbn [mapi_from map filter].
  change (?a :: ?l) with ([a] ++ l)%list at 1. rewrite bucketTotal_app, IH.
  unfold bucketTotal at 1. cbn [filter]. unfold inBucket.
  cbn [derivedPurchase Purchase.productId Purchase.estimatedArrival formProduct
       ProductPurchase.productId].
  rewrite String.eqb_refl, andb_true_r.
  destruct (ProductFormData.productId x =? productId)%string.
  - rewrite sumFrom_cons. cbn [fold_left derivedPurchase Purchase.totalPounds formProduct
      ProductPurchase.totalPounds]. ring.
  - cbn [fold_left]. ring.
Qed.

Lemma filter_own_key {A : Type} (f : A -> string) (l : list A) (x : A) :
  NoDup (map f l) -> In x l ->
  filter (fun y => (f y =? f x)%string) l = [x].
Proof.
  induction l as [|y l IH]; intros Hnd Hin; [contradiction|].
  cbn [map] in Hnd. inversion Hnd as [|? ? Hy Hnd']; subst. cbn [filter].
  destruct Hin as [-> | Hin].
  - rewrite String.eqb_refl. f_equal. apply filter_none. intros z Hz.
    apply String.eqb_neq. intros E. apply Hy. rewrite <- E. apply in_map, Hz.
  - destruct (f y =? f x)%string eqn:E; [|exact (IH Hnd' Hin)].
    apply String.eqb_eq in E. exfalso. apply Hy. rewrite E. apply in_map, Hin.
Qed.

Lemma classify_not_over t p mn mx : ~ (mx < t)%Q -> classify t p mn mx <> over.
Proof.
  intros H. unfold classify. apply Qltb_nlt in H. rewrite H.
  destruct (Qle_bool 90 p); [discriminate|].
  destruct (Qle_bool mn t); discriminate.
Qed.



(* ===================================================================== *)
(** ** Reloading the page ([utils/storage.ts], [initializeState]) *)
(* ===================================================================== *)

(** A shipment of the store as it comes back from the saved text: the
    text written by [saveAppState] holds every field that is set; a date is
    written as its ISO string, to the millisecond, and [loadAppState] turns
    the date fields back into dates. *)
Definition savedShipment (s : Shipment.t) : SavedShipment.t :=
  SavedShipment.mk (Shipment.id s) (Shipment.shipper s) (Shipment.estimatedArrival s)
    (Shipment.purchaseDate s) (Shipment.weekStartDate s) (Shipment.products s)
    (Shipment.createdAt s) (Some (Shipment.approvalStatus s))
    (Shipment.purchaseOrderNumber s) (Shipment.rejectedAt s) (Shipment.purchaserId s).

(** What [loadAppState] returns for a store that [saveAppState] wrote. *)
Definition savedState (state : AppState) : SavedState :=
  mkSaved (products state) (purchases state) (map savedShipment (shipments state))
          (weeklyQuotas state) (viewingWeekStart state).

Lemma uiAction_keeps_catalogue now state action :
  uiAction now state action ->
  map Product.id (products (appReducer now state action))
  = map Product.id (products state).
Proof.
  intros Hact.
  destruct Hact as [user form action Hnew Hfresh Hsub
                   | user form e action Hedit He Hsub
                   | s Hs Hst | s Hs Hst | s Hs Hst | s Hs | | product | direction];
    try reflexivity.
  - destruct (handleSubmit_inversion _ _ _ _ Hsub) as (d & b & _ & _ & _ & _ & ->).
    destruct (editingShipment form); reflexivity.
  - destruct (handleSubmit_inversion _ _ _ _ Hsub) as (d & b & _ & _ & _ & _ & ->).
    destruct (editingShipment form); reflexivity.
  - unfold handleRejectShipment. cbn [appReducer].
    destruct (find _ (shipments state)); reflexivity.
  - unfold handleUnrejectShipment. cbn [appReducer].
    destruct (find _ (shipments state)) as [r|]; [|reflexivity].
    destruct (Shipment.approvalStatus r); reflexivity.
  - cbn [appReducer products]. rewrite map_map. apply map_ext. intros p.
    destruct (Product.id p =? Product.id product)%string eqn:E; [|reflexivity].
    apply String.eqb_eq in E. congruence.
Qed.

Lemma uiReachable_catalogue state :
  uiReachable state -> map Product.id (products state) = map Product.id SEAFOOD_PRODUCTS.
Proof.
  induction 1 as [now | now state action _ IH Hy Hact]; [reflexivity|].
  rewrite (uiAction_keeps_catalogue now state action Hact). exact IH.
Qed.

Lemma migrate_saved s :
  numbered s -> migrateShipment (savedShipment s) = s.
Proof.
  intros Hn. destruct s as [i sh ea pd ws pr ca st po ra pu].
  unfold numbered in Hn. cbn in Hn. unfold migrateShipment, savedShipment. cbn.
  f_equal. destruct po as [n|]; [|reflexivity].
  destruct st; try contradiction. apply truthy_iff in Hn. rewrite Hn. reflexivity.
Qed.

(** X30.  Reloading restores the store: for every store the application
    reaches from the empty one, [initializeState] applied to that store as it
    was saved, every field present, gives back the same store; the merge with
    the catalogue and the migration of the shipments change nothing. *)
Theorem reload_restores_the_store :
  forall now state,
    uiReachable state ->
    initializeState now (Some (savedState state)) = state.
Proof.
  intros now state Hr.
  pose proof (uiReachable_consistent state Hr) as Hc. unfold consistent in Hc.
  pose proof (uiReachable_catalogue state Hr) as Hids.
  destruct state as [pr pu sh wq vw].
  cbn [initializeState savedState savedProducts savedPurchases savedShipments
       savedWeeklyQuotas savedViewingWeekStart products purchases shipments
       weeklyQuotas viewingWeekStart] in *.
  f_equal.
  - apply merge_of_same_ids; [exact Hids|].
    intros s Hs. apply find_product_listed; [|exact Hs].
    rewrite Hids. exact SEAFOOD_PRODUCTS_distinct.
  - rewrite map_map. rewrite <- (map_id sh) at 2. apply map_ext_in.
    intros s Hs. apply migrate_saved. exact (numbers _ _ Hc s Hs).
Qed.

Lemma reload_restores_the_store_witness :
  uiReachable ReachableSample.state
  /\ initializeState Sample.today (Some (savedState ReachableSample.state))
     = ReachableSample.state.
Proof.
  split; [exact reachableSample_reachable|].
  exact (reload_restores_the_store Sample.today ReachableSample.state
           reachableSample_reachable).
Defined.
